(** * ClipScutter automation: a shallow embedding of the clip readers, the
      time helpers, the element locator, the click actuator, the batch
      runner and the clip downloader, with the properties of the
      specification that concern them and further properties of the sources.

    Source files embedded here:
    - [csv_reader.py]: [ClipData], [CSVReader.validate_time_format],
      [CSVReader.validate_youtube_url], [CSVReader.read_csv],
      [CSVReader.group_clips_by_url], [CSVReader.get_statistics],
      [CSVReader.export_grouped_clips];
    - [web_automation.py]: [validate_time_format],
      [convert_time_to_seconds], [format_seconds_to_time],
      [ClipScutterWebAutomation.find_element_with_multiple_selectors],
      [ClipScutterWebAutomation.safe_click],
      [ClipScutterWebAutomation.seconds_to_hms],
      [ClipScutterWebAutomation.parse_time_string], and the [current_url]
      bookkeeping of [input_youtube_url], [check_if_same_video_loaded] and
      [reset_for_new_video];
    - [run_automation.py]: [ClipScutterRunner.read_and_validate_csv],
      [ClipScutterRunner.process_all_clips],
      [ClipScutterRunner.download_all_clips];
    - [download_clips.py]: [ClipDownloader.find_all_clip_elements],
      [ClipDownloader.extract_clip_info],
      [ClipDownloader.download_all_clips], [ClipDownloader.clean_filename]
      and the file name loop of [ClipDownloader.download_clip_via_url];
    - [main.py]: [ClipScutterAutomation.read_csv_file] and
      [ClipScutterAutomation.group_clips_by_url].

    Conventions.  Python [int] is [Z]; [//] and [%] are [Z.div] and
    [Z.modulo] (both round towards minus infinity, as Python does).  A Python
    [str] is a [string] whose characters stand for the code points U+0000 to
    U+00FF.  A [dict] is an association list in insertion order with pairwise
    distinct keys.  A call that may raise returns an [outcome].  Logging is
    not embedded. *)

From Stdlib Require Import ZArith List Bool Ascii String Lia.
From Stdlib Require Import Permutation Sorted.
From Stdlib Require Import DecimalString DecimalFacts DecimalN DecimalZ.
Import ListNotations.

Local Open Scope string_scope.
Local Open Scope Z_scope.

(** ** Results of calls that may raise *)

Inductive outcome (A : Type) : Type :=
| Returned (a : A)
| Raised.
Arguments Returned {A} a.
Arguments Raised {A}.

(** ** Python string and integer primitives used by the sources *)

Module PyStr.

(** [all f xs] for a list comprehension under [all(...)];
    [any] is [existsb]. *)
Fixpoint map_opt {A B} (f : A -> option B) (xs : list A) : option (list B) :=
  match xs with
  | [] => Some []
  | x :: r =>
      match f x with
      | None => None
      | Some y =>
          match map_opt f r with
          | None => None
          | Some ys => Some (y :: ys)
          end
      end
  end.

Definition code (c : ascii) : Z := Z.of_nat (nat_of_ascii c).

(** ['0'..'9']: the characters [int()] reads as decimal digits. *)
Definition is_decimal_char (c : ascii) : bool :=
  (48 <=? code c) && (code c <=? 57).

(** [str.isdigit] on one character: the decimal digits and the three
    superscript digits U+00B2, U+00B3, U+00B9. *)
Definition isdigit_char (c : ascii) : bool :=
  is_decimal_char c
  || (code c =? 178) || (code c =? 179) || (code c =? 185).

Fixpoint forallb_str (p : ascii -> bool) (s : string) : bool :=
  match s with
  | EmptyString => true
  | String c r => p c && forallb_str p r
  end.

(** [s.isdigit()]: at least one character, all of them digits. *)
Definition isdigit (s : string) : bool :=
  match s with
  | EmptyString => false
  | _ => forallb_str isdigit_char s
  end.

(** Characters removed by [str.strip()]. *)
Definition isspace_char (c : ascii) : bool :=
  ((9 <=? code c) && (code c <=? 13))
  || ((28 <=? code c) && (code c <=? 32))
  || (code c =? 133) || (code c =? 160).

(** Characters [int()] skips around a literal. *)
Definition int_space_char (c : ascii) : bool :=
  ((9 <=? code c) && (code c <=? 13))
  || (code c =? 32) || (code c =? 133) || (code c =? 160).

Fixpoint lstrip_by (p : ascii -> bool) (s : string) : string :=
  match s with
  | EmptyString => EmptyString
  | String c r => if p c then lstrip_by p r else s
  end.

Fixpoint rstrip_by (p : ascii -> bool) (s : string) : string :=
  match s with
  | EmptyString => EmptyString
  | String c r =>
      match rstrip_by p r with
      | EmptyString => if p c then EmptyString else String c EmptyString
      | r' => String c r'
      end
  end.

Definition strip_by (p : ascii -> bool) (s : string) : string :=
  rstrip_by p (lstrip_by p s).

(** [s.strip()] *)
Definition strip (s : string) : string := strip_by isspace_char s.

(** [s.split(sep)] for a one-character separator: never empty. *)
Fixpoint split (sep : ascii) (s : string) : list string :=
  match s with
  | EmptyString => [EmptyString]
  | String c r =>
      if Ascii.eqb c sep then EmptyString :: split sep r
      else
        match split sep r with
        | h :: t => String c h :: t
        | [] => [String c EmptyString]
        end
  end.

(** [s.startswith(p)] *)
Definition startswith (s p : string) : bool := String.prefix p s.

(** [needle in hay] *)
Fixpoint contains (needle hay : string) : bool :=
  String.prefix needle hay
  || match hay with
     | EmptyString => false
     | String _ r => contains needle r
     end.

(** Underscores of an integer literal: allowed singly, between digits. *)
Fixpoint drop_underscores (prev_digit : bool) (s : string) : option string :=
  match s with
  | EmptyString => if prev_digit then Some EmptyString else None
  | String c r =>
      if Ascii.eqb c "_" then
        if prev_digit then drop_underscores false r else None
      else
        match drop_underscores true r with
        | Some r' => Some (String c r')
        | None => None
        end
  end.

(** [sys.int_info.default_max_str_digits]: a conversion between [str] and
    [int] involving more decimal digits raises [ValueError]. *)
Definition max_str_digits : Z := 4300.

Definition within_digit_limit (digits : string) : bool :=
  Z.of_nat (String.length digits) <=? max_str_digits.

(** Value of a non-empty string of decimal digits. *)
Definition digits_value (digits : string) : option Z :=
  match NilZero.uint_of_string digits with
  | Some d => Some (Z.of_uint d)
  | None => None
  end.

Definition int_unsigned (body : string) : option Z :=
  match drop_underscores false body with
  | Some digits =>
      if within_digit_limit digits then digits_value digits else None
  | None => None
  end.

(** [int(s)]; [None] stands for [ValueError]. *)
Definition int (s : string) : option Z :=
  match strip_by int_space_char s with
  | String "-" body => option_map Z.opp (int_unsigned body)
  | String "+" body => int_unsigned body
  | body => int_unsigned body
  end.

(** [str(n)] without the digit limit. *)
Definition decimal (n : Z) : string := NilZero.string_of_int (Z.to_int n).

(** [f"{n:02d}"]; [None] stands for the [ValueError] of the digit limit. *)
Definition format_02d (n : Z) : option string :=
  if within_digit_limit (decimal (Z.abs n)) then
    Some (if (0 <=? n) && (n <? 10) then String "0" (decimal n)
          else decimal n)
  else None.

End PyStr.

(** ** Printing integers *)

Module PyFormat.

(** [str(n)] with the digit limit; [None] stands for [ValueError]. *)
Definition str_int (n : Z) : option string :=
  if PyStr.within_digit_limit (PyStr.decimal (Z.abs n))
  then Some (PyStr.decimal n) else None.

End PyFormat.

(** ** Regular expressions as [re.match] uses them *)

Module Re.

(** The patterns of the sources: character classes, sequence, alternation
    and [?]. *)
Inductive regex : Type :=
| Class (p : ascii -> bool)
| Seq (a b : regex)
| Alt (a b : regex)
| Opt (a : regex).

(** [[lo-hi]] and a literal character. *)
Definition range (lo hi : ascii) : regex :=
  Class (fun c => (PyStr.code lo <=? PyStr.code c)
                  && (PyStr.code c <=? PyStr.code hi)).

Definition chr (a : ascii) : regex := Class (Ascii.eqb a).

(** Some way of matching [r] at the start of [s] leaves a rest that [k]
    accepts. *)
Fixpoint matches_then (r : regex) (s : string) (k : string -> bool) : bool :=
  match r with
  | Class p =>
      match s with
      | String c t => p c && k t
      | EmptyString => false
      end
  | Seq a b => matches_then a s (fun t => matches_then b t k)
  | Alt a b => matches_then a s k || matches_then b s k
  | Opt a => matches_then a s k || k s
  end.

(** [$]: the end of the string, or just before a newline that ends it. *)
Definition at_end (s : string) : bool :=
  match s with
  | EmptyString => true
  | String c EmptyString => Ascii.eqb c "010"
  | _ => false
  end.

(** [re.match('^' + r + '$', s) is not None] *)
Definition match_whole (r : regex) (s : string) : bool :=
  matches_then r s at_end.

End Re.

(** ** [web_automation.py]: the time helpers *)

Module TimeHelpers.

(** [convert_time_to_seconds]: every field goes through [int()], any
    exception (bad field, fewer than three fields) gives [0]. *)
Definition convert_time_to_seconds (time_str : string) : Z :=
  match PyStr.map_opt PyStr.int (PyStr.split ":" time_str) with
  | Some (h :: m :: s :: _) => h * 3600 + m * 60 + s
  | _ => 0
  end.

(** [format_seconds_to_time] *)
Definition format_seconds_to_time (seconds : Z) : option string :=
  let hours := seconds / 3600 in
  let minutes := (seconds mod 3600) / 60 in
  let secs := seconds mod 60 in
  match PyStr.format_02d hours, PyStr.format_02d minutes,
        PyStr.format_02d secs with
  | Some h, Some m, Some s => Some (h ++ ":" ++ m ++ ":" ++ s)
  | _, _, _ => None
  end.

End TimeHelpers.

(** ** [web_automation.py]: the other time functions *)

Module WebTime.

(** The pattern [^([0-1]?[0-9]|2[0-3]):[0-5][0-9]:[0-5][0-9]$]. *)
Definition time_pattern : Re.regex :=
  Re.Seq (Re.Alt (Re.Seq (Re.Opt (Re.range "0" "1")) (Re.range "0" "9"))
                 (Re.Seq (Re.chr "2") (Re.range "0" "3")))
    (Re.Seq (Re.chr ":")
       (Re.Seq (Re.range "0" "5")
          (Re.Seq (Re.range "0" "9")
             (Re.Seq (Re.chr ":")
                (Re.Seq (Re.range "0" "5") (Re.range "0" "9")))))).

(** The module-level [validate_time_format] of [web_automation.py]. *)
Definition validate_time_format (time_str : string) : bool :=
  Re.match_whole time_pattern time_str.

(** [seconds_to_hms] *)
Definition seconds_to_hms (seconds : Z) : Z * Z * Z :=
  let hours := seconds / 3600 in
  let minutes := (seconds mod 3600) / 60 in
  let secs := seconds mod 60 in
  (hours, minutes, secs).

(** [parse_time_string]: fields that are not digits are dropped before the
    fields are counted; the bare [except] turns a failing [int()] into
    [0]. *)
Definition parse_time_string (time_str : string) : Z :=
  if negb (PyStr.contains ":" time_str) then 0
  else
    match filter PyStr.isdigit (PyStr.split ":" (PyStr.strip time_str)) with
    | [m; s] =>
        match PyStr.int m, PyStr.int s with
        | Some mv, Some sv => mv * 60 + sv
        | _, _ => 0
        end
    | [h; m; s] =>
        match PyStr.int h, PyStr.int m, PyStr.int s with
        | Some hv, Some mv, Some sv => hv * 3600 + mv * 60 + sv
        | _, _, _ => 0
        end
    | _ => 0
    end.

End WebTime.

(** ** [csv_reader.py] *)

Module CsvReader.

(** [ClipData] *)
Record ClipData : Type := mkClip {
  start_time : string;
  end_time : string;
  youtube_url : string;
  row_number : Z
}.

(** A Python [dict] from URL to clip list, in insertion order. *)
Definition clip_dict : Type := list (string * list ClipData).

(** The [CSVReader] object. *)
Record CSVReader : Type := mkReader {
  csv_path : string;
  clips : list ClipData;
  grouped_clips : clip_dict
}.

(** [CSVReader.__init__] *)
Definition init (path : string) : CSVReader := mkReader path [] [].

(** [CSVReader.validate_time_format].  The [or] is short-circuit and the
    [except Exception] turns a failing [int()] into [False]. *)
Definition validate_time_format (time_str : string) : bool :=
  match PyStr.split ":" time_str with
  | [hours; minutes; seconds] =>
      if negb (PyStr.isdigit hours && PyStr.isdigit minutes
               && PyStr.isdigit seconds)
      then false
      else
        match PyStr.int minutes with
        | None => false
        | Some m =>
            if 60 <=? m then false
            else
              match PyStr.int seconds with
              | None => false
              | Some s => if 60 <=? s then false else true
              end
        end
  | _ => false
  end.

Definition youtube_domains : list string :=
  ["youtube.com"; "youtu.be"; "www.youtube.com"].

(** [CSVReader.validate_youtube_url] *)
Definition validate_youtube_url (url : string) : bool :=
  existsb (fun domain => PyStr.contains domain url) youtube_domains
  && PyStr.startswith url "http".

(** An entry of [invalid_rows]: row number, reason, the row. *)
Definition invalid_row : Type := (Z * string * list string)%type.

(** Body of the [for row_num, row in enumerate(csv_reader, 1)] loop:
    either the clip appended to [clips] or the entry appended to
    [invalid_rows]. *)
Definition check_row (row_num : Z) (row : list string)
  : ClipData + invalid_row :=
  match row with
  | c0 :: c1 :: c2 :: _ =>
      let start := PyStr.strip c0 in
      let stop := PyStr.strip c1 in
      let url := PyStr.strip c2 in
      if negb (validate_time_format start) then
        inr (row_num, "Invalid start time format", row)
      else if negb (validate_time_format stop) then
        inr (row_num, "Invalid end time format", row)
      else if negb (validate_youtube_url url) then
        inr (row_num, "Invalid YouTube URL", row)
      else inl (mkClip start stop url row_num)
  | _ => inr (row_num, "Insufficient columns", row)
  end.

(** The loop over the rows, numbered from [row_num]. *)
Fixpoint read_rows (row_num : Z) (rows : list (list string))
  : list ClipData * list invalid_row :=
  match rows with
  | [] => ([], [])
  | row :: rest =>
      let '(cs, bad) := read_rows (row_num + 1) rest in
      match check_row row_num row with
      | inl c => (c :: cs, bad)
      | inr b => (cs, b :: bad)
      end
  end.

(** What [open] and [csv.reader] deliver: no file, the rows of the file,
    or some rows and then a decoding or parsing error. *)
Inductive csv_source : Type :=
| NoFile
| Rows (rows : list (list string))
| RowsThenError (rows : list (list string)).

(** [CSVReader.read_csv]: the returned list (or the re-raised exception),
    the reported invalid rows, and the reader afterwards. *)
Definition read_csv (self : CSVReader) (src : csv_source)
  : outcome (list ClipData) * list invalid_row * CSVReader :=
  match src with
  | Rows rows =>
      let '(cs, bad) := read_rows 1 rows in
      (Returned cs, bad,
       mkReader (csv_path self) cs (grouped_clips self))
  | NoFile | RowsThenError _ => (Raised, [], self)
  end.

(** [grouped[key].append(clip)] on a [defaultdict(list)]. *)
Fixpoint dict_append (key : string) (clip : ClipData) (d : clip_dict)
  : clip_dict :=
  match d with
  | [] => [(key, [clip])]
  | (k, v) :: r =>
      if String.eqb k key then (k, (v ++ [clip])%list) :: r
      else (k, v) :: dict_append key clip r
  end.

(** [result[key] = value] *)
Fixpoint dict_set (key : string) (value : list ClipData) (d : clip_dict)
  : clip_dict :=
  match d with
  | [] => [(key, value)]
  | (k, v) :: r =>
      if String.eqb k key then (k, value) :: r
      else (k, v) :: dict_set key value r
  end.

(** [list.sort(key=lambda x: x.row_number)]: a stable sort. *)
Fixpoint insert_by_row (c : ClipData) (l : list ClipData) : list ClipData :=
  match l with
  | [] => [c]
  | d :: r =>
      if row_number c <=? row_number d then c :: l
      else d :: insert_by_row c r
  end.

Definition sort_by_row (l : list ClipData) : list ClipData :=
  fold_right insert_by_row [] l.

(** First loop of [group_clips_by_url]. *)
Definition collect (cs : list ClipData) : clip_dict :=
  fold_left (fun grouped clip => dict_append (youtube_url clip) clip grouped)
            cs [].

(** Second loop of [group_clips_by_url]. *)
Definition sort_groups (grouped : clip_dict) : clip_dict :=
  fold_left (fun result kv => dict_set (fst kv) (sort_by_row (snd kv)) result)
            grouped [].

(** The log line of a group prints the row numbers of its first and of its
    last clip with [str]; [false] stands for the exception of an empty list
    or of the digit limit. *)
Definition log_line (url_clips : list ClipData) : bool :=
  match url_clips with
  | [] => false
  | first :: _ =>
      match PyFormat.str_int (row_number first),
            PyFormat.str_int (row_number (List.last url_clips first)) with
      | Some _, Some _ => true
      | _, _ => false
      end
  end.

(** [CSVReader.group_clips_by_url]: [arg = None] is the default argument,
    which reads [self.clips].  The dictionary is stored in the reader
    before the log lines of the groups are printed; these may raise, and
    nothing is returned then. *)
Definition group_clips_by_url (self : CSVReader)
           (arg : option (list ClipData)) : outcome clip_dict * CSVReader :=
  let cs := match arg with None => clips self | Some l => l end in
  let result := sort_groups (collect cs) in
  (if forallb (fun kv => log_line (snd kv)) result
   then Returned result else Raised,
   mkReader (csv_path self) (clips self) result).

End CsvReader.

(** ** The browser session as the sources use it *)

Module WebDriver.

(** A located element; [is_displayed] is what [element.is_displayed()]
    would answer at the moment the element was found. *)
Record WebElement : Type := mkElement {
  elem_id : Z;
  is_displayed : bool
}.

(** One evaluation of [EC.presence_of_element_located((By.XPATH, sel))]:
    an element, [NoSuchElementException], [TimeoutException], or any other
    exception. *)
Inductive lookup : Type :=
| Found (e : WebElement)
| NoSuchElement
| LookupTimeout
| LookupError.

(** The interactions of [safe_click] with an element. *)
Inductive action : Type :=
| ScrollIntoView  (* execute_script: scrollIntoView({block: 'center'}) *)
| WaitClickable   (* WebDriverWait(driver, 2).until(element_to_be_clickable) *)
| NativeClick     (* element.click() *)
| JsClick         (* execute_script: arguments[0].click() *)
| FocusClick      (* execute_script: focus(); click() *)
| DispatchClick.  (* execute_script: dispatchEvent(new MouseEvent('click')) *)

(** How an interaction ends: normally, with
    [ElementClickInterceptedException], or with another [Exception]. *)
Inductive signal : Type :=
| Done
| ClickIntercepted
| OtherException.

(** The remote browser: a state and its reactions.  Durations are in
    milliseconds; [polls_within t] is the number of further polls a
    [WebDriverWait] of [t] seconds makes after its first one. *)
Class Driver (World : Type) : Type := {
  find_element : string -> World -> lookup * World;
  perform : action -> WebElement -> World -> signal * World;
  sleep : Z -> World -> World;
  polls_within : Z -> nat
}.

(** What the session did, in order. *)
Inductive event : Type :=
| EvFind (selector : string) (r : lookup)
| EvPerform (a : action) (e : WebElement) (r : signal)
| EvSleep (ms : Z).

(** The same browser, keeping a journal of everything asked of it. *)
#[local] Instance logged {World} (D : Driver World)
  : Driver (World * list event) := {
  find_element sel wl :=
    let '(r, w) := find_element sel (fst wl) in
    (r, (w, (snd wl ++ [EvFind sel r])%list));
  perform a e wl :=
    let '(r, w) := perform a e (fst wl) in
    (r, (w, (snd wl ++ [EvPerform a e r])%list));
  sleep ms wl := (sleep ms (fst wl), (snd wl ++ [EvSleep ms])%list);
  polls_within := polls_within
}.

End WebDriver.

(** ** [web_automation.py]: locator and actuator *)

Module WebAutomation.
Import WebDriver.

Section WithDriver.
Context {World : Type} {D : Driver World}.

(** How [WebDriverWait(...).until(presence_of_element_located(...))]
    ends: the element, [TimeoutException] (its own, or one a lookup raised),
    or another exception. *)
Inductive wait_result : Type :=
| WaitFound (e : WebElement)
| WaitTimeout
| WaitError.

(** [WebDriverWait.until]: poll, ignore [NoSuchElementException], pause
    half a second, until the polls of the timeout are used up.  Any other
    exception of a lookup, [TimeoutException] included, leaves the wait as
    it is. *)
Fixpoint wait_until (polls : nat) (selector : string) (w : World)
  : wait_result * World :=
  let '(r, w1) := find_element selector w in
  match r with
  | Found e => (WaitFound e, w1)
  | LookupTimeout => (WaitTimeout, w1)
  | LookupError => (WaitError, w1)
  | NoSuchElement =>
      match polls with
      | O => (WaitTimeout, w1)
      | S k => wait_until k selector (sleep 500 w1)
      end
  end.

(** [find_element_with_multiple_selectors]: only [TimeoutException] is
    caught, whoever raised it. *)
Fixpoint find_element_with_multiple_selectors
         (selectors : list string) (timeout : Z) (w : World)
  : outcome (option WebElement) * World :=
  match selectors with
  | [] => (Returned None, w)
  | selector :: rest =>
      let '(r, w1) := wait_until (polls_within timeout) selector w in
      match r with
      | WaitFound element => (Returned (Some element), w1)
      | WaitTimeout => find_element_with_multiple_selectors rest timeout w1
      | WaitError => (Raised, w1)
      end
  end.

(** The [try] block of one attempt of [safe_click]. *)
Definition click_directly (element : WebElement) (w : World)
  : signal * World :=
  let '(r1, w1) := perform ScrollIntoView element w in
  match r1 with
  | Done =>
      let '(r2, w2) := perform WaitClickable element (sleep 100 w1) in
      match r2 with
      | Done => perform NativeClick element w2
      | _ => (r2, w2)
      end
  | _ => (r1, w1)
  end.

(** The [for attempt in range(max_attempts)] loop of [safe_click]. *)
Fixpoint click_attempts (attempts : nat) (element : WebElement)
         (w : World) : bool * World :=
  match attempts with
  | O => (false, w)
  | S k =>
      let '(r, w1) := click_directly element w in
      match r with
      | Done => (true, w1)
      | ClickIntercepted =>
          let '(r2, w2) := perform JsClick element w1 in
          match r2 with
          | Done => (true, w2)
          | _ => click_attempts k element w2
          end
      | OtherException =>
          let '(r2, w2) := perform FocusClick element w1 in
          match r2 with
          | Done => (true, w2)
          | _ =>
              let '(r3, w3) := perform DispatchClick element w2 in
              match r3 with
              | Done => (true, w3)
              | _ => click_attempts k element (sleep 500 w3)
              end
          end
      end
  end.

(** [safe_click] *)
Definition safe_click (element : WebElement) (max_attempts : Z)
           (w : World) : bool * World :=
  click_attempts (Z.to_nat max_attempts) element w.

End WithDriver.

End WebAutomation.

(** ** [run_automation.py]: the batch runner *)

Module Runner.
Import CsvReader.

(** What the runner asks of the site through [ClipScutterWebAutomation]:
    each operation catches its own exceptions and answers with a [bool].
    [submit_url] is [input_youtube_url] up to, and without, the assignment
    of [current_url]. *)
Class Site (World : Type) : Type := {
  submit_url : string -> World -> bool * World;
  navigate_to_homepage : World -> bool * World;
  set_quality_to_1080p : World -> bool * World;
  create_clip : string -> string -> bool -> World -> bool * World;
  sleep : Z -> World -> World
}.

(** The fields of [ClipScutterWebAutomation] the runner depends on. *)
Record Automation (World : Type) : Type := mkAutomation {
  current_url : option string;
  session : World
}.
Arguments mkAutomation {World}.
Arguments current_url {World}.
Arguments session {World}.

(** [self.stats] *)
Record Stats : Type := mkStats {
  total_clips : Z;
  clips_created : Z;
  clips_downloaded : Z;
  failed_clips : Z;
  unique_urls : Z
}.

(** The delays of [config.py] the runner uses, in milliseconds. *)
Record Config : Type := mkConfig {
  DELAY_BETWEEN_CLIPS : Z;
  DELAY_AFTER_URL_INPUT : Z
}.

Definition default_config : Config := mkConfig 1000 500.

(** [ClipScutterRunner]: [web_automation] is [None] until
    [initialize_modules]; [downloader] tells whether that field is set. *)
Record ClipScutterRunner (World : Type) : Type := mkRunner {
  config : Config;
  stats : Stats;
  web_automation : option (Automation World);
  downloader : bool
}.
Arguments mkRunner {World}.
Arguments config {World}.
Arguments stats {World}.
Arguments web_automation {World}.
Arguments downloader {World}.

(** [ClipScutterRunner.__init__]: all counters at zero. *)
Definition initial_stats : Stats := mkStats 0 0 0 0 0.

(** Clips recorded as created plus clips recorded as failed. *)
Definition attempted (st : Stats) : Z := clips_created st + failed_clips st.

(** Number of descriptors in all groups. *)
Definition total_descriptors (groups : clip_dict) : Z :=
  fold_right (fun kv n => Z.of_nat (List.length (snd kv)) + n) 0 groups.

Section WithSite.
Context {World : Type} {site : Site World}.

(** [check_if_same_video_loaded]: [self.current_url == youtube_url]. *)
Definition check_if_same_video_loaded (wa : Automation World)
           (youtube_url : string) : bool :=
  match current_url wa with
  | Some u => String.eqb u youtube_url
  | None => false
  end.

(** [reset_for_new_video] *)
Definition reset_for_new_video (wa : Automation World)
  : bool * Automation World :=
  let '(ok, w) := navigate_to_homepage (session wa) in
  (ok, mkAutomation None w).

(** [input_youtube_url]: [current_url] is set on success only. *)
Definition input_youtube_url (wa : Automation World) (youtube_url : string)
  : bool * Automation World :=
  let '(ok, w) := submit_url youtube_url (session wa) in
  if ok then (true, mkAutomation (Some youtube_url) w)
  else (false, mkAutomation (current_url wa) w).

(** [time.sleep] *)
Definition pause (ms : Z) (wa : Automation World) : Automation World :=
  mkAutomation (current_url wa) (sleep ms (session wa)).

(** [self.stats['clips_created'] += 1] *)
Definition count_created (st : Stats) : Stats :=
  mkStats (total_clips st) (clips_created st + 1) (clips_downloaded st)
          (failed_clips st) (unique_urls st).

(** [self.stats['failed_clips'] += 1] *)
Definition count_failed (st : Stats) : Stats :=
  mkStats (total_clips st) (clips_created st) (clips_downloaded st)
          (failed_clips st + 1) (unique_urls st).

(** The inner loop [for i, clip in enumerate(clips, 1)]. *)
Fixpoint create_clips (cfg : Config) (i : Z) (cs : list ClipData)
         (st : Stats) (wa : Automation World) : Stats * Automation World :=
  match cs with
  | [] => (st, wa)
  | clip :: rest =>
      let navigate_to_controls := 1 <? i in
      let '(success, w) :=
        create_clip (start_time clip) (end_time clip) navigate_to_controls
                    (session wa) in
      let wa1 := mkAutomation (current_url wa) w in
      let '(st1, wa2) :=
        if success then (count_created st, pause 3000 wa1)
        else (count_failed st, wa1) in
      create_clips cfg (i + 1) rest st1 (pause (DELAY_BETWEEN_CLIPS cfg) wa2)
  end.

(** The part of the outer loop body before the clips: [false] is the
    [continue] taken when the URL cannot be submitted. *)
Definition load_video (cfg : Config) (youtube_url : string)
           (wa : Automation World) : bool * Automation World :=
  if negb (check_if_same_video_loaded wa youtube_url) then
    let wa1 :=
      match current_url wa with
      | Some _ => pause (DELAY_BETWEEN_CLIPS cfg) (snd (reset_for_new_video wa))
      | None => wa
      end in
    let '(ok, wa2) := input_youtube_url wa1 youtube_url in
    if negb ok then (false, wa2)
    else
      let '(_, w) := set_quality_to_1080p (session wa2) in
      (true, pause (DELAY_AFTER_URL_INPUT cfg)
                   (mkAutomation (current_url wa2) w))
  else (true, wa).

(** The outer loop [for youtube_url, clips in grouped_clips.items()]. *)
Fixpoint process_groups (cfg : Config) (groups : clip_dict)
         (st : Stats) (wa : Automation World) : Stats * Automation World :=
  match groups with
  | [] => (st, wa)
  | (youtube_url, cs) :: rest =>
      let '(loaded, wa1) := load_video cfg youtube_url wa in
      if loaded then
        let '(st', wa2) := create_clips cfg 1 cs st wa1 in
        process_groups cfg rest st' wa2
      else process_groups cfg rest st wa1
  end.

(** [process_all_clips]: [_ensure_modules_initialized] raises when a module
    is missing, and the [except Exception] returns [False]. *)
Definition process_all_clips (self : ClipScutterRunner World)
           (grouped_clips : clip_dict) : bool * ClipScutterRunner World :=
  match web_automation self, downloader self with
  | Some wa, true =>
      let '(st, wa') := process_groups (config self) grouped_clips
                                       (stats self) wa in
      (true, mkRunner (config self) st (Some wa') true)
  | _, _ => (false, self)
  end.

End WithSite.

End Runner.

(** ** [csv_reader.py]: the statistics *)

Module CsvStatistics.
Import CsvReader.

(** A true division [a / b] of integers gives a float and raises
    [OverflowError] when the quotient rounds to [2 ** 1024] or more, that is
    from [2 ** 1024 - 2 ** 970] on; the fraction itself is kept here, not
    its rounding. *)
Definition float_overflow_bound : Z := 2 ^ 1024 - 2 ^ 970.

Definition true_divide (a b : Z) : option (Z * Z) :=
  if b =? 0 then None
  else if float_overflow_bound * Z.abs b <=? Z.abs a then None
       else Some (a, b).

(** The dictionary [get_statistics] returns when clips are loaded. *)
Record Statistics : Type := mkStatistics {
  total_clips : Z;
  unique_youtube_urls : Z;
  total_duration_seconds : Z;
  total_duration_formatted : string;
  average_clip_duration : Z * Z
}.

(** What [get_statistics] returns: [{"error": "No clips loaded"}] or the
    statistics. *)
Inductive statistics_dict : Type :=
| NoClipsLoaded
| Loaded (st : Statistics).

(** [parts = [int(x) for x in time.split(':')]] and
    [parts[0] * 3600 + parts[1] * 60 + parts[2]]; [None] is an exception. *)
Definition hms_seconds (time : string) : option Z :=
  match PyStr.map_opt PyStr.int (PyStr.split ":" time) with
  | Some (h :: m :: s :: _) => Some (h * 3600 + m * 60 + s)
  | _ => None
  end.

(** What one clip adds to [total_duration]: nothing when an exception makes
    the loop [continue], nothing when the duration is not positive. *)
Definition clip_duration (clip : ClipData) : Z :=
  match hms_seconds (start_time clip), hms_seconds (end_time clip) with
  | Some start_seconds, Some end_seconds =>
      let d := end_seconds - start_seconds in
      if 0 <? d then d else 0
  | _, _ => 0
  end.

(** [len(set(clip.youtube_url for clip in self.clips))] *)
Definition count_unique_urls (cs : list ClipData) : Z :=
  Z.of_nat (List.length (nodup string_dec (map youtube_url cs))).

(** [CSVReader.get_statistics]: the formatting and the division may
    raise. *)
Definition get_statistics (self : CSVReader) : outcome statistics_dict :=
  match clips self with
  | [] => Returned NoClipsLoaded
  | _ =>
      let total_clips := Z.of_nat (List.length (clips self)) in
      let unique_urls := count_unique_urls (clips self) in
      let total_duration :=
        fold_left (fun total clip => total + clip_duration clip)
                  (clips self) 0 in
      match PyStr.format_02d (total_duration / 3600),
            PyStr.format_02d ((total_duration mod 3600) / 60),
            PyStr.format_02d (total_duration mod 60) with
      | Some h, Some m, Some s =>
          match (if 0 <? total_clips
                 then true_divide total_duration total_clips
                 else Some (0, 1)) with
          | Some average =>
              Returned (Loaded (mkStatistics total_clips unique_urls
                                             total_duration
                                             (h ++ ":" ++ m ++ ":" ++ s)
                                             average))
          | None => Raised
          end
      | _, _, _ => Raised
      end
  end.

End CsvStatistics.

(** ** [csv_reader.py]: the export *)

Module CsvExport.
Import CsvReader.

(** The header row. *)
Definition header : list string :=
  ["youtube_url"; "start_time"; "end_time"; "original_row"].

(** The row written for a clip; [csv.writer] prints the row number with
    [str], which may raise. *)
Definition clip_row (clip : ClipData) : option (list string) :=
  match PyFormat.str_int (row_number clip) with
  | Some n => Some [youtube_url clip; start_time clip; end_time clip; n]
  | None => None
  end.

(** The two nested loops. *)
Definition clip_rows (grouped : clip_dict) : option (list (list string)) :=
  PyStr.map_opt clip_row (List.concat (map snd grouped)).

(** [export_grouped_clips]: the rows of the file written; [writable] tells
    whether [open] succeeds.  Every exception is logged and raised
    again. *)
Definition export_grouped_clips (self : CSVReader) (writable : bool)
  : outcome (list (list string)) :=
  if writable then
    match clip_rows (grouped_clips self) with
    | Some rows => Returned (header :: rows)
    | None => Raised
    end
  else Raised.

End CsvExport.

(** ** [run_automation.py]: reading the file *)

Module RunnerCsv.
Import CsvReader.

(** The dictionary [read_and_validate_csv] returns. *)
Record CsvData : Type := mkCsvData {
  data_clips : list ClipData;
  data_grouped_clips : clip_dict;
  data_stats : CsvStatistics.Statistics
}.

(** [self.stats['total_clips'] = ...; self.stats['unique_urls'] = ...] *)
Definition set_totals {World : Type} (self : Runner.ClipScutterRunner World)
           (total unique : Z) : Runner.ClipScutterRunner World :=
  let st := Runner.stats self in
  Runner.mkRunner
    (Runner.config self)
    (Runner.mkStats total (Runner.clips_created st)
                    (Runner.clips_downloaded st) (Runner.failed_clips st)
                    unique)
    (Runner.web_automation self) (Runner.downloader self).

(** [read_and_validate_csv]: [None] when the file is missing, when no row
    is valid, or when anything raises; the totals are stored once the
    statistics are there, before [stats['total_duration_formatted']] is
    looked up for the log. *)
Definition read_and_validate_csv {World : Type}
           (self : Runner.ClipScutterRunner World)
           (csv_path : string) (src : csv_source)
  : option CsvData * Runner.ClipScutterRunner World :=
  match src with
  | NoFile => (None, self)
  | _ =>
      let csv_reader := init csv_path in
      match read_csv csv_reader src with
      | (Returned [], _, _) => (None, self)
      | (Returned cs, _, reader1) =>
          match group_clips_by_url reader1 (Some cs) with
          | (Returned grouped, reader2) =>
              match CsvStatistics.get_statistics reader2 with
              | Returned stats =>
                  let self1 := set_totals self (Z.of_nat (List.length cs))
                                          (Z.of_nat (List.length grouped)) in
                  match stats with
                  | CsvStatistics.Loaded st =>
                      (Some (mkCsvData cs grouped st), self1)
                  | CsvStatistics.NoClipsLoaded => (None, self1)
                  end
              | Raised => (None, self)
              end
          | (Raised, _) => (None, self)
          end
      | (Raised, _, _) => (None, self)
      end
  end.

End RunnerCsv.

(** ** [main.py]: the first reader and its grouping *)

Module Main.

(** [ClipData] of [main.py]: no row number. *)
Record ClipData : Type := mkClip {
  start_time : string;
  end_time : string;
  youtube_url : string
}.

(** The loop of [read_csv_file]: a row of fewer than three fields is
    logged and left out; nothing is validated. *)
Fixpoint read_rows (rows : list (list string)) : list ClipData :=
  match rows with
  | [] => []
  | row :: rest =>
      match row with
      | c0 :: c1 :: c2 :: _ =>
          mkClip (PyStr.strip c0) (PyStr.strip c1) (PyStr.strip c2)
          :: read_rows rest
      | _ => read_rows rest
      end
  end.

(** [read_csv_file]: every exception is logged and raised again. *)
Definition read_csv_file (src : CsvReader.csv_source)
  : outcome (list ClipData) :=
  match src with
  | CsvReader.Rows rows => Returned (read_rows rows)
  | CsvReader.NoFile | CsvReader.RowsThenError _ => Raised
  end.

(** [if clip.youtube_url not in grouped: grouped[clip.youtube_url] = []]
    and [grouped[clip.youtube_url].append(clip)]. *)
Fixpoint add_clip (clip : ClipData) (grouped : list (string * list ClipData))
  : list (string * list ClipData) :=
  match grouped with
  | [] => [(youtube_url clip, [clip])]
  | (k, v) :: r =>
      if String.eqb k (youtube_url clip) then (k, (v ++ [clip])%list) :: r
      else (k, v) :: add_clip clip r
  end.

(** [group_clips_by_url] of [main.py]: no sorting. *)
Definition group_clips_by_url (clips : list ClipData)
  : list (string * list ClipData) :=
  fold_left (fun grouped clip => add_clip clip grouped) clips [].

End Main.

(** ** [download_clips.py] *)

Module Downloader.

(** The dictionary built for a clip; [menu_type] is absent from the
    dictionaries of [extract_clip_info]. *)
Record ClipInfo : Type := mkClipInfo {
  index : Z;
  title : string;
  download_url : option string;
  download_button : option WebDriver.WebElement;
  menu_type : option string
}.

(** Truth value of [clip_info['download_url']]: [None] and the empty
    string are false. *)
Definition truthy (url : option string) : bool :=
  match url with
  | Some (String _ _) => true
  | _ => false
  end.

(** What the downloader asks of the browser and of its own methods that
    are not embedded.  The methods catch their exceptions and answer with a
    [bool]; the calls of the browser may raise: [find_elements] is
    [driver.find_elements(By.XPATH, selector)], [find_within] is
    [element.find_element(By.XPATH, selector)], [element_text] is
    [element.text], [get_href] is [element.get_attribute('href')].
    Durations are in milliseconds. *)
Class ClipsPage (World : Type) : Type := {
  navigate_to_clips_page : World -> bool * World;
  find_elements : string -> World -> outcome (list WebDriver.WebElement) * World;
  find_within :
    WebDriver.WebElement -> string -> World
    -> outcome WebDriver.WebElement * World;
  element_text : WebDriver.WebElement -> World -> outcome string * World;
  tag_name : WebDriver.WebElement -> World -> outcome string * World;
  get_href : WebDriver.WebElement -> World -> outcome (option string) * World;
  download_clip_via_button : ClipInfo -> World -> bool * World;
  download_clip_via_url : ClipInfo -> World -> bool * World;
  save_download_report :
    Z -> Z -> Z -> list string -> list string -> World -> World;
  sleep : Z -> World -> World
}.

(** The fields of [ClipDownloader] the methods below depend on. *)
Record ClipDownloader (World : Type) : Type := mkDownloader {
  downloaded_clips : list string;
  failed_downloads : list string;
  page : World
}.
Arguments mkDownloader {World}.
Arguments downloaded_clips {World}.
Arguments failed_downloads {World}.
Arguments page {World}.

(** [button_selectors] of [find_all_clip_elements].  The twelfth selector
    holds U+22EE, written here as its three UTF-8 bytes. *)
Definition button_selectors : list string :=
  ["//button[contains(@class, 'cutterClipsListItem_downloadIcon__gik8o')]";
   "//button[contains(@class, 'MuiIconButton') and contains(@title, 'Download')]";
   "//button[contains(@class, 'MuiIconButton') and .//svg[contains(@viewBox, '24 24') and .//path[contains(@d, 'M8 10C8 7.79086')]]]";
   "//button[contains(@title, 'Download') or contains(@aria-label, 'Download')]";
   "//button[.//svg[.//path[contains(@d, 'download') or contains(@d, 'Download')]]]";
   "//button[contains(@class, 'downloadIcon')]";
   "//button[contains(@class, 'download')]";
   "*[contains(@class, 'cutterClipsListItem_action')]/button";
   "//button[.//svg[@data-testid='MoreVertIcon']]";
   "//button[contains(@aria-label, 'more') or contains(@aria-label, 'More')]";
   "//button[.//svg[contains(@class, 'MoreVert')]]";
   "//button[.//span[text()='"
     ++ String "226" (String "139" (String "174" "']]"));
   "//button[.//span[contains(text(), '...')]]";
   "//*[@role='button'][.//svg[@data-testid='MoreVertIcon']]";
   "//div[@role='button'][.//svg[@data-testid='MoreVertIcon']]";
   "//button[contains(@class, 'MuiIconButton') and .//svg]";
   "//button[.//svg[contains(@viewBox, '24') and contains(., 'M12 8c1.1 0 2-.9 2-2s-.9-2-2-2-2 .9-2 2 .9 2 2 2zm0 2c-1.1 0-2 .9-2 2s.9 2 2 2 2-.9 2-2-.9-2-2-2zm0 6c-1.1 0-2 .9-2 2s.9 2 2 2 2-.9 2-2-.9-2-2-2z')]]";
   "//button[.//svg/path[contains(@d, 'M12 8c1.1 0 2-.9 2-2s-.9-2-2-2-2 .9-2 2 .9 2 2 2zm0 2c-1.1 0-2 .9-2 2s.9 2 2 2 2-.9 2-2-.9-2-2-2zm0 6c-1.1 0-2 .9-2 2s.9 2 2 2 2-.9 2-2-.9-2-2-2z')]]";
   "//button[ancestor::*[contains(text(), 'download') or contains(text(), 'Download')]]";
   "//button[following-sibling::*[contains(text(), 'download')] or preceding-sibling::*[contains(text(), 'download')]]"].

(** [clip_selectors] of [find_all_clip_elements]. *)
Definition clip_selectors : list string :=
  ["//div[contains(@class, 'clip')]";
   "//div[contains(@class, 'video')]";
   "//div[contains(@class, 'item')]";
   "//article";
   "//div[.//a[contains(@href, 'download')]]";
   "//div[.//button[contains(text(), 'Download')]]"].

(** [title_selectors] and [download_selectors] of [extract_clip_info]. *)
Definition title_selectors : list string :=
  [".//h1 | .//h2 | .//h3 | .//h4";
   ".//*[contains(@class, 'title')]";
   ".//*[contains(@class, 'name')]";
   ".//span[contains(@class, 'clip')]"].

Definition download_selectors : list string :=
  [".//a[contains(@href, 'download')]";
   ".//button[contains(text(), 'Download')]";
   ".//a[contains(text(), 'Download')]";
   ".//button[contains(@class, 'download')]";
   ".//a[contains(@class, 'download')]"].

(** [str.isalnum] on one character. *)
Definition isalnum_char (c : ascii) : bool :=
  let n := PyStr.code c in
  ((48 <=? n) && (n <=? 57)) || ((65 <=? n) && (n <=? 90))
  || ((97 <=? n) && (n <=? 122)) || (n =? 170)
  || ((178 <=? n) && (n <=? 179)) || (n =? 181)
  || ((185 <=? n) && (n <=? 186)) || ((188 <=? n) && (n <=? 190))
  || ((192 <=? n) && (n <=? 214)) || ((216 <=? n) && (n <=? 246))
  || ((248 <=? n) && (n <=? 255)).

(** [c.isalnum() or c in (' ', '-', '_')] *)
Definition title_char (c : ascii) : bool :=
  isalnum_char c || Ascii.eqb c " " || Ascii.eqb c "-" || Ascii.eqb c "_".

(** ["".join(c for c in s if p(c))] *)
Fixpoint filter_str (p : ascii -> bool) (s : string) : string :=
  match s with
  | EmptyString => EmptyString
  | String c r => if p c then String c (filter_str p r) else filter_str p r
  end.

(** Truth value of a string. *)
Definition nonempty (s : string) : bool :=
  match s with
  | EmptyString => false
  | String _ _ => true
  end.

(** [f"{index:03d}"]: zeros up to three characters, the sign included.
    The index is a position in a list held in memory, so printing it stays
    below the digit limit. *)
Fixpoint pad_zeros (n : nat) (digits : string) : string :=
  match n with
  | O => digits
  | S k => String "0" (pad_zeros k digits)
  end.

Definition format_03d (index : Z) : string :=
  let digits := PyStr.decimal (Z.abs index) in
  if index <? 0 then String "-" (pad_zeros (2 - String.length digits) digits)
  else pad_zeros (3 - String.length digits) digits.

(** [button not in unique_buttons] compares elements as
    [WebElement.__eq__] does, by their identifier. *)
Definition same_element (a b : WebDriver.WebElement) : bool :=
  WebDriver.elem_id a =? WebDriver.elem_id b.

(** The loop that removes duplicates from [download_buttons]. *)
Definition unique_buttons (download_buttons : list WebDriver.WebElement)
  : list WebDriver.WebElement :=
  fold_left
    (fun unique button =>
       if existsb (same_element button) unique then unique
       else (unique ++ [button])%list)
    download_buttons [].

(** The loop [for index, button in enumerate(more_buttons, 1)].  The
    index is a position in a list held in memory, so printing it stays
    below the digit limit. *)
Fixpoint menu_clips (index : Z) (buttons : list WebDriver.WebElement)
  : list ClipInfo :=
  match buttons with
  | [] => []
  | button :: rest =>
      mkClipInfo index ("Clip_" ++ PyStr.decimal index) None (Some button)
                 (Some "material_ui_dropdown")
      :: menu_clips (index + 1) rest
  end.

(** [clean_filename]: the characters replaced, the replacement of one of
    them, and the method. *)
Definition invalid_chars : list ascii :=
  ["<"; ">"; ":"; "034"; "/"; "092"; "|"; "?"; "*"]%char.

Fixpoint replace_char (old new : ascii) (s : string) : string :=
  match s with
  | EmptyString => EmptyString
  | String c r =>
      String (if Ascii.eqb c old then new else c) (replace_char old new r)
  end.

Definition clean_filename (filename : string) : string :=
  let replaced :=
    fold_left (fun name char => replace_char char "_" name)
              invalid_chars filename in
  let limited :=
    if 200 <? Z.of_nat (String.length replaced)
    then String.substring 0 200 replaced
    else replaced in
  PyStr.strip limited.

(** The loop [while os.path.exists(filepath)] of [download_clip_via_url],
    entered with [filename] and [counter].  [path_exists name] is
    [os.path.exists(os.path.join(self.download_dir, name))].  The result is
    the file name the download is written to, [Raised] when formatting the
    counter raises (the method then returns [False]), and [None] when
    [fuel] iterations were not enough. *)
Fixpoint unique_from (fuel : nat) (path_exists : string -> bool)
         (title extension : string) (counter : Z) (filename : string)
  : option (outcome string) :=
  if path_exists filename then
    match fuel with
    | O => None
    | S k =>
        match PyFormat.str_int counter with
        | Some digits =>
            let base_name := title ++ "_" ++ digits in
            unique_from k path_exists title extension (counter + 1)
                        (base_name ++ extension)
        | None => Some Raised
        end
    end
  else Some (Returned filename).

(** [filename = f"{clip_info['title']}{extension}"], [counter = 1] and the
    loop. *)
Definition unique_filename (fuel : nat) (path_exists : string -> bool)
           (title extension : string) : option (outcome string) :=
  unique_from fuel path_exists title extension 1 (title ++ extension).

(** What [download_all_clips] returns: [{"success": False, ...}], the
    dictionary without lists when no clip is found, or the summary. *)
Inductive download_result : Type :=
| NavigationFailed
| NothingToDownload
| Summary (total_clips downloaded failed : Z)
          (downloaded_clips failed_clips : list string).

Section WithPage.
Context {World : Type} {P : ClipsPage World}.

(** The loop over [button_selectors]: a selector that raises or finds
    nothing is passed over; the loop stops after the selector that carries
    the site's own class name, if it finds something. *)
Fixpoint gather_buttons (selectors : list string)
         (download_buttons : list WebDriver.WebElement) (w : World)
  : list WebDriver.WebElement * World :=
  match selectors with
  | [] => (download_buttons, w)
  | selector :: rest =>
      let '(r, w1) := find_elements selector w in
      match r with
      | Returned (b :: bs) =>
          let extended := (download_buttons ++ b :: bs)%list in
          if PyStr.contains "cutterClipsListItem_downloadIcon" selector
          then (extended, w1)
          else gather_buttons rest extended w1
      | Returned [] | Raised => gather_buttons rest download_buttons w1
      end
  end.

(** The loop over [clip_selectors]: the elements of the first selector
    that finds any. *)
Fixpoint first_clip_elements (selectors : list string) (w : World)
  : list WebDriver.WebElement * World :=
  match selectors with
  | [] => ([], w)
  | selector :: rest =>
      let '(r, w1) := find_elements selector w in
      match r with
      | Returned (e :: es) => (e :: es, w1)
      | Returned [] | Raised => first_clip_elements rest w1
      end
  end.

(** The loop over [title_selectors]: a selector that raises, or whose
    element has no text, is passed over; the first text there is ends the
    loop, and replaces the title when something of it is left. *)
Fixpoint find_title (selectors : list string) (element : WebDriver.WebElement)
         (title : string) (w : World) : string * World :=
  match selectors with
  | [] => (title, w)
  | selector :: rest =>
      let '(found, w1) := find_within element selector w in
      match found with
      | Returned title_element =>
          let '(text, w2) := element_text title_element w1 in
          match text with
          | Returned t =>
              let title_text := PyStr.strip t in
              if nonempty title_text then
                let clean_title :=
                  PyStr.strip (filter_str title_char title_text) in
                if nonempty clean_title
                then (String.substring 0 50 clean_title, w2)
                else (title, w2)
              else find_title rest element title w2
          | Raised => find_title rest element title w2
          end
      | Raised => find_title rest element title w1
      end
  end.

(** The loop over [download_selectors]: the button, and the value of
    [clip_info['download_url']] after it. *)
Fixpoint find_download (selectors : list string)
         (element : WebDriver.WebElement) (url : option string) (w : World)
  : option WebDriver.WebElement * option string * World :=
  match selectors with
  | [] => (None, url, w)
  | selector :: rest =>
      let '(found, w1) := find_within element selector w in
      match found with
      | Returned download_element =>
          let '(tag, w2) := tag_name download_element w1 in
          match tag with
          | Returned name =>
              if String.eqb name "a" then
                let '(attribute, w3) := get_href download_element w2 in
                match attribute with
                | Returned href =>
                    (Some download_element,
                     if truthy href then href else url, w3)
                | Raised => find_download rest element url w3
                end
              else (Some download_element, url, w2)
          | Raised => find_download rest element url w2
          end
      | Raised => find_download rest element url w1
      end
  end.

(** [extract_clip_info]: [None] when neither a button nor a URL was
    found. *)
Definition extract_clip_info (element : WebDriver.WebElement) (index : Z)
           (w : World) : option ClipInfo * World :=
  let '(title, w1) :=
    find_title title_selectors element ("clip_" ++ format_03d index) w in
  let '(button, url, w2) :=
    find_download download_selectors element None w1 in
  match button with
  | None =>
      if truthy url then (Some (mkClipInfo index title url None None), w2)
      else (None, w2)
  | Some _ => (Some (mkClipInfo index title url button None), w2)
  end.

(** The loop [for i, element in enumerate(clip_elements)], [i] counted
    from [i0]. *)
Fixpoint extract_all (i0 : Z) (elements : list WebDriver.WebElement)
         (w : World) : list ClipInfo * World :=
  match elements with
  | [] => ([], w)
  | element :: rest =>
      let '(clip_info, w1) := extract_clip_info element (i0 + 1) w in
      let '(clips, w2) := extract_all (i0 + 1) rest w1 in
      match clip_info with
      | Some info => (info :: clips, w2)
      | None => (clips, w2)
      end
  end.

(** [find_all_clip_elements] *)
Definition find_all_clip_elements (w : World) : list ClipInfo * World :=
  let '(download_buttons, w1) := gather_buttons button_selectors [] w in
  match unique_buttons download_buttons with
  | [] =>
      let '(clip_elements, w2) := first_clip_elements clip_selectors w1 in
      extract_all 0 clip_elements w2
  | more_buttons => (menu_clips 1 more_buttons, w1)
  end.

(** The body of the loop of [download_all_clips] up to the counters: the
    button first, the URL when there is no button or the button failed. *)
Definition download_one (clip_info : ClipInfo) (w : World) : bool * World :=
  match download_button clip_info with
  | Some _ =>
      let '(success, w1) := download_clip_via_button clip_info w in
      if success then (true, w1)
      else if truthy (download_url clip_info)
           then download_clip_via_url clip_info w1
           else (false, w1)
  | None =>
      if truthy (download_url clip_info)
      then download_clip_via_url clip_info w
      else (false, w)
  end.

(** The loop [for clip_info in clips] with its two counters. *)
Fixpoint download_each (clips : list ClipInfo)
         (downloaded_count failed_count : Z) (self : ClipDownloader World)
  : Z * Z * ClipDownloader World :=
  match clips with
  | [] => (downloaded_count, failed_count, self)
  | clip_info :: rest =>
      let '(success, w) := download_one clip_info (page self) in
      let w1 := sleep 3000 w in
      if success then
        download_each rest (downloaded_count + 1) failed_count
          (mkDownloader (downloaded_clips self ++ [title clip_info])%list
                        (failed_downloads self) w1)
      else
        download_each rest downloaded_count (failed_count + 1)
          (mkDownloader (downloaded_clips self)
                        (failed_downloads self ++ [title clip_info])%list w1)
  end.

(** [download_all_clips]: the lists in the summary are the downloader's own
    lists. *)
Definition download_all_clips (self : ClipDownloader World)
  : download_result * ClipDownloader World :=
  let '(arrived, w) := navigate_to_clips_page (page self) in
  if negb arrived then
    (NavigationFailed,
     mkDownloader (downloaded_clips self) (failed_downloads self) w)
  else
    let '(clips, w1) := find_all_clip_elements w in
    let self1 :=
      mkDownloader (downloaded_clips self) (failed_downloads self) w1 in
    match clips with
    | [] => (NothingToDownload, self1)
    | _ =>
        let '(downloaded_count, failed_count, self2) :=
          download_each clips 0 0 self1 in
        let total := Z.of_nat (List.length clips) in
        let w2 :=
          save_download_report total downloaded_count failed_count
            (downloaded_clips self2) (failed_downloads self2) (page self2) in
        (Summary total downloaded_count failed_count
                 (downloaded_clips self2) (failed_downloads self2),
         mkDownloader (downloaded_clips self2) (failed_downloads self2) w2)
    end.

End WithPage.

End Downloader.

(** ** [run_automation.py]: downloading *)

Module RunnerDownload.

(** [self.stats['clips_downloaded'] = result['downloaded']] *)
Definition set_downloaded (st : Runner.Stats) (downloaded : Z)
  : Runner.Stats :=
  Runner.mkStats (Runner.total_clips st) (Runner.clips_created st)
                 downloaded (Runner.failed_clips st) (Runner.unique_urls st).

(** [ClipScutterRunner.download_all_clips]: [skip_download] is
    [self.args.skip_download]; a missing downloader raises inside the
    [try], and the method returns [False]. *)
Definition download_all_clips {World : Type}
           {P : Downloader.ClipsPage World} (skip_download : bool)
           (st : Runner.Stats)
           (downloader : option (Downloader.ClipDownloader World))
  : bool * Runner.Stats * option (Downloader.ClipDownloader World) :=
  if skip_download then (true, st, downloader)
  else
    match downloader with
    | None => (false, st, None)
    | Some clip_downloader =>
        let '(result, after) := Downloader.download_all_clips clip_downloader in
        match result with
        | Downloader.NavigationFailed => (false, st, Some after)
        | Downloader.NothingToDownload =>
            (true, set_downloaded st 0, Some after)
        | Downloader.Summary _ downloaded _ _ _ =>
            (true, set_downloaded st downloaded, Some after)
        end
    end.

End RunnerDownload.

(** ** Notions used to state the properties *)

Module TimeStrings.

(** A field of a time string: one or more decimal digits. *)
Definition decimal_field (s : string) : bool :=
  match s with
  | EmptyString => false
  | _ => PyStr.forallb_str PyStr.is_decimal_char s
  end.

(** The number a field denotes. *)
Definition field_value (s : string) : Z :=
  match PyStr.digits_value s with
  | Some v => v
  | None => 0
  end.

(** Time strings of the form HH:MM:SS with minutes and seconds in [0,60). *)
Definition hhmmss_form (s : string) : Prop :=
  exists h m x,
    s = h ++ ":" ++ m ++ ":" ++ x
    /\ decimal_field h = true /\ decimal_field m = true
    /\ decimal_field x = true
    /\ field_value m < 60 /\ field_value x < 60.

End TimeStrings.

Section LoaderNotions.
Import PyStr CsvReader.

(** A cell that [validate_time_format] turns down once stripped. *)
Definition malformed_time (cell : string) : bool :=
  negb (validate_time_format (strip cell)).

(** The host of an absolute URL: what follows the first "://", up to the
    next "/", "?", "#" or ":". *)
Fixpoint after_scheme (url : string) : option string :=
  match url with
  | EmptyString => None
  | String c r =>
      if String.prefix "://" url then
        match r with
        | String _ (String _ rest) => Some rest
        | _ => None
        end
      else after_scheme r
  end.

Fixpoint until_delimiter (s : string) : string :=
  match s with
  | EmptyString => EmptyString
  | String c r =>
      if existsb (Ascii.eqb c) ["/"; "?"; "#"; ":"]%char then EmptyString
      else String c (until_delimiter r)
  end.

Definition url_host (url : string) : string :=
  match after_scheme url with
  | Some rest => until_delimiter rest
  | None => EmptyString
  end.

End LoaderNotions.

Section GroupingNotions.
Import CsvReader.
Local Open Scope list_scope.

(** The clips of one URL, of one row number; row order. *)
Definition has_url (k : string) (c : ClipData) : bool :=
  String.eqb (youtube_url c) k.

Definition has_row (n : Z) (c : ClipData) : bool := row_number c =? n.

Definition by_row (a b : ClipData) : Prop := row_number a <= row_number b.

(** [d.get(key)] *)
Fixpoint dict_get (key : string) (d : clip_dict) : option (list ClipData) :=
  match d with
  | [] => None
  | (k, v) :: r => if String.eqb k key then Some v else dict_get key r
  end.

(** An entry extended by the clips that follow. *)
Definition extend (o : option (list ClipData)) (l : list ClipData)
  : option (list ClipData) :=
  match o, l with
  | None, [] => None
  | None, _ => Some l
  | Some v, _ => Some (v ++ l)%list
  end.

Definition sort_entry (kv : string * list ClipData)
  : string * list ClipData :=
  (fst kv, sort_by_row (snd kv)).

(** The bodies of the two loops of [group_clips_by_url]. *)
Definition collect_step (grouped : clip_dict) (clip : ClipData) : clip_dict :=
  dict_append (youtube_url clip) clip grouped.

Definition sort_step (result : clip_dict) (kv : string * list ClipData)
  : clip_dict :=
  dict_set (fst kv) (sort_by_row (snd kv)) result.

(** Groups that are not empty and hold clips of their own URL only. *)
Definition well_grouped (g : clip_dict) : Prop :=
  forall k v, In (k, v) g ->
              v <> [] /\ forall c, In c v -> youtube_url c = k.

End GroupingNotions.

(** Time strings as the loader lets them through: three fields, the
    minutes and the seconds decimal numbers below 60, the hours a field that
    [str.isdigit] accepts. *)
Definition loaded_time (s h m x : string) : Prop :=
  s = h ++ ":" ++ m ++ ":" ++ x
  /\ PyStr.isdigit h = true
  /\ TimeStrings.decimal_field m = true
  /\ TimeStrings.decimal_field x = true
  /\ TimeStrings.field_value m < 60
  /\ TimeStrings.field_value x < 60.

(** An hours field that is a decimal number [int] reads: decimal digits
    only, and no more of them than the digit limit allows. *)
Definition decimal_hours (h : string) : bool :=
  TimeStrings.decimal_field h && PyStr.within_digit_limit h.

(** Integers [str] prints: those of at most 4300 digits. *)
Definition prints (n : Z) : Prop := PyFormat.str_int n <> None.

(** A dictionary whose log lines can all be printed: no group is empty, and
    [str] prints the row numbers of the first and of the last clip of every
    group. *)
Definition logs_cleanly (g : CsvReader.clip_dict) : Prop :=
  forall k v,
    In (k, v) g ->
    exists first,
      hd_error v = Some first
      /\ prints (CsvReader.row_number first)
      /\ prints (CsvReader.row_number (List.last v first)).

(** Check that [format_02d] of [k] is a two-digit field reading back as
    [k]. *)
Definition two_digit_check (k : nat) : bool :=
  match PyStr.format_02d (Z.of_nat k) with
  | Some t =>
      TimeStrings.decimal_field t && (TimeStrings.field_value t =? Z.of_nat k)
      && Nat.eqb (String.length t) 2
  | None => false
  end.

(** ** Example sessions *)

(** A page on which no selector matches anything. *)
#[local] Instance empty_page : WebDriver.Driver unit := {
  find_element _ w := (WebDriver.NoSuchElement, w);
  perform _ _ w := (WebDriver.OtherException, w);
  sleep _ w := w;
  polls_within t := Z.to_nat (2 * t)
}.

(** A page whose only button is present in the document but hidden. *)
Definition hidden_button : WebDriver.WebElement :=
  WebDriver.mkElement 7 false.

#[local] Instance hidden_button_page : WebDriver.Driver unit := {
  find_element sel w :=
    (if String.eqb sel "//button[text()='CLICK']"
     then WebDriver.Found hidden_button else WebDriver.NoSuchElement, w);
  perform _ _ w := (WebDriver.OtherException, w);
  sleep _ w := w;
  polls_within t := Z.to_nat (2 * t)
}.

(** A page with an overlay: native clicks are intercepted, clicks
    dispatched from a script go through.  The state counts the native
    clicks tried. *)
#[local] Instance overlay_page : WebDriver.Driver nat := {
  find_element _ w := (WebDriver.NoSuchElement, w);
  perform a _ w :=
    match a with
    | WebDriver.NativeClick => (WebDriver.ClickIntercepted, S w)
    | _ => (WebDriver.Done, w)
    end;
  sleep _ w := w;
  polls_within t := Z.to_nat (2 * t)
}.

(** A page on which the lookup of the first candidate raises
    [TimeoutException] and the second candidate is there, hidden. *)
#[local] Instance stalling_page : WebDriver.Driver unit := {
  find_element sel w :=
    (if String.eqb sel "//button[text()='Submit']"
     then WebDriver.LookupTimeout else WebDriver.Found hidden_button, w);
  perform _ _ w := (WebDriver.OtherException, w);
  sleep _ w := w;
  polls_within t := Z.to_nat (2 * t)
}.

(** The lookup that ended the locator, if one did. *)
Definition locator_ending (r : outcome (option WebDriver.WebElement))
  : option WebDriver.lookup :=
  match r with
  | Returned (Some e) => Some (WebDriver.Found e)
  | Raised => Some WebDriver.LookupError
  | Returned None => None
  end.

(** The journal of [k] lookups of [sel] that found nothing, each followed
    by the pause of half a second. *)
Fixpoint vain (sel : string) (k : nat) : list WebDriver.event :=
  match k with
  | O => []
  | S n =>
      WebDriver.EvFind sel WebDriver.NoSuchElement
      :: WebDriver.EvSleep 500 :: vain sel n
  end.

(** The journal of a wait on [sel] that ends in [TimeoutException]: the
    timeout is used up by [polls + 1] lookups that find nothing, or a
    lookup raises the exception itself, possibly before that. *)
Definition gives_up (polls : nat) (sel : string)
           (log : list WebDriver.event) : Prop :=
  log = (vain sel polls
         ++ [WebDriver.EvFind sel WebDriver.NoSuchElement])%list
  \/ exists k,
       (k <= polls)%nat
       /\ log = (vain sel k
                 ++ [WebDriver.EvFind sel WebDriver.LookupTimeout])%list.

(** The journal of candidates given up one after the other, in list
    order. *)
Fixpoint given_up (polls : nat) (selectors : list string)
         (log : list WebDriver.event) : Prop :=
  match selectors with
  | [] => log = []
  | sel :: rest =>
      exists first others,
        log = (first ++ others)%list
        /\ gives_up polls sel first /\ given_up polls rest others
  end.

(** A journal that stops at candidate [i] with the lookup [r]: the
    candidates before it were given up in list order, candidate [i] was
    looked up [k] times in vain and then gave [r], and nothing follows. *)
Definition stops_with (polls : nat) (selectors : list string)
           (log : list WebDriver.event) (r : WebDriver.lookup) : Prop :=
  exists i sel k before,
    nth_error selectors i = Some sel
    /\ (k <= polls)%nat
    /\ log = (before ++ vain sel k ++ [WebDriver.EvFind sel r])%list
    /\ given_up polls (firstn i selectors) before.

(** A journal in which every candidate was given up, in list order. *)
Definition exhausts (polls : nat) (selectors : list string)
           (log : list WebDriver.event) : Prop :=
  given_up polls selectors log.

(** A site on which no URL can be submitted; clips, if asked for, would be
    created. *)
#[local] Instance url_field_missing : Runner.Site unit := {
  submit_url _ w := (false, w);
  navigate_to_homepage w := (true, w);
  set_quality_to_1080p w := (true, w);
  create_clip _ _ _ w := (true, w);
  sleep _ w := w
}.


(** ** Notions for the further properties *)

(** The number a decimal digit character stands for. *)
Definition digit (c : ascii) : Z := PyStr.code c - 48.

(** The rest of the pattern after the hours. *)
Definition after_hours (t : string) : bool :=
  Re.matches_then
    (Re.Seq (Re.chr ":")
       (Re.Seq (Re.range "0" "5")
          (Re.Seq (Re.range "0" "9")
             (Re.Seq (Re.chr ":")
                (Re.Seq (Re.range "0" "5") (Re.range "0" "9"))))))
    t Re.at_end.

(** The strings the pattern of [validate_time_format] describes: one or
    two hour digits below 24, two minute digits and two second digits below
    60, and possibly a final newline. *)
Definition day_time_form (s : string) : Prop :=
  exists h m x tail,
    s = h ++ ":" ++ m ++ ":" ++ x ++ tail
    /\ Re.at_end tail = true
    /\ TimeStrings.decimal_field h = true
    /\ TimeStrings.decimal_field m = true
    /\ TimeStrings.decimal_field x = true
    /\ (String.length h <= 2)%nat
    /\ String.length m = 2%nat /\ String.length x = 2%nat
    /\ TimeStrings.field_value h < 24
    /\ TimeStrings.field_value m < 60
    /\ TimeStrings.field_value x < 60.

(** The distinct elements of a list, in the order of their first
    occurrence. *)
Definition first_seen (l : list string) : list string :=
  rev (nodup string_dec (rev l)).

(** The row number of an entry of [invalid_rows]. *)
Definition invalid_row_number (b : CsvReader.invalid_row) : Z := fst (fst b).

(** The row numbers [first], [first + 1], ... of [n] rows. *)
Definition row_numbers (first : Z) (n : nat) : list Z :=
  map (fun j => first + Z.of_nat j) (seq 0 n).

(** The counters [process_all_clips] does not own, and the direction in
    which it moves the two it owns. *)
Definition keeps_totals (before after : Runner.Stats) : Prop :=
  Runner.total_clips after = Runner.total_clips before
  /\ Runner.clips_downloaded after = Runner.clips_downloaded before
  /\ Runner.unique_urls after = Runner.unique_urls before
  /\ Runner.clips_created before <= Runner.clips_created after
  /\ Runner.failed_clips before <= Runner.failed_clips after.

(** A site on which every URL loads; clips that start at [00:00:00]
    fail, the others are created. *)
#[local] Instance steady_site : Runner.Site unit := {
  submit_url _ w := (true, w);
  navigate_to_homepage w := (true, w);
  set_quality_to_1080p w := (true, w);
  create_clip start _ _ w := (negb (String.eqb start "00:00:00"), w);
  sleep _ w := w
}.

(** A file of three rows for two videos. *)
Definition three_rows : list (list string) :=
  [["00:00:10"; "00:00:20"; "https://youtu.be/a"];
   ["00:00:00"; "00:00:05"; "https://youtu.be/b"];
   ["00:05:00"; "00:05:30"; "https://youtu.be/a"]].

(** A runner right after [__init__] and [initialize_modules]. *)
Definition fresh_runner : Runner.ClipScutterRunner unit :=
  Runner.mkRunner Runner.default_config Runner.initial_stats
                  (Some (Runner.mkAutomation None tt)) true.

(** The [k]-th file name [download_clip_via_url] tries: the plain name
    first, then the names numbered from 1. *)
Definition candidate (title extension : string) (k : Z) : string :=
  if k =? 0 then title ++ extension
  else (title ++ "_" ++ PyStr.decimal k) ++ extension.

(** A directory that holds the plain name and the name numbered 1. *)
Definition taken_twice (name : string) : bool :=
  String.eqb name "clip_001.mp4" || String.eqb name "clip_001_1.mp4".

(** Characters [clean_filename] does not replace, and what its
    replacements make of one character. *)
Definition valid_char (c : ascii) : bool :=
  negb (existsb (Ascii.eqb c) Downloader.invalid_chars).

Definition clean_char (c : ascii) : ascii :=
  fold_left (fun x old => if Ascii.eqb x old then "_"%char else x)
            Downloader.invalid_chars c.

(** File names without a replaced character, of at most 200 characters,
    that neither start nor end with white space. *)
Definition portable (name : string) : Prop :=
  PyStr.forallb_str valid_char name = true
  /\ (String.length name <= 200)%nat
  /\ PyStr.strip name = name.

(** The identifier of the download button of a clip. *)
Definition button_id (c : Downloader.ClipInfo) : option Z :=
  option_map WebDriver.elem_id (Downloader.download_button c).

(** The clips [download_all_clips] finds, once it has reached the clips
    page. *)
Definition clips_found {World : Type} {P : Downloader.ClipsPage World}
           (self : Downloader.ClipDownloader World)
  : list Downloader.ClipInfo :=
  fst (Downloader.find_all_clip_elements
         (snd (Downloader.navigate_to_clips_page (Downloader.page self)))).

(** A clips page on which the site's own selector finds four buttons, two
    of them the same element; the button of the second clip does not
    respond. *)
#[local] Instance three_buttons_page : Downloader.ClipsPage unit := {
  navigate_to_clips_page w := (true, w);
  find_elements sel w :=
    (if String.eqb sel
          "//button[contains(@class, 'cutterClipsListItem_downloadIcon__gik8o')]"
     then Returned [WebDriver.mkElement 11 true; WebDriver.mkElement 12 true;
                    WebDriver.mkElement 11 true; WebDriver.mkElement 13 true]
     else Returned [], w);
  find_within _ _ w := (Raised, w);
  element_text _ w := (Raised, w);
  tag_name _ w := (Raised, w);
  get_href _ w := (Raised, w);
  download_clip_via_button c w := (negb (Downloader.index c =? 2), w);
  download_clip_via_url _ w := (false, w);
  save_download_report _ _ _ _ _ w := w;
  sleep _ w := w
}.

(** A downloader that has one download behind it. *)
Definition used_downloader : Downloader.ClipDownloader unit :=
  Downloader.mkDownloader ["Clip_1"] [] tt.

(** A clip of [csv_reader.py] as [main.py] holds it. *)
Definition without_row (c : CsvReader.ClipData) : Main.ClipData :=
  Main.mkClip (CsvReader.start_time c) (CsvReader.end_time c)
              (CsvReader.youtube_url c).

(** The three checks of [CSVReader.read_csv], on a clip of [main.py]. *)
Definition passes_checks (c : Main.ClipData) : bool :=
  CsvReader.validate_time_format (Main.start_time c)
  && CsvReader.validate_time_format (Main.end_time c)
  && CsvReader.validate_youtube_url (Main.youtube_url c).

(** The clips of one URL, in list order. *)
Definition clips_of (url : string) (cs : list Main.ClipData)
  : list Main.ClipData :=
  filter (fun c => String.eqb (Main.youtube_url c) url) cs.

(** The interactions that deliver a click, the journal entries of a click
    that went through, and the native clicks tried. *)
Definition is_click (a : WebDriver.action) : bool :=
  match a with
  | WebDriver.NativeClick | WebDriver.JsClick
  | WebDriver.FocusClick | WebDriver.DispatchClick => true
  | WebDriver.ScrollIntoView | WebDriver.WaitClickable => false
  end.

Definition delivered (ev : WebDriver.event) : bool :=
  match ev with
  | WebDriver.EvPerform a _ WebDriver.Done => is_click a
  | _ => false
  end.

Definition native_click (ev : WebDriver.event) : bool :=
  match ev with
  | WebDriver.EvPerform WebDriver.NativeClick _ _ => true
  | _ => false
  end.

(** No click of the journal went through. *)
Definition undelivered (log : list WebDriver.event) : Prop :=
  forallb (fun ev => negb (delivered ev)) log = true.

(** The last entry of the journal is a click that went through, and the
    only one. *)
Definition ends_with_delivery (log : list WebDriver.event) : Prop :=
  exists before last,
    log = (before ++ [last])%list
    /\ delivered last = true /\ undelivered before.

(** A clips page without buttons of its own: two [article] elements, the
    first with a heading and a download link, the second with neither. *)
#[local] Instance articles_page : Downloader.ClipsPage unit := {
  navigate_to_clips_page w := (true, w);
  find_elements sel w :=
    (if String.eqb sel "//article"
     then Returned [WebDriver.mkElement 21 true; WebDriver.mkElement 22 true]
     else Returned [], w);
  find_within element sel w :=
    (if (WebDriver.elem_id element =? 21)
        && String.eqb sel ".//h1 | .//h2 | .//h3 | .//h4"
     then Returned (WebDriver.mkElement 31 true)
     else if (WebDriver.elem_id element =? 21)
             && String.eqb sel ".//a[contains(@href, 'download')]"
          then Returned (WebDriver.mkElement 32 true)
          else Raised, w);
  element_text _ w := (Returned "  My clip: part 1/2 ", w);
  tag_name _ w := (Returned "a", w);
  get_href _ w := (Returned (Some "https://www.clipscutter.com/download/1"), w);
  download_clip_via_button _ w := (false, w);
  download_clip_via_url _ w := (true, w);
  save_download_report _ _ _ _ _ w := w;
  sleep _ w := w
}.

(** A reader that holds one group of two clips. *)
Definition grouped_reader : CsvReader.CSVReader :=
  CsvReader.mkReader "clips.csv" []
    [("https://youtu.be/a",
      [CsvReader.mkClip "00:00:10" "00:00:20" "https://youtu.be/a" 1;
       CsvReader.mkClip "00:05:00" "00:05:30" "https://youtu.be/a" 3])].

(** * Properties *)

(** ** The model on concrete inputs *)

Example split_keeps_empty_fields :
  PyStr.split ":" "a::b" = ["a"; ""; "b"] /\ PyStr.split ":" "" = [""].
Proof. split; reflexivity. Qed.

Example strip_removes_outer_blanks :
  PyStr.strip "  00:00:10 " = "00:00:10".
Proof. reflexivity. Qed.

Example int_accepts :
  PyStr.int "007" = Some 7 /\ PyStr.int " 12 " = Some 12
  /\ PyStr.int "-5" = Some (-5) /\ PyStr.int "+5" = Some 5
  /\ PyStr.int "1_000" = Some 1000.
Proof. repeat split; reflexivity. Qed.

Example int_raises :
  PyStr.int "" = None /\ PyStr.int "12a" = None /\ PyStr.int "1__0" = None
  /\ PyStr.int "_1" = None /\ PyStr.int "- 5" = None
  /\ PyStr.int (String "178" "") = None.
Proof. repeat split; reflexivity. Qed.

Example format_02d_pads :
  PyStr.format_02d 0 = Some "00" /\ PyStr.format_02d 5 = Some "05"
  /\ PyStr.format_02d 123 = Some "123" /\ PyStr.format_02d (-1) = Some "-1".
Proof. repeat split; reflexivity. Qed.

Example convert_examples :
  TimeHelpers.convert_time_to_seconds "01:02:03" = 3723
  /\ TimeHelpers.convert_time_to_seconds "1:2:3:4" = 3723
  /\ TimeHelpers.convert_time_to_seconds "1:2" = 0
  /\ TimeHelpers.convert_time_to_seconds "a:b:c" = 0
  /\ TimeHelpers.convert_time_to_seconds "-1:00:00" = -3600.
Proof. repeat split; reflexivity. Qed.

Example format_examples :
  TimeHelpers.format_seconds_to_time 3723 = Some "01:02:03"
  /\ TimeHelpers.format_seconds_to_time 360000 = Some "100:00:00"
  /\ TimeHelpers.format_seconds_to_time (-1) = Some "-1:59:59".
Proof. repeat split; reflexivity. Qed.

Example validate_time_format_examples :
  CsvReader.validate_time_format "00:00:59" = true
  /\ CsvReader.validate_time_format "1:2:3" = true
  /\ CsvReader.validate_time_format "100:00:00" = true
  /\ CsvReader.validate_time_format "00:60:00" = false
  /\ CsvReader.validate_time_format "00:00" = false
  /\ CsvReader.validate_time_format "-1:00:00" = false
  /\ CsvReader.validate_time_format "aa:00:00" = false.
Proof. repeat split; reflexivity. Qed.

(** A superscript two passes [isdigit()] but not [int()]: as the hours it
    is never converted and the string is accepted; as the minutes the
    [ValueError] is caught and the string is turned down. *)
Example validate_time_format_superscript :
  CsvReader.validate_time_format (String "178" ":00:00") = true
  /\ CsvReader.validate_time_format ("00:" ++ String "178" ":00") = false
  /\ TimeHelpers.convert_time_to_seconds (String "178" ":00:00") = 0.
Proof. repeat split; reflexivity. Qed.

Example validate_youtube_url_examples :
  CsvReader.validate_youtube_url "https://www.youtube.com/watch?v=a" = true
  /\ CsvReader.validate_youtube_url "https://youtu.be/a" = true
  /\ CsvReader.validate_youtube_url "ftp://youtube.com/a" = false
  /\ CsvReader.validate_youtube_url "https://vimeo.com/1" = false.
Proof. repeat split; reflexivity. Qed.

(** Clips built without a row number all carry the default [0]; the stable
    sort then keeps each group in input order. *)
Example grouping_with_default_rows :
  let a1 := CsvReader.mkClip "00:00:10" "00:00:20" "u1" 0 in
  let b1 := CsvReader.mkClip "00:00:00" "00:00:05" "u2" 0 in
  let a2 := CsvReader.mkClip "00:05:00" "00:05:30" "u1" 0 in
  CsvReader.grouped_clips (snd (CsvReader.group_clips_by_url (CsvReader.init "clip_ranges.csv")
                                    (Some [a1; b1; a2])))
  = [("u1", [a1; a2]); ("u2", [b1])].
Proof. reflexivity. Qed.

(** With no attempt allowed [safe_click] gives up without touching the
    page; on a page whose overlay never goes away the native click is
    tried once and the scripted click ends the first attempt. *)
Example safe_click_examples :
  WebAutomation.safe_click (D := WebDriver.logged overlay_page)
                           hidden_button 0 (O, [])
  = (false, (O, []))
  /\ fst (snd (WebAutomation.safe_click (D := WebDriver.logged overlay_page)
                                        hidden_button 3 (O, [])))
     = 1%nat.
Proof. split; reflexivity. Qed.

(** ** Characters *)

Section Characters.
Import PyStr.

Lemma decimal_char_facts (c : ascii) :
  is_decimal_char c = true ->
  int_space_char c = false /\ isspace_char c = false
  /\ isdigit_char c = true
  /\ Ascii.eqb c ":" = false /\ Ascii.eqb c "_" = false
  /\ c <> "-"%char /\ c <> "+"%char.
Proof.
  destruct c as [[|] [|] [|] [|] [|] [|] [|] [|]];
    vm_compute; intro H; try discriminate H;
    repeat split; discriminate.
Qed.

End Characters.

(** ** Strings *)

Section Strings.
Import PyStr.

Lemma forallb_str_impl (p q : ascii -> bool) (s : string) :
  (forall c, p c = true -> q c = true) ->
  forallb_str p s = true -> forallb_str q s = true.
Proof.
  intros Hpq. induction s as [|c r IH]; simpl; [reflexivity|].
  intros H. apply andb_true_iff in H as [Hc Hr].
  rewrite (Hpq c Hc), (IH Hr). reflexivity.
Qed.

Lemma forallb_str_app (p : ascii -> bool) (a b : string) :
  forallb_str p (a ++ b) = forallb_str p a && forallb_str p b.
Proof.
  induction a as [|c r IH]; simpl; [reflexivity|].
  rewrite IH. apply andb_assoc.
Qed.

Lemma rstrip_by_none (p : ascii -> bool) (s : string) :
  forallb_str (fun c => negb (p c)) s = true -> rstrip_by p s = s.
Proof.
  induction s as [|c r IH]; simpl; [reflexivity|].
  intros H. apply andb_true_iff in H as [Hc Hr].
  rewrite (IH Hr). destruct r as [|c' r'].
  - apply negb_true_iff in Hc. rewrite Hc. reflexivity.
  - reflexivity.
Qed.

Lemma strip_by_none (p : ascii -> bool) (s : string) :
  forallb_str (fun c => negb (p c)) s = true -> strip_by p s = s.
Proof.
  intros H. unfold strip_by.
  assert (Hl : lstrip_by p s = s).
  { destruct s as [|c r]; [reflexivity|]. simpl in *.
    apply andb_true_iff in H as [Hc _]. apply negb_true_iff in Hc.
    rewrite Hc. reflexivity. }
  rewrite Hl. apply rstrip_by_none, H.
Qed.

Lemma split_no_sep (sep : ascii) (s : string) :
  forallb_str (fun c => negb (Ascii.eqb c sep)) s = true ->
  split sep s = [s].
Proof.
  induction s as [|c r IH]; simpl; [reflexivity|].
  intros H. apply andb_true_iff in H as [Hc Hr].
  apply negb_true_iff in Hc. rewrite Hc, (IH Hr). reflexivity.
Qed.

Lemma split_app (sep : ascii) (a rest : string) :
  forallb_str (fun c => negb (Ascii.eqb c sep)) a = true ->
  split sep (a ++ String sep rest) = a :: split sep rest.
Proof.
  induction a as [|c r IH]; simpl.
  - intros _. rewrite Ascii.eqb_refl. reflexivity.
  - intros H. apply andb_true_iff in H as [Hc Hr].
    apply negb_true_iff in Hc. rewrite Hc, (IH Hr). reflexivity.
Qed.

Lemma split_nonempty (sep : ascii) (s : string) : split sep s <> [].
Proof.
  destruct s as [|c r]; simpl; [discriminate|].
  destruct (Ascii.eqb c sep); [discriminate|].
  destruct (split sep r); discriminate.
Qed.

End Strings.

(** ** Decimal fields and [int()] *)

Section Decimals.
Import PyStr TimeStrings.

Lemma uint_of_char_decimal (c : ascii) (d : Decimal.uint) :
  is_decimal_char c = true ->
  exists d', uint_of_char c (Some d) = Some d'
             /\ Decimal.nb_digits d' = S (Decimal.nb_digits d).
Proof.
  destruct c as [[|] [|] [|] [|] [|] [|] [|] [|]];
    vm_compute; intro H; try discriminate H;
    eexists; split; reflexivity.
Qed.

Lemma digits_uint_of_string (s : string) :
  forallb_str is_decimal_char s = true ->
  exists d, NilEmpty.uint_of_string s = Some d
            /\ Decimal.nb_digits d = String.length s.
Proof.
  induction s as [|c r IH]; simpl.
  - intros _. exists Decimal.Nil. split; reflexivity.
  - intros H. apply andb_true_iff in H as [Hc Hr].
    destruct (IH Hr) as (d & Hd & Hn). rewrite Hd.
    destruct (uint_of_char_decimal c d Hc) as (d' & Hd' & Hn').
    exists d'. split; [exact Hd'|]. rewrite Hn', Hn. reflexivity.
Qed.

Lemma uint_of_string_digits (s : string) (d : Decimal.uint) :
  NilEmpty.uint_of_string s = Some d ->
  forallb_str is_decimal_char s = true.
Proof.
  revert d. induction s as [|c r IH]; simpl; [reflexivity|].
  intros d H. destruct (NilEmpty.uint_of_string r) as [d0|] eqn:Hr;
    [|discriminate H].
  rewrite (IH d0 eq_refl), andb_true_r.
  apply uint_of_char_spec in H.
  repeat (destruct H as [[-> _]|H]; [reflexivity|]).
  destruct H as [-> _]. reflexivity.
Qed.

Lemma string_of_uint_length (d : Decimal.uint) :
  String.length (NilEmpty.string_of_uint d) = Decimal.nb_digits d.
Proof. induction d; simpl; congruence. Qed.

Lemma decimal_field_inv (s : string) :
  decimal_field s = true ->
  s <> EmptyString /\ forallb_str is_decimal_char s = true.
Proof.
  destruct s as [|c r]; [discriminate|].
  intros H. split; [discriminate|exact H].
Qed.

Lemma decimal_field_uint (s : string) :
  decimal_field s = true ->
  exists d, NilZero.uint_of_string s = Some d
            /\ Decimal.nb_digits d = String.length s
            /\ field_value s = Z.of_uint d
            /\ digits_value s = Some (Z.of_uint d).
Proof.
  intros H. destruct (decimal_field_inv s H) as [Hne Hall].
  destruct (digits_uint_of_string s Hall) as (d & Hd & Hn).
  exists d.
  assert (Hz : NilZero.uint_of_string s = Some d).
  { destruct s; [contradiction|exact Hd]. }
  unfold field_value, digits_value. rewrite Hz. auto.
Qed.

Lemma field_value_nonneg (s : string) : 0 <= field_value s.
Proof.
  unfold field_value, digits_value.
  destruct (NilZero.uint_of_string s); [|lia].
  unfold Z.of_uint. lia.
Qed.

Lemma no_sep_decimal (s : string) :
  forallb_str is_decimal_char s = true ->
  forallb_str (fun c => negb (Ascii.eqb c ":")) s = true.
Proof.
  apply forallb_str_impl. intros c Hc.
  destruct (decimal_char_facts c Hc) as (_ & _ & _ & H & _).
  rewrite H. reflexivity.
Qed.

Lemma drop_underscores_decimal (s : string) :
  forallb_str is_decimal_char s = true ->
  drop_underscores true s = Some s.
Proof.
  induction s as [|c r IH]; simpl; [reflexivity|].
  intros H. apply andb_true_iff in H as [Hc Hr].
  destruct (decimal_char_facts c Hc) as (_ & _ & _ & _ & Hu & _).
  rewrite Hu, (IH Hr). reflexivity.
Qed.

Lemma int_unsigned_decimal (s : string) :
  decimal_field s = true ->
  int_unsigned s =
    if within_digit_limit s then Some (field_value s) else None.
Proof.
  intros H. destruct (decimal_field_uint s H) as (d & _ & _ & Hv & Hdv).
  destruct s as [|c r]; [discriminate|]. simpl in H.
  apply andb_true_iff in H as [Hc Hr].
  destruct (decimal_char_facts c Hc) as (_ & _ & _ & _ & Hu & _).
  unfold int_unsigned. simpl drop_underscores.
  rewrite Hu, (drop_underscores_decimal r Hr), Hdv, Hv. reflexivity.
Qed.

(** [int()] on a field of decimal digits: its value, or [ValueError] past
    the digit limit. *)
Lemma int_decimal_field (s : string) :
  decimal_field s = true ->
  int s = if within_digit_limit s then Some (field_value s) else None.
Proof.
  intros H. rewrite <- (int_unsigned_decimal s H).
  destruct (decimal_field_inv s H) as [_ Hall].
  unfold int. rewrite strip_by_none.
  - destruct s as [|c r]; [discriminate|]. simpl in Hall.
    apply andb_true_iff in Hall as [Hc _].
    destruct c as [[|] [|] [|] [|] [|] [|] [|] [|]];
      try discriminate Hc; reflexivity.
  - revert Hall. apply forallb_str_impl. intros c Hc.
    destruct (decimal_char_facts c Hc) as (Hs & _). rewrite Hs. reflexivity.
Qed.

End Decimals.

(** ** Printing integers *)

Section Printing.
Import PyStr TimeStrings.

Lemma to_int_nonneg (v : Z) :
  0 <= v -> exists d, Z.to_int v = Decimal.Pos d /\ d <> Decimal.Nil
                      /\ Z.of_uint d = v.
Proof.
  intros Hv. pose proof (DecimalZ.of_to v) as Hof.
  destruct v as [|p|p]; [| |lia].
  - exists (Decimal.D0 Decimal.Nil). repeat split. discriminate.
  - exists (Pos.to_uint p). repeat split.
    + apply DecimalPos.Unsigned.to_uint_nonnil.
    + exact Hof.
Qed.

Lemma nilzero_uint_inv (s : string) (d : Decimal.uint) :
  NilZero.uint_of_string s = Some d ->
  decimal_field s = true /\ NilEmpty.uint_of_string s = Some d.
Proof.
  destruct s as [|c r]; [discriminate|]. intros H. split; [|exact H].
  exact (uint_of_string_digits _ _ H).
Qed.

(** [str(v)] of a non-negative [v] is a decimal field that reads back as
    [v]. *)
Lemma decimal_nonneg (v : Z) :
  0 <= v ->
  decimal_field (decimal v) = true /\ field_value (decimal v) = v.
Proof.
  intros Hv. destruct (to_int_nonneg v Hv) as (d & Hd & Hnil & Hval).
  unfold decimal. rewrite Hd. simpl NilZero.string_of_int.
  pose proof (NilZero.usu d Hnil) as Hu.
  destruct (nilzero_uint_inv _ _ Hu) as [Hf _]. split; [exact Hf|].
  unfold field_value, digits_value. rewrite Hu. exact Hval.
Qed.

Lemma unorm_nonnil (d : Decimal.uint) : Decimal.unorm d <> Decimal.Nil.
Proof.
  unfold Decimal.unorm. destruct (Decimal.nzhead d); discriminate.
Qed.

Lemma nilzero_string_length (d : Decimal.uint) :
  d <> Decimal.Nil ->
  String.length (NilZero.string_of_uint d) = Decimal.nb_digits d.
Proof.
  intros Hd. rewrite <- string_of_uint_length.
  destruct d; [contradiction| reflexivity ..].
Qed.

(** Printing the value of a field never takes more digits than the field
    has. *)
Lemma decimal_length_le (s : string) :
  decimal_field s = true ->
  (String.length (decimal (field_value s)) <= String.length s)%nat.
Proof.
  intros H. destruct (decimal_field_uint s H) as (d & Hd & Hn & Hv & _).
  assert (Hnil : d <> Decimal.Nil).
  { intros ->. exact (NilZero.uint_of_string_nonnil s Hd). }
  unfold decimal. rewrite Hv.
  change (Z.of_uint d) with (Z.of_int (Decimal.Pos d)).
  rewrite DecimalZ.to_of. simpl Decimal.norm. simpl NilZero.string_of_int.
  rewrite (nilzero_string_length _ (unorm_nonnil d)), <- Hn.
  apply DecimalFacts.nb_digits_unorm, Hnil.
Qed.

End Printing.

(** ** The size of printed integers *)

Section Magnitude.
Import PyStr.

Lemma usize_nb_digits (d : Decimal.uint) :
  DecimalPos.Unsigned.usize d = N.of_nat (Decimal.nb_digits d).
Proof.
  induction d; cbn [DecimalPos.Unsigned.usize Decimal.nb_digits];
    rewrite ?IHd; lia.
Qed.

Lemma of_uint_acc_lower (d : Decimal.uint) (acc : positive) :
  (10 ^ N.of_nat (Decimal.nb_digits d) <= N.pos (Pos.of_uint_acc d acc))%N.
Proof.
  rewrite DecimalPos.Unsigned.of_uint_acc_rev, usize_nb_digits.
  assert (1 <= N.pos acc)%N by lia.
  assert (0 < 10 ^ N.of_nat (Decimal.nb_digits d))%N
    by (apply N.neq_0_lt_0, N.pow_nonzero; discriminate).
  nia.
Qed.

Lemma to_uint_unorm (p : positive) :
  Decimal.unorm (Pos.to_uint p) = Pos.to_uint p.
Proof.
  pose proof (DecimalPos.Unsigned.to_of (Pos.to_uint p)) as H.
  rewrite DecimalPos.Unsigned.of_to in H. symmetry. exact H.
Qed.

(** A number is at least the power of ten its leading digit stands for. *)
Lemma to_uint_lower (p : positive) :
  (10 ^ N.of_nat (Nat.pred (Decimal.nb_digits (Pos.to_uint p))) <= N.pos p)%N.
Proof.
  pose proof (DecimalPos.Unsigned.of_to p) as Hof.
  pose proof (to_uint_unorm p) as Hu.
  pose proof (DecimalPos.Unsigned.to_uint_nonzero p) as Hz.
  destruct (Pos.to_uint p) as [|d|d|d|d|d|d|d|d|d|d] eqn:E;
    try (rewrite <- Hof; cbn [Pos.of_uint Decimal.nb_digits Nat.pred];
         apply of_uint_acc_lower).
  - cbn. lia.
  - exfalso.
    assert (Hn : d <> Decimal.Nil) by (intros ->; apply Hz; reflexivity).
    pose proof (DecimalFacts.nb_digits_unorm d Hn) as Hle.
    change (Decimal.unorm (Decimal.D0 d)) with (Decimal.unorm d) in Hu.
    rewrite Hu in Hle. cbn in Hle. lia.
Qed.

(** [str(n)] of a number below [10 ** k] has at most [k] digits. *)
Lemma decimal_digits_bound (n : Z) (k : nat) :
  (0 < k)%nat -> 0 <= n < 10 ^ Z.of_nat k ->
  (String.length (decimal n) <= k)%nat.
Proof.
  intros Hk [H0 Hn]. destruct n as [|p|p]; [simpl; lia| |lia].
  unfold decimal. cbn [Z.to_int NilZero.string_of_int].
  rewrite (nilzero_string_length _ (DecimalPos.Unsigned.to_uint_nonnil p)).
  pose proof (to_uint_lower p) as Hl.
  destruct (Decimal.nb_digits (Pos.to_uint p)) as [|m]; [lia|].
  cbn [Nat.pred] in Hl.
  assert (Hlt : (10 ^ N.of_nat m < 10 ^ N.of_nat k)%N).
  { apply N.le_lt_trans with (N.pos p); [exact Hl|].
    apply N2Z.inj_lt. rewrite N2Z.inj_pow, nat_N_Z. exact Hn. }
  apply N.pow_lt_mono_r_iff in Hlt; lia.
Qed.

Lemma str_int_small (n : Z) :
  0 <= n < 10 ^ max_str_digits -> PyFormat.str_int n = Some (decimal n).
Proof.
  intros Hn. unfold PyFormat.str_int, within_digit_limit.
  rewrite Z.abs_eq by lia.
  pose proof (decimal_digits_bound n 4300) as Hb.
  replace (Z.of_nat 4300) with max_str_digits in Hb by reflexivity.
  specialize (Hb ltac:(lia) Hn).
  replace (Z.of_nat (String.length (decimal n)) <=? max_str_digits)
    with true; [reflexivity|].
  symmetry. apply Z.leb_le. unfold max_str_digits. lia.
Qed.

Lemma str_int_abs_small (n : Z) :
  Z.abs n < 10 ^ max_str_digits -> PyFormat.str_int n <> None.
Proof.
  intros Hn. unfold PyFormat.str_int, within_digit_limit.
  pose proof (decimal_digits_bound (Z.abs n) 4300) as Hb.
  replace (Z.of_nat 4300) with max_str_digits in Hb by reflexivity.
  specialize (Hb ltac:(lia) ltac:(lia)).
  replace (Z.of_nat (String.length (decimal (Z.abs n))) <=? max_str_digits)
    with true; [discriminate|].
  symmetry. apply Z.leb_le. unfold max_str_digits. lia.
Qed.

(** A power of ten has one digit more than its exponent. *)
Lemma power_of_ten_digits (k : nat) :
  exists p, (10 ^ N.of_nat k)%N = N.pos p
            /\ Decimal.nb_digits (Pos.to_little_uint p) = S k.
Proof.
  induction k as [|k (p & Hp & Hd)].
  - exists 1%positive. split; reflexivity.
  - exists (10 * p)%positive. split.
    + replace (N.of_nat (S k)) with (N.succ (N.of_nat k)) by lia.
      rewrite N.pow_succ_r', Hp. reflexivity.
    + pose proof (DecimalPos.Unsigned.to_ldec_tenfold p) as Ht.
      cbn [DecimalPos.Unsigned.to_lu N.mul] in Ht. rewrite Ht.
      cbn [Decimal.nb_digits]. rewrite Hd. reflexivity.
Qed.

Lemma decimal_power_of_ten (k : nat) :
  String.length (decimal (10 ^ Z.of_nat k)) = S k.
Proof.
  destruct (power_of_ten_digits k) as (p & Hp & Hd).
  assert (Hz : 10 ^ Z.of_nat k = Z.pos p).
  { rewrite <- nat_N_Z.
    change 10 with (Z.of_N 10). rewrite <- N2Z.inj_pow, Hp. reflexivity. }
  rewrite Hz. unfold decimal. cbn [Z.to_int NilZero.string_of_int].
  rewrite (nilzero_string_length _ (DecimalPos.Unsigned.to_uint_nonnil p)).
  unfold Pos.to_uint. rewrite DecimalFacts.nb_digits_rev. exact Hd.
Qed.

(** [str] does not print [10 ** 4300], the least number of 4301 digits. *)
Lemma str_int_past_the_limit :
  PyFormat.str_int (10 ^ max_str_digits) = None.
Proof.
  unfold PyFormat.str_int, within_digit_limit.
  rewrite Z.abs_eq by (apply Z.pow_nonneg; lia).
  change max_str_digits with (Z.of_nat 4300) at 1.
  rewrite decimal_power_of_ten.
  replace (Z.of_nat 4301 <=? max_str_digits) with false; [reflexivity|].
  symmetry. apply Z.leb_gt. unfold max_str_digits. lia.
Qed.

End Magnitude.

(** ** Round trip of the time helpers *)

Section RoundTrip.
Import PyStr TimeStrings TimeHelpers.

Lemma two_digit_checks : forallb two_digit_check (seq 0 60) = true.
Proof. vm_compute. reflexivity. Qed.

(** [f"{v:02d}"] below 60: exactly two digits that read back as [v]. *)
Lemma format_02d_small (v : Z) :
  0 <= v < 60 ->
  exists t, format_02d v = Some t /\ decimal_field t = true
            /\ field_value t = v /\ String.length t = 2%nat.
Proof.
  intros Hv. pose proof two_digit_checks as Hall.
  rewrite forallb_forall in Hall.
  specialize (Hall (Z.to_nat v)).
  assert (Hin : In (Z.to_nat v) (seq 0 60)) by (apply in_seq; lia).
  specialize (Hall Hin). unfold two_digit_check in Hall.
  rewrite Z2Nat.id in Hall by lia.
  destruct (format_02d v) as [t|]; [|discriminate].
  apply andb_true_iff in Hall as [Hall Hlen].
  apply andb_true_iff in Hall as [Hf Hval].
  exists t. repeat split; auto.
  - apply Z.eqb_eq, Hval.
  - apply Nat.eqb_eq, Hlen.
Qed.

(** [f"{v:02d}"] of a non-negative [v] within the digit limit. *)
Lemma format_02d_nonneg (v : Z) :
  0 <= v -> within_digit_limit (decimal v) = true ->
  exists t, format_02d v = Some t /\ decimal_field t = true
            /\ field_value t = v /\ within_digit_limit t = true.
Proof.
  intros Hv Hlim. destruct (Z.lt_ge_cases v 10) as [Hs|Hb].
  - destruct (format_02d_small v) as (t & Ht & Hf & Hval & Hlen); [lia|].
    exists t. repeat split; auto.
    unfold within_digit_limit. rewrite Hlen. reflexivity.
  - exists (decimal v). destruct (decimal_nonneg v Hv) as [Hf Hval].
    repeat split; auto.
    unfold format_02d. rewrite Z.abs_eq, Hlim by lia.
    replace (v <? 10) with false by (symmetry; apply Z.ltb_ge; lia).
    rewrite andb_false_r. reflexivity.
Qed.

(** [convert_time_to_seconds] on three decimal fields. *)
Lemma convert_fields (h m x : string) :
  decimal_field h = true -> decimal_field m = true ->
  decimal_field x = true ->
  convert_time_to_seconds (h ++ ":" ++ m ++ ":" ++ x) =
    if within_digit_limit h && within_digit_limit m && within_digit_limit x
    then field_value h * 3600 + field_value m * 60 + field_value x
    else 0.
Proof.
  intros Hh Hm Hx. unfold convert_time_to_seconds.
  destruct (decimal_field_inv h Hh) as [_ Hh'].
  destruct (decimal_field_inv m Hm) as [_ Hm'].
  destruct (decimal_field_inv x Hx) as [_ Hx'].
  change (h ++ ":" ++ m ++ ":" ++ x)
    with (h ++ String ":" (m ++ String ":" x)).
  rewrite (split_app ":" h _ (no_sep_decimal h Hh')).
  rewrite (split_app ":" m _ (no_sep_decimal m Hm')).
  rewrite (split_no_sep ":" x (no_sep_decimal x Hx')).
  simpl map_opt.
  rewrite (int_decimal_field h Hh), (int_decimal_field m Hm),
    (int_decimal_field x Hx).
  destruct (within_digit_limit h), (within_digit_limit m),
    (within_digit_limit x); reflexivity.
Qed.

(** Formatting a non-negative number of seconds and converting the result
    gives the number back, as long as the hours fit the digit limit. *)
Lemma convert_format (n : Z) :
  0 <= n -> within_digit_limit (decimal (n / 3600)) = true ->
  exists t, format_seconds_to_time n = Some t
            /\ convert_time_to_seconds t = n.
Proof.
  intros Hn Hlim.
  assert (Hh : 0 <= n / 3600) by (apply Z.div_pos; lia).
  pose proof (Z.mod_pos_bound n 3600 ltac:(lia)) as Hr.
  pose proof (Z.mod_pos_bound n 60 ltac:(lia)) as Hs.
  assert (Hmin : 0 <= (n mod 3600) / 60 < 60).
  { split; [apply Z.div_pos; lia|].
    apply Z.div_lt_upper_bound; lia. }
  destruct (format_02d_nonneg _ Hh Hlim) as (th & Eh & Fh & Vh & Lh).
  destruct (format_02d_small _ Hmin) as (tm & Em & Fm & Vm & Lm).
  destruct (format_02d_small _ Hs) as (ts & Es & Fs & Vs & Ls).
  exists (th ++ ":" ++ tm ++ ":" ++ ts). split.
  - unfold format_seconds_to_time. cbv zeta. rewrite Eh, Em, Es. reflexivity.
  - rewrite (convert_fields th tm ts Fh Fm Fs), Lh.
    assert (Lm' : within_digit_limit tm = true)
      by (unfold within_digit_limit; rewrite Lm; reflexivity).
    assert (Ls' : within_digit_limit ts = true)
      by (unfold within_digit_limit; rewrite Ls; reflexivity).
    rewrite Lm', Ls'. simpl andb. cbv iota.
    rewrite Vh, Vm, Vs.
    pose proof (Z.div_mod n 3600 ltac:(lia)) as E1.
    pose proof (Z.div_mod (n mod 3600) 60 ltac:(lia)) as E2.
    assert (E3 : (n mod 3600) mod 60 = n mod 60).
    { symmetry. rewrite E1 at 1.
      replace (3600 * (n / 3600) + n mod 3600)
        with (n mod 3600 + (60 * (n / 3600)) * 60) by ring.
      apply Z.mod_add. lia. }
    lia.
Qed.

End RoundTrip.

(** C2.  For every time string of the form HH:MM:SS whose minute and second
    fields are below 60, [format_seconds_to_time] succeeds on the seconds
    [convert_time_to_seconds] gives, and converting its result gives the
    same number of seconds again. *)
Theorem convert_format_convert (s : string) :
  TimeStrings.hhmmss_form s ->
  exists t,
    TimeHelpers.format_seconds_to_time
      (TimeHelpers.convert_time_to_seconds s) = Some t
    /\ TimeHelpers.convert_time_to_seconds t
       = TimeHelpers.convert_time_to_seconds s.
Proof.
  intros (h & m & x & -> & Hh & Hm & Hx & Mlt & Xlt).
  rewrite (convert_fields h m x Hh Hm Hx).
  destruct (PyStr.within_digit_limit h) eqn:Lh;
    destruct (PyStr.within_digit_limit m);
    destruct (PyStr.within_digit_limit x);
    cbn [andb];
    try (apply convert_format; [lia|reflexivity]).
  pose proof (field_value_nonneg h). pose proof (field_value_nonneg m).
  pose proof (field_value_nonneg x).
  apply convert_format; [lia|].
  replace ((TimeStrings.field_value h * 3600 + TimeStrings.field_value m * 60
            + TimeStrings.field_value x) / 3600)
    with (TimeStrings.field_value h).
  - pose proof (decimal_length_le h Hh) as Hle.
    unfold PyStr.within_digit_limit in *.
    apply Z.leb_le. apply Z.leb_le in Lh. lia.
  - apply Z.div_unique with
      (r := TimeStrings.field_value m * 60 + TimeStrings.field_value x); lia.
Qed.

Lemma convert_format_convert_witness :
  TimeStrings.hhmmss_form "01:02:03"
  /\ exists t,
      TimeHelpers.format_seconds_to_time
        (TimeHelpers.convert_time_to_seconds "01:02:03") = Some t
      /\ TimeHelpers.convert_time_to_seconds t
         = TimeHelpers.convert_time_to_seconds "01:02:03".
Proof.
  assert (H : TimeStrings.hhmmss_form "01:02:03").
  { exists "01", "02", "03". repeat split; vm_compute; reflexivity. }
  split; [exact H | exact (convert_format_convert "01:02:03" H)].
Defined.

(** ** The CSV loader *)

Section Loader.
Import PyStr CsvReader.

Lemma check_row_inl (n : Z) (row : list string) (c : ClipData) :
  check_row n row = inl c <->
  exists c0 c1 c2 rest,
    row = c0 :: c1 :: c2 :: rest
    /\ validate_time_format (strip c0) = true
    /\ validate_time_format (strip c1) = true
    /\ validate_youtube_url (strip c2) = true
    /\ c = mkClip (strip c0) (strip c1) (strip c2) n.
Proof.
  unfold check_row. split.
  - destruct row as [|c0 [|c1 [|c2 rest]]]; try discriminate.
    destruct (validate_time_format (strip c0)) eqn:E0; [|discriminate].
    destruct (validate_time_format (strip c1)) eqn:E1; [|discriminate].
    destruct (validate_youtube_url (strip c2)) eqn:E2; [|discriminate].
    simpl. intros [= <-]. exists c0, c1, c2, rest. auto.
  - intros (c0 & c1 & c2 & rest & -> & E0 & E1 & E2 & ->).
    rewrite E0, E1, E2. reflexivity.
Qed.

Lemma check_row_inr (n : Z) (row : list string) (b : invalid_row) :
  check_row n row = inr b -> exists reason, b = (n, reason, row).
Proof.
  unfold check_row.
  destruct row as [|c0 [|c1 [|c2 rest]]];
    try (intros [= <-]; eexists; reflexivity).
  destruct (validate_time_format (strip c0));
    [|intros [= <-]; eexists; reflexivity].
  destruct (validate_time_format (strip c1));
    [|intros [= <-]; eexists; reflexivity].
  destruct (validate_youtube_url (strip c2));
    [discriminate|intros [= <-]; eexists; reflexivity].
Qed.

(** The clips of the loop are exactly the accepted rows. *)
Lemma read_rows_clips (rows : list (list string)) (n : Z) (c : ClipData) :
  In c (fst (read_rows n rows)) <->
  exists j row, nth_error rows j = Some row
                /\ check_row (n + Z.of_nat j) row = inl c.
Proof.
  revert n. induction rows as [|r rest IH]; intros n; simpl.
  - split; [contradiction|]. intros (j & row & H & _).
    destruct j; discriminate H.
  - destruct (read_rows (n + 1) rest) as [cs bad] eqn:E.
    specialize (IH (n + 1)). rewrite E in IH. simpl in IH.
    assert (Hshift : forall j, n + 1 + Z.of_nat j = n + Z.of_nat (S j))
      by (intros; lia).
    split.
    + intros Hin.
      assert (Hcases : check_row n r = inl c \/ In c cs).
      { destruct (check_row n r) as [c'|b]; simpl in Hin.
        - destruct Hin as [->|Hin]; auto.
        - auto. }
      destruct Hcases as [Hc|Hc].
      * exists O, r. split; [reflexivity|]. rewrite Z.add_0_r. exact Hc.
      * apply IH in Hc as (j & row & Hn & Hc).
        exists (S j), row. split; [exact Hn|]. rewrite <- Hshift. exact Hc.
    + intros (j & row & Hn & Hc). destruct j as [|j]; simpl in Hn.
      * injection Hn as ->. rewrite Z.add_0_r in Hc. rewrite Hc.
        left. reflexivity.
      * rewrite <- Hshift in Hc.
        assert (Hin : In c cs) by (apply IH; eauto).
        destruct (check_row n r); simpl; auto.
Qed.

(** The reported rows of the loop are exactly the rejected rows. *)
Lemma read_rows_invalid (rows : list (list string)) (n : Z)
      (j : nat) (row : list string) (b : invalid_row) :
  nth_error rows j = Some row ->
  check_row (n + Z.of_nat j) row = inr b ->
  In b (snd (read_rows n rows)).
Proof.
  revert n j. induction rows as [|r rest IH]; intros n j Hn Hc.
  - destruct j; discriminate Hn.
  - simpl. destruct (read_rows (n + 1) rest) as [cs bad] eqn:E.
    destruct j as [|j]; simpl in Hn.
    + injection Hn as ->. rewrite Z.add_0_r in Hc. rewrite Hc.
      left. reflexivity.
    + replace (n + Z.of_nat (S j)) with (n + 1 + Z.of_nat j) in Hc by lia.
      specialize (IH (n + 1) j Hn Hc). rewrite E in IH. simpl in IH.
      destruct (check_row n r); simpl; auto.
Qed.

Lemma check_row_row_number (n : Z) (row : list string) (c : ClipData) :
  check_row n row = inl c -> row_number c = n.
Proof.
  intros H. apply check_row_inl in H
    as (c0 & c1 & c2 & rest & _ & _ & _ & _ & ->). reflexivity.
Qed.

End Loader.

Section LoaderFacts.
Import PyStr CsvReader TimeHelpers TimeStrings.

Lemma check_row_bad (n : Z) (row : list string) :
  (List.length row < 3)%nat
  \/ malformed_time (nth 0 row EmptyString) = true
  \/ malformed_time (nth 1 row EmptyString) = true ->
  exists reason, check_row n row = inr (n, reason, row).
Proof.
  intros Hbad. destruct (check_row n row) as [c|b] eqn:E.
  - exfalso. apply check_row_inl in E
      as (c0 & c1 & c2 & rest & -> & E0 & E1 & _ & _).
    unfold malformed_time in Hbad. simpl in Hbad. rewrite E0, E1 in Hbad.
    simpl in Hbad. destruct Hbad as [H|[H|H]]; [lia|discriminate ..].
  - destruct (check_row_inr n row b E) as [reason ->]. eauto.
Qed.

Lemma isdigit_char_facts (c : ascii) :
  isdigit_char c = true ->
  int_space_char c = false /\ c <> "-"%char /\ c <> "+"%char.
Proof.
  destruct c as [[|] [|] [|] [|] [|] [|] [|] [|]];
    vm_compute; intro H; try discriminate H;
    repeat split; discriminate.
Qed.

Lemma int_unsigned_nonneg (body : string) (v : Z) :
  int_unsigned body = Some v -> 0 <= v.
Proof.
  unfold int_unsigned, digits_value.
  destruct (drop_underscores false body); [|discriminate].
  destruct (within_digit_limit s); [|discriminate].
  destruct (NilZero.uint_of_string s); [|discriminate].
  intros [= <-]. unfold Z.of_uint. lia.
Qed.

(** [int()] of a string that passed [isdigit()] is never negative. *)
Lemma int_isdigit_nonneg (s : string) (v : Z) :
  isdigit s = true -> int s = Some v -> 0 <= v.
Proof.
  intros Hd. destruct s as [|c r]; [discriminate|].
  unfold isdigit in Hd. unfold int. rewrite strip_by_none.
  - simpl in Hd. apply andb_true_iff in Hd as [Hc _].
    destruct (isdigit_char_facts c Hc) as (_ & Hm & Hp).
    destruct c as [[|] [|] [|] [|] [|] [|] [|] [|]];
      try (exfalso; apply Hm; reflexivity);
      try (exfalso; apply Hp; reflexivity);
      apply int_unsigned_nonneg.
  - revert Hd. apply forallb_str_impl. intros a Ha.
    destruct (isdigit_char_facts a Ha) as (Hs & _). rewrite Hs. reflexivity.
Qed.

Lemma validate_time_format_inv (s : string) :
  validate_time_format s = true ->
  exists h m x mv xv,
    split ":" s = [h; m; x]
    /\ isdigit h = true /\ isdigit m = true /\ isdigit x = true
    /\ int m = Some mv /\ mv < 60 /\ int x = Some xv /\ xv < 60.
Proof.
  unfold validate_time_format.
  destruct (split ":" s) as [|h [|m [|x [|y t]]]]; try discriminate.
  destruct (isdigit h && isdigit m && isdigit x) eqn:Hd; [|discriminate].
  simpl negb. cbv iota.
  apply andb_true_iff in Hd as [Hd Hx]. apply andb_true_iff in Hd as [Hh Hm].
  destruct (int m) as [mv|] eqn:Im; [|discriminate].
  destruct (60 <=? mv) eqn:Em; [discriminate|].
  destruct (int x) as [xv|] eqn:Ix; [|discriminate].
  destruct (60 <=? xv) eqn:Ex; [discriminate|].
  intros _. exists h, m, x, mv, xv.
  apply Z.leb_gt in Em, Ex. repeat split; auto.
Qed.

(** [split] taken back. *)
Lemma split_single_inv (sep : ascii) (s a : string) :
  split sep s = [a] -> s = a.
Proof.
  revert a. induction s as [|c r IH]; intros a; simpl.
  - intros [= <-]. reflexivity.
  - destruct (Ascii.eqb c sep).
    + intros [= _ H]. destruct (split_nonempty sep r H).
    + destruct (split sep r) as [|f t] eqn:E.
      * intros [= <-]. destruct (split_nonempty sep r E).
      * intros [= <- ->]. rewrite (IH f eq_refl). reflexivity.
Qed.

Lemma split_cons_inv (sep : ascii) (s a b : string) (l : list string) :
  split sep s = a :: b :: l ->
  exists rest, s = a ++ String sep rest /\ split sep rest = b :: l.
Proof.
  revert a. induction s as [|c r IH]; intros a; simpl; [discriminate|].
  destruct (Ascii.eqb_spec c sep) as [->|_].
  - intros [= <- H]. exists r. split; [reflexivity|exact H].
  - destruct (split sep r) as [|f t] eqn:E; [discriminate|].
    intros [= <- ->]. destruct (IH f eq_refl) as (rest & -> & Hrest).
    exists rest. split; [reflexivity|exact Hrest].
Qed.

Lemma split_three_inv (s h m x : string) :
  split ":" s = [h; m; x] -> s = h ++ ":" ++ m ++ ":" ++ x.
Proof.
  intros H. apply split_cons_inv in H as (r1 & -> & H).
  apply split_cons_inv in H as (r2 & -> & H).
  apply split_single_inv in H as ->. reflexivity.
Qed.

Lemma isdigit_char_no_underscore (c : ascii) :
  isdigit_char c = true -> Ascii.eqb c "_" = false.
Proof.
  destruct c as [[|] [|] [|] [|] [|] [|] [|] [|]];
    vm_compute; intro H; try discriminate H; reflexivity.
Qed.

Lemma drop_underscores_isdigit (s : string) :
  forallb_str isdigit_char s = true -> drop_underscores true s = Some s.
Proof.
  induction s as [|c r IH]; simpl; [reflexivity|].
  intros H. apply andb_true_iff in H as [Hc Hr].
  rewrite (isdigit_char_no_underscore c Hc), (IH Hr). reflexivity.
Qed.

(** [int()] of a string that passed [isdigit()]: the number when all the
    characters are decimal digits within the digit limit, [ValueError]
    otherwise. *)
Lemma int_isdigit (s : string) :
  isdigit s = true ->
  int s = if decimal_field s && within_digit_limit s
          then Some (field_value s) else None.
Proof.
  intros Hd. destruct (decimal_field s) eqn:Ef.
  - rewrite (int_decimal_field s Ef). reflexivity.
  - cbn [andb]. destruct s as [|c r]; [discriminate|].
    unfold isdigit in Hd. cbn [forallb_str] in Hd.
    apply andb_true_iff in Hd as [Hc Hr].
    assert (Hu : int_unsigned (String c r) = None).
    { unfold int_unsigned. cbn [drop_underscores].
      rewrite (isdigit_char_no_underscore c Hc),
              (drop_underscores_isdigit r Hr).
      destruct (within_digit_limit (String c r)); [|reflexivity].
      unfold digits_value.
      destruct (NilZero.uint_of_string (String c r)) as [d|] eqn:Eu;
        [|reflexivity].
      destruct (nilzero_uint_inv _ _ Eu) as [Hf _]. congruence. }
    unfold int. rewrite strip_by_none.
    + destruct (isdigit_char_facts c Hc) as (_ & Hm & Hp).
      destruct c as [[|] [|] [|] [|] [|] [|] [|] [|]];
        try (exfalso; apply Hm; reflexivity);
        try (exfalso; apply Hp; reflexivity);
        exact Hu.
    + cbn [forallb_str]. apply andb_true_iff. split.
      * destruct (isdigit_char_facts c Hc) as (Hs & _). rewrite Hs.
        reflexivity.
      * revert Hr. apply forallb_str_impl. intros a Ha.
        destruct (isdigit_char_facts a Ha) as (Hs & _). rewrite Hs.
        reflexivity.
Qed.

(** What a string that passed [validate_time_format] is, and what the two
    parsers make of it. *)
Lemma validated_time_reads (s : string) :
  validate_time_format s = true ->
  exists h m x,
    loaded_time s h m x
    /\ (if decimal_hours h
        then CsvStatistics.hms_seconds s
             = Some (field_value h * 3600 + field_value m * 60
                     + field_value x)
             /\ convert_time_to_seconds s
                = field_value h * 3600 + field_value m * 60 + field_value x
             /\ 0 <= field_value h * 3600 + field_value m * 60
                     + field_value x
        else CsvStatistics.hms_seconds s = None).
Proof.
  intros H. apply validate_time_format_inv in H
    as (h & m & x & mv & xv & Hs & Hh & Hm & Hx & Im & Hmv & Ix & Hxv).
  rewrite (int_isdigit m Hm) in Im. rewrite (int_isdigit x Hx) in Ix.
  destruct (decimal_field m) eqn:Fm; [|discriminate Im].
  destruct (decimal_field x) eqn:Fx; [|discriminate Ix].
  cbn [andb] in Im, Ix.
  destruct (within_digit_limit m) eqn:Lm; [|discriminate Im].
  destruct (within_digit_limit x) eqn:Lx; [|discriminate Ix].
  injection Im as <-. injection Ix as <-.
  exists h, m, x. split.
  - unfold loaded_time. split; [exact (split_three_inv _ _ _ _ Hs)|].
    repeat split; assumption.
  - unfold CsvStatistics.hms_seconds, convert_time_to_seconds.
    rewrite Hs. cbn [map_opt].
    rewrite (int_isdigit h Hh), (int_isdigit m Hm), (int_isdigit x Hx).
    rewrite Fm, Fx, Lm, Lx. cbn [andb]. unfold decimal_hours.
    destruct (decimal_field h && within_digit_limit h); [|reflexivity].
    split; [reflexivity|]. split; [reflexivity|].
    pose proof (field_value_nonneg h). pose proof (field_value_nonneg m).
    pose proof (field_value_nonneg x). lia.
Qed.

(** A validated time string converts to a non-negative number of seconds. *)
Lemma convert_validated_nonneg (s : string) :
  validate_time_format s = true -> 0 <= convert_time_to_seconds s.
Proof.
  intros H. apply validate_time_format_inv in H
    as (h & m & x & mv & xv & Hs & Hh & Hm & Hx & Im & _ & Ix & _).
  unfold convert_time_to_seconds. rewrite Hs. simpl map_opt.
  rewrite Im, Ix. destruct (int h) as [hv|] eqn:Ih; [|lia].
  pose proof (int_isdigit_nonneg h hv Hh Ih).
  pose proof (int_isdigit_nonneg m mv Hm Im).
  pose proof (int_isdigit_nonneg x xv Hx Ix). lia.
Qed.

End LoaderFacts.

(** C8 (as amended).  Whatever the rows of the file, [read_csv] returns
    without raising.  A row with fewer than three columns, or whose start
    or end time is malformed, contributes no clip and is reported with its
    row number; a row whose first three columns are valid contributes its
    clip, whatever the rows before and after it are, and columns beyond the
    third are ignored. *)
Theorem read_csv_rejects_rows_individually
        (self : CsvReader.CSVReader) (rows : list (list string))
        (i : nat) (row : list string) :
  nth_error rows i = Some row ->
  exists clips bad,
    CsvReader.read_csv self (CsvReader.Rows rows)
    = (Returned clips, bad,
       CsvReader.mkReader (CsvReader.csv_path self) clips
                          (CsvReader.grouped_clips self))
    /\ ((List.length row < 3)%nat
        \/ malformed_time (nth 0 row EmptyString) = true
        \/ malformed_time (nth 1 row EmptyString) = true ->
        (forall c, In c clips ->
                   CsvReader.row_number c <> 1 + Z.of_nat i)
        /\ exists reason, In (1 + Z.of_nat i, reason, row) bad)
    /\ (forall c0 c1 c2 rest,
          row = c0 :: c1 :: c2 :: rest ->
          CsvReader.validate_time_format (PyStr.strip c0) = true ->
          CsvReader.validate_time_format (PyStr.strip c1) = true ->
          CsvReader.validate_youtube_url (PyStr.strip c2) = true ->
          In (CsvReader.mkClip (PyStr.strip c0) (PyStr.strip c1)
                               (PyStr.strip c2) (1 + Z.of_nat i)) clips).
Proof.
  intros Hrow. unfold CsvReader.read_csv.
  pose proof (read_rows_clips rows 1) as Hclips.
  pose proof (read_rows_invalid rows 1 i row) as Hbad.
  destruct (CsvReader.read_rows 1 rows) as [cs bad] eqn:E.
  cbn [fst snd] in Hclips, Hbad.
  exists cs, bad. split; [reflexivity|]. split.
  - intros Hwrong.
    destruct (check_row_bad (1 + Z.of_nat i) row Hwrong) as [reason Hc].
    split.
    + intros c Hin Hnum. apply Hclips in Hin as (j & row' & Hj & Hc').
      pose proof (check_row_row_number _ _ _ Hc') as Hn.
      assert (j = i) by lia. subst j.
      rewrite Hrow in Hj. injection Hj as <-. congruence.
    + exists reason. apply Hbad; assumption.
  - intros c0 c1 c2 rest -> E0 E1 E2. apply Hclips.
    exists i, (c0 :: c1 :: c2 :: rest). split; [exact Hrow|].
    apply check_row_inl. exists c0, c1, c2, rest. auto.
Qed.

Lemma read_csv_rejects_rows_individually_witness :
  let good := ["00:00:10"; "00:00:20"; "https://www.youtube.com/watch?v=a"] in
  let rows := [good; ["00:00:10"; "00:61:00"; "https://youtu.be/b"]; good] in
  nth_error rows 1 = Some ["00:00:10"; "00:61:00"; "https://youtu.be/b"]
  /\ exists clips bad,
      CsvReader.read_csv (CsvReader.init "clip_ranges.csv")
                         (CsvReader.Rows rows)
      = (Returned clips, bad, CsvReader.mkReader "clip_ranges.csv" clips [])
      /\ (forall c, In c clips -> CsvReader.row_number c <> 2)
      /\ exists reason,
          In (2, reason, ["00:00:10"; "00:61:00"; "https://youtu.be/b"]) bad.
Proof.
  intros good rows. split; [reflexivity|].
  destruct (read_csv_rejects_rows_individually
              (CsvReader.init "clip_ranges.csv") rows 1
              ["00:00:10"; "00:61:00"; "https://youtu.be/b"] eq_refl)
    as (clips & bad & Hread & Hbad & _).
  exists clips, bad. split; [exact Hread|].
  apply Hbad. right. right. vm_compute. reflexivity.
Defined.

(** C8 as stated fails: a row with a fourth column has the wrong column
    count, yet its clip is loaded. *)
Lemma extra_column_row_is_loaded :
  let row := ["00:00:10"; "00:00:20"; "https://www.youtube.com/watch?v=a";
              "note"] in
  List.length row <> 3%nat
  /\ fst (fst (CsvReader.read_csv (CsvReader.init "clip_ranges.csv")
                                  (CsvReader.Rows [row])))
     = Returned [CsvReader.mkClip "00:00:10" "00:00:20"
                                  "https://www.youtube.com/watch?v=a" 1].
Proof. split; [discriminate|vm_compute; reflexivity]. Qed.

(** C9, the code at the failing input: the host of the URL is
    [evil.example], which is none of the YouTube domains, but the text
    [youtube.com] occurs in its query, so [validate_youtube_url] accepts it
    and [read_csv] returns the clip. *)
Lemma foreign_host_is_loaded :
  let url := "http://evil.example/?q=youtube.com" in
  url_host url = "evil.example"
  /\ ~ In (url_host url) CsvReader.youtube_domains
  /\ CsvReader.validate_youtube_url url = true
  /\ fst (fst (CsvReader.read_csv
                 (CsvReader.init "clip_ranges.csv")
                 (CsvReader.Rows [["00:00:10"; "00:00:20"; url]])))
     = Returned [CsvReader.mkClip "00:00:10" "00:00:20" url 1].
Proof.
  cbv zeta. split; [reflexivity|]. split.
  - vm_compute. intros [H|[H|[H|[]]]]; discriminate H.
  - split; vm_compute; reflexivity.
Qed.

(** C10 (as amended).  Every clip [read_csv] returns has a start time and
    an end time of three colon-separated fields whose minutes and seconds
    are decimal numbers below 60 and whose hours field passed [isdigit()].
    Whenever the hours field is a decimal number, the time is the
    non-negative whole number of seconds [hours * 3600 + minutes * 60 +
    seconds], for the parser of [get_statistics] and for
    [convert_time_to_seconds] alike; otherwise no parser reads it.  The
    loader does not compare the two times. *)
Theorem loaded_clips_have_valid_times
        (self self' : CsvReader.CSVReader) (src : CsvReader.csv_source)
        (clips : list CsvReader.ClipData)
        (bad : list CsvReader.invalid_row) (c : CsvReader.ClipData)
        (t : string) :
  CsvReader.read_csv self src = (Returned clips, bad, self') ->
  In c clips ->
  t = CsvReader.start_time c \/ t = CsvReader.end_time c ->
  exists h m x,
    loaded_time t h m x
    /\ (if decimal_hours h
        then CsvStatistics.hms_seconds t
             = Some (TimeStrings.field_value h * 3600
                     + TimeStrings.field_value m * 60
                     + TimeStrings.field_value x)
             /\ TimeHelpers.convert_time_to_seconds t
                = TimeStrings.field_value h * 3600
                  + TimeStrings.field_value m * 60
                  + TimeStrings.field_value x
             /\ 0 <= TimeStrings.field_value h * 3600
                     + TimeStrings.field_value m * 60
                     + TimeStrings.field_value x
        else CsvStatistics.hms_seconds t = None).
Proof.
  unfold CsvReader.read_csv. destruct src as [|rows|rows]; try discriminate.
  pose proof (read_rows_clips rows 1 c) as Hclips.
  destruct (CsvReader.read_rows 1 rows) as [cs bad0].
  cbn [fst] in Hclips. intros [= <- _ _] Hin Ht.
  apply Hclips in Hin as (j & row & _ & Hc).
  apply check_row_inl in Hc as (c0 & c1 & c2 & rest & _ & E0 & E1 & _ & ->).
  cbn [CsvReader.start_time CsvReader.end_time] in Ht.
  destruct Ht as [-> | ->]; apply validated_time_reads; assumption.
Qed.

Lemma loaded_clips_have_valid_times_witness :
  let c := CsvReader.mkClip "00:00:20" "00:00:10"
                            "https://www.youtube.com/watch?v=a" 1 in
  exists h m x,
    loaded_time (CsvReader.end_time c) h m x
    /\ (if decimal_hours h
        then CsvStatistics.hms_seconds (CsvReader.end_time c)
             = Some (TimeStrings.field_value h * 3600
                     + TimeStrings.field_value m * 60
                     + TimeStrings.field_value x)
             /\ TimeHelpers.convert_time_to_seconds (CsvReader.end_time c)
                = TimeStrings.field_value h * 3600
                  + TimeStrings.field_value m * 60
                  + TimeStrings.field_value x
             /\ 0 <= TimeStrings.field_value h * 3600
                     + TimeStrings.field_value m * 60
                     + TimeStrings.field_value x
        else CsvStatistics.hms_seconds (CsvReader.end_time c) = None).
Proof.
  intros c.
  apply (loaded_clips_have_valid_times
           (CsvReader.init "clip_ranges.csv")
           (CsvReader.mkReader "clip_ranges.csv" [c] [])
           (CsvReader.Rows [["00:00:20"; "00:00:10";
                             "https://www.youtube.com/watch?v=a"]])
           [c] [] c).
  - vm_compute. reflexivity.
  - simpl. left. reflexivity.
  - right. reflexivity.
Defined.

(** A row whose hours are a superscript two is loaded, although neither
    parser reads its start time: [isdigit()] accepts the character and
    [int()] does not. *)
Example superscript_hours_row_is_loaded :
  let start := String "178" ":00:00" in
  fst (fst (CsvReader.read_csv
              (CsvReader.init "clip_ranges.csv")
              (CsvReader.Rows [[start; "00:00:10";
                                "https://www.youtube.com/watch?v=a"]])))
  = Returned [CsvReader.mkClip start "00:00:10"
                               "https://www.youtube.com/watch?v=a" 1]
  /\ CsvStatistics.hms_seconds start = None.
Proof. split; vm_compute; reflexivity. Qed.

(** C10 as stated fails: a row whose end time precedes its start time is
    loaded. *)
Lemma end_before_start_is_loaded :
  exists c,
    fst (fst (CsvReader.read_csv
                (CsvReader.init "clip_ranges.csv")
                (CsvReader.Rows [["00:00:20"; "00:00:10";
                                  "https://www.youtube.com/watch?v=a"]])))
    = Returned [c]
    /\ ~ (TimeHelpers.convert_time_to_seconds (CsvReader.end_time c)
          > TimeHelpers.convert_time_to_seconds (CsvReader.start_time c)).
Proof.
  eexists. split; [vm_compute; reflexivity|].
  vm_compute. intros H. discriminate H.
Qed.

(** ** Grouping *)

Section Grouping.
Import CsvReader.
Local Open Scope list_scope.

Lemma dict_get_dict_append (key k : string) (c : ClipData) (d : clip_dict) :
  dict_get key (dict_append k c d) =
    if String.eqb k key then extend (dict_get key d) [c] else dict_get key d.
Proof.
  induction d as [|[k0 v0] r IH]; simpl.
  - destruct (String.eqb k key); reflexivity.
  - destruct (String.eqb k0 k) eqn:E0; simpl.
    + apply String.eqb_eq in E0. subst k0.
      destruct (String.eqb k key); reflexivity.
    + rewrite IH. destruct (String.eqb k0 key) eqn:E1; [|reflexivity].
      apply String.eqb_eq in E1. subst k0. rewrite String.eqb_sym, E0.
      reflexivity.
Qed.

Lemma dict_append_fresh (k : string) (c : ClipData) (d : clip_dict) :
  ~ In k (map fst d) -> dict_append k c d = (d ++ [(k, [c])])%list.
Proof.
  induction d as [|[k0 v0] r IH]; simpl; intros Hk; [reflexivity|].
  destruct (String.eqb_spec k0 k) as [->|_]; [tauto|].
  rewrite IH by tauto. reflexivity.
Qed.

Lemma dict_append_last (k : string) (c : ClipData) (d : clip_dict)
      (v0 : list ClipData) :
  ~ In k (map fst d) ->
  dict_append k c (d ++ [(k, v0)]) = (d ++ [(k, (v0 ++ [c])%list)])%list.
Proof.
  induction d as [|[k1 v1] r IH]; simpl; intros Hk.
  - rewrite String.eqb_refl. reflexivity.
  - destruct (String.eqb_spec k1 k) as [->|_]; [tauto|].
    rewrite IH by tauto. reflexivity.
Qed.

Lemma keys_dict_append (k : string) (c : ClipData) (d : clip_dict) :
  map fst (dict_append k c d) =
    if in_dec string_dec k (map fst d) then map fst d
    else (map fst d ++ [k])%list.
Proof.
  induction d as [|[k0 v0] r IH]; simpl; [reflexivity|].
  destruct (String.eqb_spec k0 k) as [->|Hne]; simpl.
  - destruct (string_dec k k); [reflexivity|contradiction].
  - rewrite IH. destruct (string_dec k0 k); [contradiction|].
    destruct (in_dec string_dec k (map fst r)); reflexivity.
Qed.

Lemma NoDup_snoc (A : Type) (l : list A) (x : A) :
  NoDup l -> ~ In x l -> NoDup (l ++ [x]).
Proof.
  intros Hl Hx. apply (Permutation_NoDup (Permutation_cons_append l x)).
  constructor; assumption.
Qed.

Lemma NoDup_keys_dict_append (k : string) (c : ClipData) (d : clip_dict) :
  NoDup (map fst d) -> NoDup (map fst (dict_append k c d)).
Proof.
  intros H. rewrite keys_dict_append.
  destruct (in_dec string_dec k (map fst d)); [exact H|].
  apply NoDup_snoc; assumption.
Qed.

Lemma NoDup_keys_fold (cs : list ClipData) (d : clip_dict) :
  NoDup (map fst d) -> NoDup (map fst (fold_left collect_step cs d)).
Proof.
  revert d. induction cs as [|c r IH]; intros d H; simpl; [exact H|].
  apply IH, NoDup_keys_dict_append, H.
Qed.

Lemma extend_assoc (o : option (list ClipData)) (a b : list ClipData) :
  extend (extend o a) b = extend o (a ++ b).
Proof.
  destruct o as [v|]; simpl.
  - destruct a; simpl; rewrite <- ?List.app_assoc; reflexivity.
  - destruct a; simpl; [destruct b|]; reflexivity.
Qed.

Lemma dict_get_fold (key : string) (cs : list ClipData) (d : clip_dict) :
  dict_get key (fold_left collect_step cs d)
  = extend (dict_get key d) (filter (has_url key) cs).
Proof.
  revert d. induction cs as [|c r IH]; intros d; simpl.
  - destruct (dict_get key d); simpl; rewrite ?List.app_nil_r; reflexivity.
  - rewrite IH. unfold collect_step. rewrite dict_get_dict_append.
    unfold has_url at 2. destruct (String.eqb (youtube_url c) key).
    + apply (extend_assoc _ [c]).
    + reflexivity.
Qed.

(** The group of a URL after the first loop: the clips of that URL, in
    input order. *)
Lemma dict_get_collect (key : string) (cs : list ClipData) :
  dict_get key (collect cs) = extend None (filter (has_url key) cs).
Proof. apply dict_get_fold. Qed.

Lemma dict_get_In (k : string) (v : list ClipData) (d : clip_dict) :
  NoDup (map fst d) -> In (k, v) d -> dict_get k d = Some v.
Proof.
  induction d as [|[k0 v0] r IH]; simpl; [contradiction|].
  intros Hnd [Heq|Hin].
  - injection Heq as -> ->. rewrite String.eqb_refl. reflexivity.
  - inversion Hnd as [|? ? Hk Hr]; subst.
    destruct (String.eqb_spec k0 k) as [->|_].
    + exfalso. apply Hk. apply (in_map fst) in Hin. exact Hin.
    + apply IH; assumption.
Qed.

Lemma concat_dict_append (k : string) (c : ClipData) (d : clip_dict) :
  Permutation (List.concat (map snd (dict_append k c d)))
              (c :: List.concat (map snd d)).
Proof.
  induction d as [|[k0 v0] r IH]; simpl; [reflexivity|].
  destruct (String.eqb k0 k); simpl.
  - rewrite <- List.app_assoc. simpl.
    symmetry. apply Permutation_middle.
  - rewrite IH. symmetry. apply Permutation_middle.
Qed.

Lemma concat_fold (cs : list ClipData) (d : clip_dict) :
  Permutation (List.concat (map snd (fold_left collect_step cs d)))
              (List.concat (map snd d) ++ cs).
Proof.
  revert d. induction cs as [|c r IH]; intros d; simpl.
  - rewrite List.app_nil_r. reflexivity.
  - rewrite IH. unfold collect_step. rewrite concat_dict_append.
    apply Permutation_middle.
Qed.

(** *** The stable sort *)

Lemma insert_by_row_perm (c : ClipData) (l : list ClipData) :
  Permutation (insert_by_row c l) (c :: l).
Proof.
  induction l as [|d r IH]; simpl; [reflexivity|].
  destruct (row_number c <=? row_number d); [reflexivity|].
  rewrite IH. apply perm_swap.
Qed.

Lemma sort_by_row_perm (l : list ClipData) : Permutation (sort_by_row l) l.
Proof.
  induction l as [|c r IH]; simpl; [reflexivity|].
  rewrite insert_by_row_perm, IH. reflexivity.
Qed.

Lemma insert_by_row_sorted (c : ClipData) (l : list ClipData) :
  StronglySorted by_row l -> StronglySorted by_row (insert_by_row c l).
Proof.
  induction 1 as [|d r Hr IH Hd]; simpl.
  - constructor; constructor.
  - destruct (row_number c <=? row_number d) eqn:E.
    + apply Z.leb_le in E. constructor.
      * constructor; assumption.
      * constructor; [exact E|].
        rewrite Forall_forall in Hd |- *. intros x Hx.
        specialize (Hd x Hx). unfold by_row in *. lia.
    + apply Z.leb_gt in E. constructor; [exact IH|].
      rewrite Forall_forall in Hd |- *. intros x Hx.
      apply (Permutation_in _ (insert_by_row_perm c r)) in Hx.
      destruct Hx as [<-|Hx]; [unfold by_row; lia|auto].
Qed.

Lemma sort_by_row_sorted (l : list ClipData) :
  StronglySorted by_row (sort_by_row l).
Proof.
  induction l as [|c r IH]; simpl; [constructor|].
  apply insert_by_row_sorted, IH.
Qed.

(** Sorting leaves a list already in row order as it is. *)
Lemma sort_by_row_id (l : list ClipData) :
  StronglySorted by_row l -> sort_by_row l = l.
Proof.
  induction 1 as [|c r Hr IH Hc]; simpl; [reflexivity|].
  rewrite IH. destruct r as [|d r']; [reflexivity|]. simpl.
  inversion Hc as [|? ? Hcd _]; subst. unfold by_row in Hcd.
  apply Z.leb_le in Hcd. rewrite Hcd. reflexivity.
Qed.

(** Stability: clips with the same row number keep their relative order. *)
Lemma insert_by_row_stable (n : Z) (c : ClipData) (l : list ClipData) :
  filter (has_row n) (insert_by_row c l) = filter (has_row n) (c :: l).
Proof.
  induction l as [|d r IH]; [reflexivity|]. simpl insert_by_row.
  destruct (row_number c <=? row_number d) eqn:E; [reflexivity|].
  apply Z.leb_gt in E. simpl in *. rewrite IH. unfold has_row.
  destruct (row_number c =? n) eqn:Ec; [|reflexivity].
  apply Z.eqb_eq in Ec.
  replace (row_number d =? n) with false
    by (symmetry; apply Z.eqb_neq; lia).
  reflexivity.
Qed.

Lemma sort_by_row_stable (n : Z) (l : list ClipData) :
  filter (has_row n) (sort_by_row l) = filter (has_row n) l.
Proof.
  induction l as [|c r IH]; [reflexivity|]. simpl sort_by_row.
  rewrite insert_by_row_stable. simpl. rewrite IH. reflexivity.
Qed.

Lemma filter_sorted (p : ClipData -> bool) (l : list ClipData) :
  StronglySorted by_row l -> StronglySorted by_row (filter p l).
Proof.
  induction 1 as [|c r Hr IH Hc]; simpl; [constructor|].
  destruct (p c); [|exact IH]. constructor; [exact IH|].
  rewrite Forall_forall in Hc |- *. intros x Hx.
  apply filter_In in Hx as [Hx _]. auto.
Qed.

(** *** The second loop *)

Lemma dict_set_fresh (k : string) (v : list ClipData) (d : clip_dict) :
  ~ In k (map fst d) -> dict_set k v d = d ++ [(k, v)].
Proof.
  induction d as [|[k0 v0] r IH]; simpl; intros Hk; [reflexivity|].
  destruct (String.eqb_spec k0 k) as [->|_]; [tauto|].
  rewrite IH by tauto. reflexivity.
Qed.

Lemma sort_fold (d acc : clip_dict) :
  NoDup (map fst acc ++ map fst d) ->
  fold_left sort_step d acc = acc ++ map sort_entry d.
Proof.
  revert acc. induction d as [|[k v] r IH]; intros acc Hnd; simpl.
  - rewrite List.app_nil_r. reflexivity.
  - unfold sort_step at 2. simpl fst. simpl snd.
    rewrite dict_set_fresh.
    + rewrite IH.
      * rewrite <- List.app_assoc. reflexivity.
      * rewrite map_app. simpl. rewrite <- List.app_assoc. exact Hnd.
    + simpl in Hnd. apply NoDup_remove_2 in Hnd.
      intros Hin. apply Hnd, in_or_app. left. exact Hin.
Qed.

(** With distinct keys the second loop sorts every group in place. *)
Lemma sort_groups_map (d : clip_dict) :
  NoDup (map fst d) -> sort_groups d = map sort_entry d.
Proof. intros H. apply (sort_fold d []). exact H. Qed.

Lemma keys_sort_entries (d : clip_dict) :
  map fst (map sort_entry d) = map fst d.
Proof. rewrite map_map. reflexivity. Qed.

Lemma NoDup_keys_collect (cs : list ClipData) : NoDup (map fst (collect cs)).
Proof. apply NoDup_keys_fold. constructor. Qed.

(** What [group_clips_by_url] returns. *)
Lemma grouping_result (self : CSVReader) (cs : list ClipData) :
  grouped_clips (snd (group_clips_by_url self (Some cs))) = map sort_entry (collect cs).
Proof. simpl. apply sort_groups_map, NoDup_keys_collect. Qed.

(** A group of the result is the sorted list of the clips of its URL, and
    is not empty. *)
Lemma group_content (cs : list ClipData) (k : string) (v : list ClipData) :
  In (k, v) (map sort_entry (collect cs)) ->
  v = sort_by_row (filter (has_url k) cs) /\ filter (has_url k) cs <> [].
Proof.
  intros Hin. apply in_map_iff in Hin as ([k0 v0] & Heq & Hin).
  unfold sort_entry in Heq. simpl in Heq. injection Heq as -> <-.
  apply (dict_get_In _ _ _ (NoDup_keys_collect cs)) in Hin.
  rewrite dict_get_collect in Hin.
  destruct (filter (has_url k) cs) as [|c r]; [discriminate|].
  simpl in Hin. injection Hin as <-. split; [reflexivity|discriminate].
Qed.

(** *** Grouping the groups again *)

Lemma fold_block_tail (k : string) (v v0 : list ClipData) (d : clip_dict) :
  ~ In k (map fst d) ->
  (forall c, In c v -> youtube_url c = k) ->
  fold_left collect_step v (d ++ [(k, v0)]) = d ++ [(k, v0 ++ v)].
Proof.
  intros Hk. revert v0. induction v as [|c r IH]; intros v0 Hv; simpl.
  - rewrite List.app_nil_r. reflexivity.
  - unfold collect_step at 2. rewrite (Hv c (or_introl eq_refl)).
    rewrite dict_append_last by exact Hk.
    rewrite IH by (intros x Hx; apply Hv; right; exact Hx).
    rewrite <- List.app_assoc. reflexivity.
Qed.

Lemma fold_block (k : string) (v : list ClipData) (d : clip_dict) :
  ~ In k (map fst d) -> v <> [] ->
  (forall c, In c v -> youtube_url c = k) ->
  fold_left collect_step v d = d ++ [(k, v)].
Proof.
  intros Hk Hne Hv. destruct v as [|c r]; [contradiction|]. simpl.
  unfold collect_step at 2. rewrite (Hv c (or_introl eq_refl)).
  rewrite dict_append_fresh by exact Hk.
  apply fold_block_tail; [exact Hk|].
  intros x Hx. apply Hv. right. exact Hx.
Qed.

Lemma fold_blocks (g d : clip_dict) :
  NoDup (map fst d ++ map fst g) -> well_grouped g ->
  fold_left collect_step (List.concat (map snd g)) d = d ++ g.
Proof.
  revert d. induction g as [|[k v] r IH]; intros d Hnd Hg; simpl.
  - rewrite List.app_nil_r. reflexivity.
  - destruct (Hg k v (or_introl eq_refl)) as [Hne Hv].
    rewrite fold_left_app, (fold_block k v d); auto.
    + rewrite IH.
      * rewrite <- List.app_assoc. reflexivity.
      * rewrite map_app. simpl. rewrite <- List.app_assoc. exact Hnd.
      * intros k' v' Hin. apply Hg. right. exact Hin.
    + simpl in Hnd. apply NoDup_remove_2 in Hnd.
      intros Hin. apply Hnd, in_or_app. left. exact Hin.
Qed.

(** The first loop gives back a dictionary whose groups are laid out one
    after the other. *)
Lemma collect_concat (g : clip_dict) :
  NoDup (map fst g) -> well_grouped g ->
  collect (List.concat (map snd g)) = g.
Proof. intros Hnd Hg. apply (fold_blocks g []); assumption. Qed.

Lemma grouped_well (cs : list ClipData) :
  well_grouped (map sort_entry (collect cs)).
Proof.
  intros k v Hin. destruct (group_content cs k v Hin) as [-> Hne]. split.
  - intros Hnil. apply Hne.
    apply Permutation_nil. rewrite <- Hnil. apply sort_by_row_perm.
  - intros c Hc. apply (Permutation_in _ (sort_by_row_perm _)) in Hc.
    apply filter_In in Hc as [_ Hc]. apply String.eqb_eq, Hc.
Qed.

Lemma sort_entries_twice (d : clip_dict) :
  map sort_entry (map sort_entry d) = map sort_entry d.
Proof.
  rewrite map_map. apply map_ext. intros [k v]. unfold sort_entry. simpl.
  rewrite (sort_by_row_id _ (sort_by_row_sorted v)). reflexivity.
Qed.

(** Grouping the concatenation of the groups gives the same groups. *)
Lemma regroup (self self' : CSVReader) (cs : list ClipData) :
  let g := grouped_clips (snd (group_clips_by_url self (Some cs))) in
  grouped_clips (snd (group_clips_by_url self' (Some (List.concat (map snd g))))) = g.
Proof.
  cbv zeta. rewrite !grouping_result.
  rewrite collect_concat.
  - apply sort_entries_twice.
  - rewrite keys_sort_entries. apply NoDup_keys_collect.
  - apply grouped_well.
Qed.

(** *** The log lines *)

Lemma log_line_prints (v : list ClipData) :
  log_line v = true
  <-> exists first,
        hd_error v = Some first
        /\ prints (row_number first)
        /\ prints (row_number (List.last v first)).
Proof.
  unfold log_line, prints. destruct v as [|c r].
  - split; [discriminate|]. intros (first & H & _). discriminate H.
  - split.
    + intros H. exists c. split; [reflexivity|].
      destruct (PyFormat.str_int (row_number c)); [|discriminate].
      destruct (PyFormat.str_int (row_number (List.last (c :: r) c)));
        [|discriminate].
      split; discriminate.
    + intros (first & [= <-] & H1 & H2).
      destruct (PyFormat.str_int (row_number c)); [|contradiction].
      destruct (PyFormat.str_int (row_number (List.last (c :: r) c)));
        [reflexivity|contradiction].
Qed.

Lemma log_lines_cleanly (g : clip_dict) :
  forallb (fun kv => log_line (snd kv)) g = true <-> logs_cleanly g.
Proof.
  rewrite forallb_forall. unfold logs_cleanly. split.
  - intros H k v Hin. apply log_line_prints. exact (H (k, v) Hin).
  - intros H [k v] Hin. apply log_line_prints. exact (H k v Hin).
Qed.

(** The call returns the dictionary it has stored, or raises; it returns
    exactly when the log lines can be printed. *)
Lemma grouping_outcome (self : CSVReader) (arg : option (list ClipData)) :
  let call := group_clips_by_url self arg in
  (fst call = Returned (grouped_clips (snd call)) \/ fst call = Raised)
  /\ (fst call = Returned (grouped_clips (snd call))
      <-> logs_cleanly (grouped_clips (snd call))).
Proof.
  cbv zeta. unfold group_clips_by_url. cbn [fst snd grouped_clips].
  rewrite <- log_lines_cleanly.
  destruct (forallb _ _); split; auto; split; auto; discriminate.
Qed.

Lemma last_In (v : list ClipData) (d : ClipData) :
  v <> [] -> In (List.last v d) v.
Proof.
  induction v as [|c r IH]; [contradiction|]. intros _.
  destruct r as [|c' r']; [left; reflexivity|].
  right. apply IH. discriminate.
Qed.

(** Row numbers of at most 4300 digits never make a log line raise. *)
Lemma small_rows_log_cleanly (self : CSVReader) (cs : list ClipData) :
  (forall c, In c cs -> Z.abs (row_number c) < 10 ^ PyStr.max_str_digits) ->
  logs_cleanly (grouped_clips (snd (group_clips_by_url self (Some cs)))).
Proof.
  intros Hsmall k v Hin. rewrite grouping_result in Hin.
  destruct (grouped_well cs k v Hin) as [Hne _].
  destruct (group_content cs k v Hin) as [Hv _].
  assert (Hsub : forall c, In c v -> In c cs).
  { intros c Hc. rewrite Hv in Hc.
    apply (Permutation_in _ (sort_by_row_perm _)) in Hc.
    apply filter_In in Hc as [Hc _]. exact Hc. }
  destruct v as [|c r] eqn:E; [contradiction|]. rewrite <- E in *.
  exists c. split; [rewrite E; reflexivity|].
  split; apply str_int_abs_small, Hsmall, Hsub.
  - rewrite E. left. reflexivity.
  - apply last_In, Hne.
Qed.

(** A row number of 4301 digits cannot be printed in the log line of its
    group: the dictionary is stored, and the call raises. *)
Lemma grouping_raises_past_the_digit_limit (self : CSVReader) :
  let c := mkClip "00:00:10" "00:00:20" "https://youtu.be/a"
                  (10 ^ PyStr.max_str_digits) in
  let call := group_clips_by_url self (Some [c]) in
  fst call = Raised
  /\ grouped_clips (snd call) = [("https://youtu.be/a"%string, [c])].
Proof.
  cbv zeta. unfold group_clips_by_url.
  cbn [fst snd grouped_clips collect sort_groups fold_left dict_append
       dict_set youtube_url sort_by_row fold_right insert_by_row forallb
       log_line row_number List.last andb].
  rewrite str_int_past_the_limit. split; reflexivity.
Qed.

End Grouping.


(** C3 (as amended).  For every list of clips, [group_clips_by_url]
    stores a dictionary whose groups have pairwise distinct URLs and
    together hold exactly the clips of the input, each once; every clip of a
    group has the URL of the group; a group holds the clips of its URL in
    ascending row number, clips with equal row numbers in input order, which
    is the input order whenever the row numbers of the input never
    decrease.  The call returns that dictionary, or raises; it returns
    exactly when [str] prints the row numbers of the first and of the last
    clip of every group for the log, which it does for all row numbers of at
    most 4300 digits.  The three rows of the scenario give two groups, the
    first with the two clips of URL a in input order, the second with the
    clip of URL b. *)
Theorem grouping_partitions_by_url
        (self : CsvReader.CSVReader) (cs : list CsvReader.ClipData) :
  let call := CsvReader.group_clips_by_url self (Some cs) in
  let g := CsvReader.grouped_clips (snd call) in
  (fst call = Returned g \/ fst call = Raised)
  /\ (fst call = Returned g <-> logs_cleanly g)
  /\ ((forall c, In c cs ->
         Z.abs (CsvReader.row_number c) < 10 ^ PyStr.max_str_digits) ->
      fst call = Returned g)
  /\ NoDup (map fst g)
  /\ Permutation (List.concat (map snd g)) cs
  /\ (forall k v, In (k, v) g ->
        (forall c, In c v -> CsvReader.youtube_url c = k)
        /\ Permutation v (filter (has_url k) cs)
        /\ StronglySorted by_row v
        /\ (forall n, filter (has_row n) v
                      = filter (has_row n) (filter (has_url k) cs))
        /\ (StronglySorted by_row cs -> v = filter (has_url k) cs))
  /\ (let a1 := CsvReader.mkClip "00:00:10" "00:00:20"
                                 "https://video.example/a" 1 in
      let a2 := CsvReader.mkClip "00:05:00" "00:05:30"
                                 "https://video.example/a" 2 in
      let b1 := CsvReader.mkClip "00:00:00" "00:00:05"
                                 "https://video.example/b" 3 in
      fst (CsvReader.group_clips_by_url self (Some [a1; a2; b1]))
      = Returned [("https://video.example/a", [a1; a2]);
                  ("https://video.example/b", [b1])]).
Proof.
  cbv zeta.
  destruct (grouping_outcome self (Some cs)) as [Hcases Hiff].
  split; [exact Hcases|]. split; [exact Hiff|].
  split; [intros Hsmall; apply Hiff, small_rows_log_cleanly, Hsmall|].
  rewrite grouping_result. repeat split.
  - rewrite keys_sort_entries. apply NoDup_keys_collect.
  - transitivity (List.concat (map snd (CsvReader.collect cs))).
    + rewrite map_map. simpl.
      induction (CsvReader.collect cs) as [|[k v] r IH]; simpl;
        [reflexivity|].
      apply Permutation_app; [apply sort_by_row_perm|exact IH].
    + apply (concat_fold cs []).
  - intros c Hc. exact (proj2 (grouped_well cs k v H) c Hc).
  - destruct (group_content cs k v H) as [-> _]. apply sort_by_row_perm.
  - destruct (group_content cs k v H) as [-> _]. apply sort_by_row_sorted.
  - intros n. destruct (group_content cs k v H) as [-> _].
    apply sort_by_row_stable.
  - intros Hs. destruct (group_content cs k v H) as [-> _].
    apply sort_by_row_id, filter_sorted, Hs.
Qed.

Lemma grouping_partitions_by_url_witness :
  let u := "https://video.example/a" in
  let a1 := CsvReader.mkClip "00:00:10" "00:00:20" u 1 in
  let a2 := CsvReader.mkClip "00:05:00" "00:05:30" u 2 in
  let b1 := CsvReader.mkClip "00:00:00" "00:00:05"
                             "https://video.example/b" 3 in
  let cs := [a1; a2; b1] in
  let call := CsvReader.group_clips_by_url (CsvReader.init "clip_ranges.csv")
                                           (Some cs) in
  fst call = Returned (CsvReader.grouped_clips (snd call))
  /\ In (u, [a1; a2]) (CsvReader.grouped_clips (snd call))
  /\ StronglySorted by_row cs
  /\ [a1; a2] = filter (has_url u) cs
  /\ (forall c, In c [a1; a2] -> CsvReader.youtube_url c = u).
Proof.
  intros u a1 a2 b1 cs call.
  assert (Hin : In (u, [a1; a2]) (CsvReader.grouped_clips (snd call)))
    by (left; reflexivity).
  assert (Hs : StronglySorted by_row cs).
  { repeat constructor; unfold by_row; simpl; lia. }
  assert (Hsmall : forall c, In c cs ->
                     Z.abs (CsvReader.row_number c)
                     < 10 ^ PyStr.max_str_digits).
  { intros c [<-|[<-|[<-|[]]]]; vm_compute; reflexivity. }
  destruct (grouping_partitions_by_url (CsvReader.init "clip_ranges.csv") cs)
    as (_ & _ & Hret & _ & _ & Hg & _).
  destruct (Hg u [a1; a2] Hin) as (Hurl & _ & _ & _ & Horder).
  split; [exact (Hret Hsmall)|]. split; [exact Hin|]. split; [exact Hs|].
  split; [exact (Horder Hs)|exact Hurl].
Defined.

(** C3 as stated fails: two clips of one URL passed with decreasing row
    numbers come back in row order, not in input order. *)
Lemma grouping_reorders_by_row :
  let u := "https://video.example/a" in
  let cs := [CsvReader.mkClip "00:05:00" "00:05:30" u 2;
             CsvReader.mkClip "00:00:10" "00:00:20" u 1] in
  exists g v,
    fst (CsvReader.group_clips_by_url
           (CsvReader.init "clip_ranges.csv") (Some cs)) = Returned g
    /\ In (u, v) g
    /\ v <> filter (has_url u) cs.
Proof.
  do 2 eexists. split; [vm_compute; reflexivity|].
  split; [left; reflexivity|]. vm_compute. discriminate.
Qed.

(** C4.  Calling [group_clips_by_url] twice on the same reader with the
    same argument gives the same result both times: the same dictionary,
    keys and groups in the same order, or the same exception of the log
    line; the second call leaves the reader, and the dictionary stored in
    it, as the first call left them.  Grouping the concatenated groups of
    the stored dictionary stores that dictionary again, and returns it
    whenever the first call returned it. *)
Theorem grouping_twice_is_identical
        (self : CsvReader.CSVReader)
        (arg : option (list CsvReader.ClipData)) :
  let first := CsvReader.group_clips_by_url self arg in
  let second := CsvReader.group_clips_by_url (snd first) arg in
  let g := CsvReader.grouped_clips (snd first) in
  let again :=
    CsvReader.group_clips_by_url (snd second)
                                 (Some (List.concat (map snd g))) in
  fst second = fst first
  /\ snd second = snd first
  /\ CsvReader.grouped_clips (snd again) = g
  /\ (fst first = Returned g -> fst again = Returned g).
Proof.
  cbv zeta. split; [reflexivity|]. split; [reflexivity|].
  assert (Hagain :
    CsvReader.grouped_clips
      (snd (CsvReader.group_clips_by_url
              (snd (CsvReader.group_clips_by_url
                      (snd (CsvReader.group_clips_by_url self arg)) arg))
              (Some (List.concat
                       (map snd (CsvReader.grouped_clips
                                   (snd (CsvReader.group_clips_by_url
                                           self arg))))))))
    = CsvReader.grouped_clips (snd (CsvReader.group_clips_by_url self arg))).
  { destruct arg as [cs|].
    - apply (regroup self).
    - apply (regroup self _ (CsvReader.clips self)). }
  split; [exact Hagain|].
  intros Hfirst.
  apply (proj2 (grouping_outcome self arg)) in Hfirst.
  pose proof (proj2 (grouping_outcome
                       (snd (CsvReader.group_clips_by_url
                               (snd (CsvReader.group_clips_by_url self arg))
                               arg))
                       (Some (List.concat
                                (map snd (CsvReader.grouped_clips
                                            (snd (CsvReader.group_clips_by_url
                                                    self arg)))))))) as Hiff.
  cbv zeta in Hiff. rewrite Hagain in Hiff. apply Hiff, Hfirst.
Qed.

(** ** The locator *)

Section Locator.
Import WebDriver WebAutomation.
Local Open Scope list_scope.
Context {World : Type} {D : Driver World}.

(** A wait on a page that keeps not matching times out. *)
Lemma wait_until_times_out (Inv : World -> Prop) (sel : string) :
  (forall w, Inv w -> fst (find_element sel w) = NoSuchElement
                      /\ Inv (snd (find_element sel w))) ->
  (forall ms w, Inv w -> Inv (sleep ms w)) ->
  forall polls w, Inv w ->
    fst (wait_until polls sel w) = WaitTimeout
    /\ Inv (snd (wait_until polls sel w)).
Proof.
  intros Hfind Hsleep. induction polls as [|k IH]; intros w Hw; simpl;
    destruct (Hfind w Hw) as [Hr Hi];
    destruct (find_element sel w) as [r w1]; simpl in Hr, Hi; subst r.
  - split; [reflexivity|exact Hi].
  - apply IH, Hsleep, Hi.
Qed.

(** What a wait leaves in the journal, whatever way it ends. *)
Lemma wait_until_journal (sel : string) (polls : nat) :
  forall (w w' : World) (l0 l1 : list event) (r : wait_result),
    wait_until (D := logged D) polls sel (w, l0) = (r, (w', l1)) ->
    exists k x,
      (k <= polls)%nat
      /\ l1 = l0 ++ vain sel k ++ [EvFind sel x]
      /\ match r with
         | WaitFound e => x = Found e
         | WaitError => x = LookupError
         | WaitTimeout =>
             (x = NoSuchElement /\ k = polls) \/ x = LookupTimeout
         end.
Proof.
  induction polls as [|n IH]; intros w w' l0 l1 r; simpl;
    destruct (find_element sel w) as [[e| | |] w1] eqn:E; simpl;
    intros H;
    try (injection H as <- <- <-; exists O; eexists;
         split; [lia|]; split; [reflexivity|]; auto).
  apply IH in H as (k & x & Hk & -> & Hr).
  exists (S k), x. split; [lia|]. split.
  - rewrite <- !List.app_assoc. reflexivity.
  - destruct r; [exact Hr| |exact Hr].
    destruct Hr as [[Hx Hp]|Hx]; [left; split; [exact Hx|lia]|right; exact Hx].
Qed.

Lemma stops_with_later (polls : nat) (s : string) (rest : list string)
      (first log : list event) (r : lookup) :
  gives_up polls s first ->
  stops_with polls rest log r ->
  stops_with polls (s :: rest) (first ++ log) r.
Proof.
  intros Hg (i & sel & k & before & Hn & Hk & -> & Hb).
  exists (S i), sel, k, (first ++ before). repeat split; auto.
  - rewrite <- List.app_assoc. reflexivity.
  - cbn [firstn given_up]. exists first, before. auto.
Qed.

(** What the locator leaves in the journal, whatever way it ends. *)
Lemma locator_journal (timeout : Z) (selectors : list string) :
  forall (w w' : World) (l0 l1 : list event)
         (result : outcome (option WebElement)),
    find_element_with_multiple_selectors (D := logged D)
      selectors timeout (w, l0) = (result, (w', l1)) ->
    exists log,
      l1 = l0 ++ log
      /\ match locator_ending result with
         | Some r => stops_with (polls_within timeout) selectors log r
         | None => exhausts (polls_within timeout) selectors log
         end.
Proof.
  induction selectors as [|s rest IH]; intros w w' l0 l1 result; simpl.
  - intros [= <- <- <-]. exists []. rewrite List.app_nil_r.
    split; reflexivity.
  - destruct (wait_until (D := logged D) (polls_within timeout) s (w, l0))
      as [r [w1 l]] eqn:E.
    change (@polls_within _ (logged D)) with (@polls_within _ D) in *.
    apply wait_until_journal in E as (k & x & Hk & -> & Hx).
    destruct r as [e| |].
    + intros [= <- <- <-]. subst x. eexists. split; [reflexivity|]. simpl.
      exists O, s, k, []. repeat split; auto.
    + intros H. apply IH in H as (log & -> & Hlog).
      assert (Hg : gives_up (polls_within timeout) s
                            (vain s k ++ [EvFind s x])).
      { destruct Hx as [[-> ->] | ->]; [left; reflexivity|].
        right. exists k. split; [exact Hk|reflexivity]. }
      exists ((vain s k ++ [EvFind s x]) ++ log).
      split; [rewrite !List.app_assoc; reflexivity|].
      destruct (locator_ending result) as [r|].
      * apply stops_with_later; assumption.
      * unfold exhausts. cbn [given_up]. eexists. eexists.
        split; [reflexivity|]. split; [exact Hg|exact Hlog].
    + intros [= <- <- <-]. subst x. eexists. split; [reflexivity|]. simpl.
      exists O, s, k, []. repeat split; auto.
Qed.

End Locator.

(** C5.  Take any list of candidate selectors and any set of page states
    that contains the current one, is closed under looking up a candidate
    and under waiting, and in which no candidate matches.  Then
    [find_element_with_multiple_selectors] returns [None]; it does not
    raise. *)
Theorem locator_returns_none_when_nothing_matches
        {World : Type} {D : WebDriver.Driver World}
        (Inv : World -> Prop) (selectors : list string) (timeout : Z)
        (w : World) :
  Inv w ->
  (forall sel w0, In sel selectors -> Inv w0 ->
     fst (WebDriver.find_element sel w0) = WebDriver.NoSuchElement
     /\ Inv (snd (WebDriver.find_element sel w0))) ->
  (forall ms w0, Inv w0 -> Inv (WebDriver.sleep ms w0)) ->
  fst (WebAutomation.find_element_with_multiple_selectors
         selectors timeout w) = Returned None.
Proof.
  intros Hw Hfind Hsleep. revert w Hw.
  induction selectors as [|s rest IH]; intros w Hw; simpl; [reflexivity|].
  destruct (wait_until_times_out Inv s
              (fun w0 => Hfind s w0 (or_introl eq_refl)) Hsleep
              (WebDriver.polls_within timeout) w Hw) as [Hr Hi].
  destruct (WebAutomation.wait_until (WebDriver.polls_within timeout) s w)
    as [r w1].
  simpl in Hr, Hi. subst r. apply IH; [|exact Hi].
  intros sel w0 Hin. apply Hfind. right. exact Hin.
Qed.

Lemma locator_returns_none_when_nothing_matches_witness :
  fst (WebAutomation.find_element_with_multiple_selectors
         (D := empty_page)
         ["//input[@placeholder='Add link here']"; "//input[@type='text']"]
         5 tt) = Returned None.
Proof.
  apply (locator_returns_none_when_nothing_matches
           (D := empty_page) (fun _ => True)).
  - exact I.
  - intros sel w0 _ _. split; [reflexivity|exact I].
  - intros ms w0 _. exact I.
Defined.

(** C6 (as amended).  On every ordered list of candidates the journal of
    [find_element_with_multiple_selectors] shows the candidates looked up
    strictly in list order, a candidate being left for the next one only
    when its wait ended in a [TimeoutException]: the timeout used up, or a
    lookup that raised one itself.  When an element is returned it is the
    first match any lookup gave, an element present in the document whether
    displayed or not, and the lookup that gave it is the last entry of the
    journal: no later candidate is polled.  When [None] is returned every
    candidate was given up in that way; when the locator raises, the last
    entry is a lookup that raised another exception. *)
Theorem locator_returns_first_match_in_order
        {World : Type} {D : WebDriver.Driver World}
        (selectors : list string) (timeout : Z) (w w' : World)
        (log : list WebDriver.event)
        (result : outcome (option WebDriver.WebElement)) :
  WebAutomation.find_element_with_multiple_selectors
    (D := WebDriver.logged D) selectors timeout (w, [])
  = (result, (w', log)) ->
  match result with
  | Returned (Some e) =>
      stops_with (WebDriver.polls_within timeout) selectors log
                 (WebDriver.Found e)
  | Returned None =>
      exhausts (WebDriver.polls_within timeout) selectors log
  | Raised =>
      stops_with (WebDriver.polls_within timeout) selectors log
                 WebDriver.LookupError
  end.
Proof.
  intros H. apply locator_journal in H as (l & -> & Hl).
  destruct result as [[e|]|]; exact Hl.
Qed.

Lemma locator_returns_first_match_in_order_witness :
  let selectors := ["//button[text()='Submit']"; "//button[text()='CLICK']"] in
  let run := WebAutomation.find_element_with_multiple_selectors
               (D := WebDriver.logged hidden_button_page)
               selectors 3 (tt, []) in
  fst run = Returned (Some hidden_button)
  /\ stops_with 6 selectors (snd (snd run)) (WebDriver.Found hidden_button).
Proof.
  intros selectors run. split; [reflexivity|].
  apply (locator_returns_first_match_in_order
           (D := hidden_button_page) selectors 3 tt tt (snd (snd run))
           (Returned (Some hidden_button))).
  vm_compute. reflexivity.
Defined.

(** A lookup that raises [TimeoutException] itself sends the locator to
    the next candidate at once. *)
Example locator_goes_on_after_lookup_timeout :
  WebAutomation.find_element_with_multiple_selectors
    (D := WebDriver.logged stalling_page)
    ["//button[text()='Submit']"; "//button[text()='CLICK']"] 3 (tt, [])
  = (Returned (Some hidden_button),
     (tt, [WebDriver.EvFind "//button[text()='Submit']"
                            WebDriver.LookupTimeout;
           WebDriver.EvFind "//button[text()='CLICK']"
                            (WebDriver.Found hidden_button)])).
Proof. reflexivity. Qed.

(** C6 as stated fails: the locator returns an element that is present in
    the document but not displayed. *)
Lemma locator_returns_hidden_element :
  exists e,
    fst (WebAutomation.find_element_with_multiple_selectors
           (D := hidden_button_page)
           ["//button[text()='Submit']"; "//button[text()='CLICK']"] 3 tt)
    = Returned (Some e)
    /\ WebDriver.is_displayed e = false.
Proof. exists hidden_button. split; vm_compute; reflexivity. Qed.

(** ** The actuator *)

(** C7.  For every element and every budget of at least one attempt: when,
    on the first attempt, scrolling and the wait for clickability succeed,
    the native click is intercepted and the click dispatched from a script
    succeeds, [safe_click] returns [True], and the journal of the session
    holds that single attempt and nothing after it. *)
Theorem safe_click_succeeds_through_fallback
        {World : Type} {D : WebDriver.Driver World}
        (element : WebDriver.WebElement) (max_attempts : Z)
        (w w1 w2 w3 w4 : World) :
  1 <= max_attempts ->
  WebDriver.perform WebDriver.ScrollIntoView element w
  = (WebDriver.Done, w1) ->
  WebDriver.perform WebDriver.WaitClickable element (WebDriver.sleep 100 w1)
  = (WebDriver.Done, w2) ->
  WebDriver.perform WebDriver.NativeClick element w2
  = (WebDriver.ClickIntercepted, w3) ->
  WebDriver.perform WebDriver.JsClick element w3 = (WebDriver.Done, w4) ->
  WebAutomation.safe_click (D := WebDriver.logged D)
                           element max_attempts (w, [])
  = (true,
     (w4,
      [WebDriver.EvPerform WebDriver.ScrollIntoView element WebDriver.Done;
       WebDriver.EvSleep 100;
       WebDriver.EvPerform WebDriver.WaitClickable element WebDriver.Done;
       WebDriver.EvPerform WebDriver.NativeClick element
                           WebDriver.ClickIntercepted;
       WebDriver.EvPerform WebDriver.JsClick element WebDriver.Done])).
Proof.
  intros Hn H1 H2 H3 H4. unfold WebAutomation.safe_click.
  destruct (Z.to_nat max_attempts) as [|k] eqn:E; [lia|].
  unfold WebAutomation.click_attempts, WebAutomation.click_directly.
  simpl. rewrite H1. simpl. rewrite H2. simpl. rewrite H3. simpl.
  rewrite H4. reflexivity.
Qed.

Lemma safe_click_succeeds_through_fallback_witness :
  fst (WebAutomation.safe_click
         (D := WebDriver.logged overlay_page) hidden_button 3 (O, []))
  = true.
Proof.
  rewrite (safe_click_succeeds_through_fallback
             (D := overlay_page) hidden_button 3 O O O 1%nat 1%nat);
    [reflexivity | lia | reflexivity ..].
Defined.

(** ** The batch runner *)

Section Batch.
Import CsvReader Runner.
Context {World : Type} {site : Site World}.

Lemma attempted_count_created (st : Stats) :
  attempted (count_created st) = attempted st + 1.
Proof. unfold attempted. simpl. lia. Qed.

Lemma attempted_count_failed (st : Stats) :
  attempted (count_failed st) = attempted st + 1.
Proof. unfold attempted. simpl. lia. Qed.

(** The inner loop records every clip of the group, created or failed. *)
Lemma create_clips_attempted (cfg : Config) (cs : list ClipData) :
  forall (i : Z) (st : Stats) (wa : Automation World),
    attempted (fst (create_clips cfg i cs st wa))
    = attempted st + Z.of_nat (List.length cs).
Proof.
  induction cs as [|c r IH]; intros i st wa.
  - simpl. lia.
  - cbn [create_clips].
    destruct (create_clip (start_time c) (end_time c) (1 <? i) (session wa))
      as [[|] w]; rewrite IH;
      rewrite ?attempted_count_created, ?attempted_count_failed;
      cbn [List.length]; lia.
Qed.

(** The outer loop never records more clips than there are, and records
    every clip when every URL can be submitted. *)
Lemma process_groups_attempted (cfg : Config) (groups : clip_dict) :
  forall (st : Stats) (wa : Automation World),
    attempted (fst (process_groups cfg groups st wa))
    <= attempted st + total_descriptors groups
    /\ ((forall url w, fst (submit_url url w) = true) ->
        attempted (fst (process_groups cfg groups st wa))
        = attempted st + total_descriptors groups).
Proof.
  induction groups as [|[url cs] rest IH]; intros st wa.
  - simpl. split; [lia|intros _; lia].
  - cbn [process_groups total_descriptors fold_right snd].
    fold (total_descriptors rest).
    destruct (load_video cfg url wa) as [[|] wa1] eqn:El.
    + pose proof (create_clips_attempted cfg cs 1 st wa1) as Hc.
      destruct (create_clips cfg 1 cs st wa1) as [st' wa2].
      cbn [fst] in Hc. destruct (IH st' wa2) as [Hle Heq].
      split; [lia|]. intros Hok. rewrite (Heq Hok). lia.
    + destruct (IH st wa1) as [Hle Heq]. split; [lia|].
      intros Hok. exfalso. unfold load_video in El.
      destruct (negb (check_if_same_video_loaded wa url)); [|discriminate].
      unfold input_youtube_url in El.
      match type of El with
      | context [submit_url url ?w] =>
          specialize (Hok url w); destruct (submit_url url w) as [ok w']
      end.
      cbn [fst] in Hok. subst ok. cbn [negb] in El.
      destruct (set_quality_to_1080p _). discriminate.
Qed.

(** [process_all_clips] on an initialised runner: complete counts whenever
    every URL can be submitted. *)
Lemma process_all_clips_attempted (self : ClipScutterRunner World)
      (wa : Automation World) (groups : clip_dict) :
  web_automation self = Some wa -> downloader self = true ->
  (forall url w, fst (submit_url url w) = true) ->
  fst (process_all_clips self groups) = true
  /\ attempted (stats (snd (process_all_clips self groups)))
     = attempted (stats self) + total_descriptors groups.
Proof.
  intros Hwa Hd Hok. unfold process_all_clips. rewrite Hwa, Hd.
  destruct (process_groups_attempted (config self) groups (stats self) wa)
    as [_ Heq].
  specialize (Heq Hok).
  destruct (process_groups (config self) groups (stats self) wa) as [st wa'].
  split; [reflexivity|exact Heq].
Qed.

End Batch.

(** C1, the code at the failing input: one group of two clips whose URL
    cannot be submitted.  [process_all_clips] completes and returns [True],
    but the group is skipped without being recorded: no clip is counted as
    created, none as failed, and the attempted count is 0 for 2
    descriptors. *)
Lemma skipped_group_is_not_counted :
  let url := "https://www.youtube.com/watch?v=a" in
  let groups := [(url, [CsvReader.mkClip "00:00:10" "00:00:20" url 1;
                        CsvReader.mkClip "00:05:00" "00:05:30" url 2])] in
  let self := Runner.mkRunner Runner.default_config
                (Runner.mkStats 2 0 0 0 1)
                (Some (Runner.mkAutomation None tt)) true in
  let result := Runner.process_all_clips (site := url_field_missing)
                  self groups in
  fst result = true
  /\ Runner.total_descriptors groups = 2
  /\ Runner.clips_created (Runner.stats (snd result)) = 0
  /\ Runner.failed_clips (Runner.stats (snd result)) = 0
  /\ Runner.attempted (Runner.stats (snd result)) = 0.
Proof. vm_compute. repeat split. Qed.

(** * Further properties of the sources *)

Example web_validate_examples :
  WebTime.validate_time_format "00:00:00" = true
  /\ WebTime.validate_time_format "9:59:59" = true
  /\ WebTime.validate_time_format "23:59:59" = true
  /\ WebTime.validate_time_format ("23:59:59" ++ String "010" "") = true
  /\ WebTime.validate_time_format "24:00:00" = false
  /\ WebTime.validate_time_format "1:2:3" = false
  /\ WebTime.validate_time_format "12:60:00" = false
  /\ WebTime.validate_time_format "012:00:00" = false
  /\ WebTime.validate_time_format " 12:00:00" = false
  /\ WebTime.validate_time_format "12:00:00 " = false.
Proof. repeat split; reflexivity. Qed.

Example parse_time_string_examples :
  WebTime.parse_time_string "01:02:03" = 3723
  /\ WebTime.parse_time_string "02:03" = 123
  /\ WebTime.parse_time_string "1:xx:30" = 90
  /\ WebTime.parse_time_string "-1:00:00" = 0
  /\ WebTime.parse_time_string "90" = 0
  /\ WebTime.parse_time_string "1:2:3:4" = 0.
Proof. repeat split; reflexivity. Qed.

(** ** Digits *)

Section Digits.
Import PyStr TimeStrings.

Lemma decimal_char_cases (c : ascii) :
  is_decimal_char c = true ->
  In c ["0"; "1"; "2"; "3"; "4"; "5"; "6"; "7"; "8"; "9"]%char.
Proof.
  destruct c as [[|] [|] [|] [|] [|] [|] [|] [|]];
    vm_compute; intro H; try discriminate H; tauto.
Qed.

Lemma code_inj (a b : ascii) : code a = code b -> a = b.
Proof.
  unfold code. intros H. apply Nat2Z.inj in H.
  rewrite <- (ascii_nat_embedding a), <- (ascii_nat_embedding b), H.
  reflexivity.
Qed.

Lemma decimal_char_digit (c : ascii) :
  is_decimal_char c = true <-> 0 <= digit c <= 9.
Proof.
  unfold is_decimal_char, digit. rewrite andb_true_iff, !Z.leb_le. lia.
Qed.

Lemma one_digit_field (b : ascii) :
  is_decimal_char b = true ->
  decimal_field (String b "") = true
  /\ field_value (String b "") = digit b.
Proof.
  intros Hb. apply decimal_char_cases in Hb. simpl in Hb.
  repeat (destruct Hb as [<-|Hb]; [split; reflexivity|]). contradiction.
Qed.

Lemma two_digit_field (a b : ascii) :
  is_decimal_char a = true -> is_decimal_char b = true ->
  decimal_field (String a (String b "")) = true
  /\ field_value (String a (String b "")) = digit a * 10 + digit b.
Proof.
  intros Ha Hb. apply decimal_char_cases in Ha, Hb. simpl in Ha, Hb.
  repeat (destruct Ha as [<-|Ha];
          [repeat (destruct Hb as [<-|Hb]; [split; reflexivity|]);
           contradiction|]).
  contradiction.
Qed.

Lemma decimal_field_chars (s : string) :
  decimal_field s = true ->
  match s with
  | EmptyString => False
  | String a r =>
      is_decimal_char a = true /\ forallb_str is_decimal_char r = true
  end.
Proof.
  destruct s as [|a r]; [discriminate|]. simpl.
  intros H. apply andb_true_iff in H. exact H.
Qed.

Lemma short_field_limit (s : string) :
  (String.length s <= 4300)%nat -> within_digit_limit s = true.
Proof.
  intros H. unfold within_digit_limit, max_str_digits.
  apply Z.leb_le. lia.
Qed.

End Digits.

(** ** The pattern of [validate_time_format] *)

Section DayTimes.
Import PyStr TimeStrings.

Lemma class_inv (p : ascii -> bool) (s : string) (k : string -> bool) :
  Re.matches_then (Re.Class p) s k = true ->
  exists c t, s = String c t /\ p c = true /\ k t = true.
Proof.
  destruct s as [|c t]; simpl; [discriminate|].
  intros H. apply andb_true_iff in H as [Hc Hk]. eauto.
Qed.

Lemma range_inv (lo hi c : ascii) :
  (code lo <=? code c) && (code c <=? code hi) = true <->
  code lo <= code c <= code hi.
Proof. rewrite andb_true_iff, !Z.leb_le. tauto. Qed.

Lemma chr_inv (a c : ascii) : Ascii.eqb a c = true <-> c = a.
Proof. rewrite Ascii.eqb_eq. split; congruence. Qed.

Lemma code_digits :
  code "0" = 48 /\ code "1" = 49 /\ code "2" = 50 /\ code "3" = 51
  /\ code "5" = 53 /\ code "9" = 57.
Proof. repeat split; reflexivity. Qed.

Lemma after_hours_inv (t : string) :
  after_hours t = true <->
  exists m1 m2 x1 x2 tail,
    t = String ":" (String m1 (String m2
          (String ":" (String x1 (String x2 tail)))))
    /\ Re.at_end tail = true
    /\ 0 <= digit m1 <= 5 /\ 0 <= digit m2 <= 9
    /\ 0 <= digit x1 <= 5 /\ 0 <= digit x2 <= 9.
Proof.
  unfold after_hours, Re.range, Re.chr, digit.
  destruct code_digits as (E0 & _ & _ & _ & E5 & E9).
  split.
  - cbn [Re.matches_then]. intros H.
    apply class_inv in H as (c0 & t0 & -> & Hc0 & H).
    apply class_inv in H as (m1 & t1 & -> & Hm1 & H).
    apply class_inv in H as (m2 & t2 & -> & Hm2 & H).
    apply class_inv in H as (c1 & t3 & -> & Hc1 & H).
    apply class_inv in H as (x1 & t4 & -> & Hx1 & H).
    apply class_inv in H as (x2 & tail & -> & Hx2 & H).
    apply chr_inv in Hc0, Hc1. subst c0 c1.
    apply range_inv in Hm1, Hm2, Hx1, Hx2.
    exists m1, m2, x1, x2, tail.
    repeat split; try assumption; lia.
  - intros (m1 & m2 & x1 & x2 & tail & -> & Ht & Hm1 & Hm2 & Hx1 & Hx2).
    cbn [Re.matches_then]. rewrite Ht, !Ascii.eqb_refl, andb_true_r.
    cbn [andb].
    repeat (apply andb_true_iff; split); apply Z.leb_le; lia.
Qed.

Lemma validate_unfold (s : string) :
  WebTime.validate_time_format s =
    Re.matches_then (Re.range "0" "1") s
      (fun t => Re.matches_then (Re.range "0" "9") t after_hours)
    || Re.matches_then (Re.range "0" "9") s after_hours
    || Re.matches_then (Re.chr "2") s
         (fun t => Re.matches_then (Re.range "0" "3") t after_hours).
Proof. reflexivity. Qed.

(** The hours the pattern admits, as digits. *)
Lemma validate_hours (s : string) :
  WebTime.validate_time_format s = true <->
  (exists b t, s = String b t /\ 0 <= digit b <= 9 /\ after_hours t = true)
  \/ (exists a b t,
        s = String a (String b t) /\ 0 <= digit a <= 9 /\ 0 <= digit b <= 9
        /\ digit a * 10 + digit b < 24 /\ after_hours t = true).
Proof.
  rewrite validate_unfold, !orb_true_iff.
  unfold Re.range, Re.chr, digit.
  destruct code_digits as (E0 & E1 & E2 & E3 & _ & E9).
  split.
  - intros [[H|H]|H].
    + apply class_inv in H as (a & t0 & -> & Ha & H).
      apply class_inv in H as (b & t & -> & Hb & H).
      apply range_inv in Ha, Hb. right. exists a, b, t.
      repeat split; try assumption; lia.
    + apply class_inv in H as (b & t & -> & Hb & H).
      apply range_inv in Hb. left. exists b, t.
      repeat split; try assumption; lia.
    + apply class_inv in H as (a & t0 & -> & Ha & H).
      apply class_inv in H as (b & t & -> & Hb & H).
      apply chr_inv in Ha. subst a. apply range_inv in Hb.
      right. exists "2"%char, b, t. rewrite E2.
      repeat split; try assumption; lia.
  - intros [(b & t & -> & Hb & H)|(a & b & t & -> & Ha & Hb & Hlt & H)].
    + left. right. cbn [Re.matches_then]. rewrite H, andb_true_r.
      apply range_inv. lia.
    + destruct (Z.le_gt_cases (code a) 49) as [Hs|Hg].
      * left. left. cbn [Re.matches_then]. rewrite H, andb_true_r.
        apply andb_true_iff. split; apply range_inv; lia.
      * right. assert (a = "2"%char) by (apply code_inj; rewrite E2; lia).
        subst a. rewrite E2 in Hlt. cbn [Re.matches_then].
        rewrite H, Ascii.eqb_refl, andb_true_r. cbn [andb].
        apply range_inv. lia.
Qed.

Lemma digit_decimal (c : ascii) :
  0 <= digit c <= 9 -> is_decimal_char c = true.
Proof. apply decimal_char_digit. Qed.

(** [validate_time_format] accepts exactly the strings of the form
    [H:MM:SS] or [HH:MM:SS] with hours below 24, minutes and seconds below
    60, possibly followed by one final newline. *)
Lemma validate_day_time_form (s : string) :
  WebTime.validate_time_format s = true <-> day_time_form s.
Proof.
  rewrite validate_hours. split.
  - intros [(b & t & -> & Hb & H)|(a & b & t & -> & Ha & Hb & Hlt & H)];
      apply after_hours_inv in H
        as (m1 & m2 & x1 & x2 & tail & -> & Ht & Hm1 & Hm2 & Hx1 & Hx2);
      destruct (two_digit_field m1 m2) as [Fm Vm];
      try (apply digit_decimal; lia);
      destruct (two_digit_field x1 x2) as [Fx Vx];
      try (apply digit_decimal; lia).
    + destruct (one_digit_field b (digit_decimal b Hb)) as [Fh Vh].
      exists (String b ""), (String m1 (String m2 "")),
        (String x1 (String x2 "")), tail.
      repeat split; auto; simpl String.length; lia.
    + destruct (two_digit_field a b (digit_decimal a Ha) (digit_decimal b Hb))
        as [Fh Vh].
      exists (String a (String b "")), (String m1 (String m2 "")),
        (String x1 (String x2 "")), tail.
      repeat split; auto; simpl String.length; lia.
  - intros (h & m & x & tail & -> & Ht & Fh & Fm & Fx & Lh & Lm & Lx
            & Vh & Vm & Vx).
    destruct m as [|m1 [|m2 [|? ?]]]; try discriminate Lm.
    destruct x as [|x1 [|x2 [|? ?]]]; try discriminate Lx.
    apply decimal_field_chars in Fm as [Dm1 Dm2], Fx as [Dx1 Dx2].
    simpl in Dm2, Dx2. rewrite andb_true_r in Dm2, Dx2.
    destruct (two_digit_field m1 m2 Dm1 Dm2) as [_ Em].
    destruct (two_digit_field x1 x2 Dx1 Dx2) as [_ Ex].
    rewrite Em in Vm. rewrite Ex in Vx.
    apply decimal_char_digit in Dm1, Dm2, Dx1, Dx2.
    assert (Hafter : after_hours
                       (":" ++ String m1 (String m2 "") ++ ":"
                        ++ String x1 (String x2 "") ++ tail) = true).
    { apply after_hours_inv. exists m1, m2, x1, x2, tail.
      repeat split; auto; lia. }
    destruct h as [|a [|b [|? ?]]]; try discriminate Fh;
      [left|right|simpl in Lh; lia].
    + apply decimal_field_chars in Fh as [Da _].
      apply decimal_char_digit in Da. exists a. eexists.
      split; [reflexivity|]. split; [lia|exact Hafter].
    + apply decimal_field_chars in Fh as [Da Db].
      simpl in Db. rewrite andb_true_r in Db.
      destruct (two_digit_field a b Da Db) as [_ Eh]. rewrite Eh in Vh.
      apply decimal_char_digit in Da, Db. exists a, b. eexists.
      split; [reflexivity|]. repeat split; try lia. exact Hafter.
Qed.

Lemma rstrip_by_all (p : ascii -> bool) (s : string) :
  forallb_str p s = true -> rstrip_by p s = EmptyString.
Proof.
  induction s as [|c r IH]; simpl; [reflexivity|].
  intros H. apply andb_true_iff in H as [Hc Hr].
  rewrite (IH Hr), Hc. reflexivity.
Qed.

Lemma rstrip_by_app (p : ascii -> bool) (body tail : string) :
  body <> EmptyString ->
  forallb_str (fun c => negb (p c)) body = true ->
  forallb_str p tail = true ->
  rstrip_by p (body ++ tail) = body.
Proof.
  intros Hne Hb Ht. induction body as [|c r IH]; [contradiction|].
  simpl in Hb. apply andb_true_iff in Hb as [Hc Hr].
  apply negb_true_iff in Hc. simpl.
  destruct r as [|c' r'].
  - simpl. rewrite (rstrip_by_all p tail Ht), Hc. reflexivity.
  - rewrite IH by (discriminate || exact Hr). reflexivity.
Qed.

Lemma strip_by_app (p : ascii -> bool) (body tail : string) :
  body <> EmptyString ->
  forallb_str (fun c => negb (p c)) body = true ->
  forallb_str p tail = true ->
  strip_by p (body ++ tail) = body.
Proof.
  intros Hne Hb Ht. unfold strip_by.
  assert (Hl : lstrip_by p (body ++ tail) = body ++ tail).
  { destruct body as [|c r]; [contradiction|]. simpl in *.
    apply andb_true_iff in Hb as [Hc _]. apply negb_true_iff in Hc.
    rewrite Hc. reflexivity. }
  rewrite Hl. apply rstrip_by_app; assumption.
Qed.

Lemma at_end_spaces (tail : string) :
  Re.at_end tail = true ->
  forallb_str int_space_char tail = true
  /\ forallb_str isspace_char tail = true
  /\ forallb_str (fun c => negb (Ascii.eqb c ":")) tail = true.
Proof.
  destruct tail as [|c [|? ?]]; simpl; try discriminate; [auto|].
  intros H. apply Ascii.eqb_eq in H. subst c. auto.
Qed.

(** [int()] ignores the newline that may end a field. *)
Lemma int_decimal_field_tail (x tail : string) :
  decimal_field x = true -> Re.at_end tail = true ->
  int (x ++ tail) = int x.
Proof.
  intros Fx Ht. destruct (decimal_field_inv x Fx) as [Hne Hall].
  destruct (at_end_spaces tail Ht) as (Hs & _ & _).
  assert (Hns : forallb_str (fun c => negb (int_space_char c)) x = true).
  { revert Hall. apply forallb_str_impl. intros c Hc.
    destruct (decimal_char_facts c Hc) as (E & _). rewrite E. reflexivity. }
  unfold int. rewrite (strip_by_app _ x tail Hne Hns Hs).
  rewrite (strip_by_none _ x Hns). reflexivity.
Qed.

Lemma convert_day_time (h m x tail : string) :
  Re.at_end tail = true ->
  decimal_field h = true -> decimal_field m = true ->
  decimal_field x = true ->
  (String.length h <= 2)%nat ->
  String.length m = 2%nat -> String.length x = 2%nat ->
  TimeHelpers.convert_time_to_seconds (h ++ ":" ++ m ++ ":" ++ x ++ tail)
  = field_value h * 3600 + field_value m * 60 + field_value x.
Proof.
  intros Ht Fh Fm Fx Lh Lm Lx. unfold TimeHelpers.convert_time_to_seconds.
  destruct (decimal_field_inv h Fh) as [_ Hh].
  destruct (decimal_field_inv m Fm) as [_ Hm].
  destruct (decimal_field_inv x Fx) as [_ Hx].
  destruct (at_end_spaces tail Ht) as (_ & _ & Hc).
  change (h ++ ":" ++ m ++ ":" ++ x ++ tail)
    with (h ++ String ":" (m ++ String ":" (x ++ tail))).
  rewrite (split_app ":" h _ (no_sep_decimal h Hh)).
  rewrite (split_app ":" m _ (no_sep_decimal m Hm)).
  rewrite (split_no_sep ":" (x ++ tail)).
  - simpl map_opt.
    rewrite (int_decimal_field_tail x tail Fx Ht).
    rewrite (int_decimal_field h Fh), (int_decimal_field m Fm),
      (int_decimal_field x Fx).
    rewrite !short_field_limit by lia. reflexivity.
  - rewrite forallb_str_app, (no_sep_decimal x Hx), Hc. reflexivity.
Qed.

End DayTimes.

Lemma day_time_seconds (s : string) :
  day_time_form s -> 0 <= TimeHelpers.convert_time_to_seconds s < 86400.
Proof.
  intros (h & m & x & tail & -> & Ht & Fh & Fm & Fx & Lh & Lm & Lx
          & Vh & Vm & Vx).
  rewrite convert_day_time by assumption.
  pose proof (field_value_nonneg h). pose proof (field_value_nonneg m).
  pose proof (field_value_nonneg x). lia.
Qed.

(** X1.  Every string the pattern of [validate_time_format] accepts
    converts to a number of seconds within one day. *)
Theorem validated_time_is_within_a_day (s : string) :
  WebTime.validate_time_format s = true ->
  0 <= TimeHelpers.convert_time_to_seconds s < 86400.
Proof.
  intros H. apply day_time_seconds, validate_day_time_form, H.
Qed.

Lemma validated_time_is_within_a_day_witness :
  0 <= TimeHelpers.convert_time_to_seconds "23:59:59" < 86400.
Proof.
  apply (validated_time_is_within_a_day "23:59:59"). reflexivity.
Defined.

Section TimeFunctions.
Import PyStr TimeStrings.

Lemma decimal_field_isdigit (s : string) :
  decimal_field s = true -> isdigit s = true.
Proof.
  destruct s as [|c r]; [discriminate|]. unfold decimal_field, isdigit.
  apply forallb_str_impl. intros a Ha.
  destruct (decimal_char_facts a Ha) as (_ & _ & H & _). exact H.
Qed.

Lemma append_empty_r (s : string) : s ++ "" = s.
Proof. induction s as [|c r IH]; simpl; congruence. Qed.

Lemma append_assoc_str (a b c : string) : (a ++ b) ++ c = a ++ b ++ c.
Proof. induction a as [|x r IH]; simpl; congruence. Qed.

Lemma split_three_fields (h m x : string) :
  decimal_field h = true -> decimal_field m = true ->
  decimal_field x = true ->
  split ":" (h ++ ":" ++ m ++ ":" ++ x) = [h; m; x].
Proof.
  intros Fh Fm Fx.
  destruct (decimal_field_inv h Fh) as [_ Hh].
  destruct (decimal_field_inv m Fm) as [_ Hm].
  destruct (decimal_field_inv x Fx) as [_ Hx].
  change (h ++ ":" ++ m ++ ":" ++ x)
    with (h ++ String ":" (m ++ String ":" x)).
  rewrite (split_app ":" h _ (no_sep_decimal h Hh)).
  rewrite (split_app ":" m _ (no_sep_decimal m Hm)).
  rewrite (split_no_sep ":" x (no_sep_decimal x Hx)). reflexivity.
Qed.

(** The reader's [validate_time_format] on three decimal fields. *)
Lemma reader_accepts_fields (h m x : string) :
  decimal_field h = true -> decimal_field m = true ->
  decimal_field x = true ->
  within_digit_limit m = true -> within_digit_limit x = true ->
  field_value m < 60 -> field_value x < 60 ->
  CsvReader.validate_time_format (h ++ ":" ++ m ++ ":" ++ x) = true.
Proof.
  intros Fh Fm Fx Lm Lx Vm Vx. unfold CsvReader.validate_time_format.
  rewrite (split_three_fields h m x Fh Fm Fx).
  rewrite !decimal_field_isdigit by assumption. cbn [andb negb].
  rewrite (int_decimal_field m Fm), (int_decimal_field x Fx), Lm, Lx.
  apply Z.leb_gt in Vm, Vx. rewrite Vm, Vx. reflexivity.
Qed.

Lemma time_body_no_space (h m x : string) :
  decimal_field h = true -> decimal_field m = true ->
  decimal_field x = true ->
  h ++ ":" ++ m ++ ":" ++ x <> EmptyString
  /\ forallb_str (fun c => negb (isspace_char c))
                 (h ++ ":" ++ m ++ ":" ++ x) = true.
Proof.
  intros Fh Fm Fx. split.
  - destruct h; [discriminate Fh|discriminate].
  - assert (Hd : forall s, decimal_field s = true ->
                   forallb_str (fun c => negb (isspace_char c)) s = true).
    { intros s Fs. destruct (decimal_field_inv s Fs) as [_ Hs].
      revert Hs. apply forallb_str_impl. intros c Hc.
      destruct (decimal_char_facts c Hc) as (_ & E & _).
      rewrite E. reflexivity. }
    rewrite !forallb_str_app, (Hd h Fh), (Hd m Fm), (Hd x Fx). reflexivity.
Qed.

(** What [strip()] leaves of a string the pattern accepts. *)
Lemma strip_day_time (h m x tail : string) :
  decimal_field h = true -> decimal_field m = true ->
  decimal_field x = true -> Re.at_end tail = true ->
  strip (h ++ ":" ++ m ++ ":" ++ x ++ tail) = h ++ ":" ++ m ++ ":" ++ x.
Proof.
  intros Fh Fm Fx Ht.
  destruct (time_body_no_space h m x Fh Fm Fx) as [Hne Hns].
  destruct (at_end_spaces tail Ht) as (_ & Hs & _).
  replace (h ++ ":" ++ m ++ ":" ++ x ++ tail)
    with ((h ++ ":" ++ m ++ ":" ++ x) ++ tail)
    by (rewrite !append_assoc_str; reflexivity).
  apply strip_by_app; assumption.
Qed.

Lemma contains_colon (h rest : string) :
  contains ":" (h ++ String ":" rest) = true.
Proof.
  induction h as [|c r IH].
  - destruct rest; reflexivity.
  - simpl append. cbn [contains]. rewrite IH. apply orb_true_r.
Qed.

End TimeFunctions.

(** X2.  Whatever [validate_time_format] of [web_automation.py] accepts,
    the reader's [validate_time_format] accepts once the cell is stripped,
    as [read_csv] does. *)
Theorem pattern_valid_time_passes_reader (s : string) :
  WebTime.validate_time_format s = true ->
  CsvReader.validate_time_format (PyStr.strip s) = true.
Proof.
  intros H. apply validate_day_time_form in H
    as (h & m & x & tail & -> & Ht & Fh & Fm & Fx & Lh & Lm & Lx
        & Vh & Vm & Vx).
  rewrite strip_day_time by assumption.
  apply reader_accepts_fields; try assumption;
    apply short_field_limit; lia.
Qed.

Lemma pattern_valid_time_passes_reader_witness :
  CsvReader.validate_time_format (PyStr.strip "9:05:00") = true.
Proof.
  apply (pattern_valid_time_passes_reader "9:05:00"). reflexivity.
Defined.

(** X3.  For a non-negative number of seconds, what
    [format_seconds_to_time] returns converts back to that number, and the
    pattern of [validate_time_format] accepts it exactly when the number is
    below one day; below one day the formatting does not fail. *)
Theorem formatted_time_valid_within_a_day (n : Z) :
  0 <= n ->
  (n < 86400 -> exists t, TimeHelpers.format_seconds_to_time n = Some t)
  /\ (forall t,
        TimeHelpers.format_seconds_to_time n = Some t ->
        TimeHelpers.convert_time_to_seconds t = n
        /\ (WebTime.validate_time_format t = true <-> n < 86400)).
Proof.
  intros Hn.
  assert (Hback : forall t, TimeHelpers.format_seconds_to_time n = Some t ->
                            TimeHelpers.convert_time_to_seconds t = n).
  { intros t Ht.
    assert (Hlim : PyStr.within_digit_limit (PyStr.decimal (n / 3600))
                   = true).
    { unfold TimeHelpers.format_seconds_to_time in Ht. cbv zeta in Ht.
      unfold PyStr.format_02d at 1 in Ht.
      rewrite Z.abs_eq in Ht by (apply Z.div_pos; lia).
      destruct (PyStr.within_digit_limit (PyStr.decimal (n / 3600)));
        [reflexivity|discriminate Ht]. }
    destruct (convert_format n Hn Hlim) as (t' & Ht' & Hc).
    rewrite Ht in Ht'. injection Ht' as <-. exact Hc. }
  assert (Hday : n < 86400 ->
                 exists t, TimeHelpers.format_seconds_to_time n = Some t
                           /\ day_time_form t).
  { intros Hlt.
    assert (Hh : 0 <= n / 3600 < 60).
    { split; [apply Z.div_pos; lia|apply Z.div_lt_upper_bound; lia]. }
    assert (Hh24 : n / 3600 < 24) by (apply Z.div_lt_upper_bound; lia).
    pose proof (Z.mod_pos_bound n 3600 ltac:(lia)) as Hr.
    pose proof (Z.mod_pos_bound n 60 ltac:(lia)) as Hs.
    assert (Hmin : 0 <= (n mod 3600) / 60 < 60).
    { split; [apply Z.div_pos; lia|apply Z.div_lt_upper_bound; lia]. }
    destruct (format_02d_small _ Hh) as (th & Eh & Fh & Vh & Lh).
    destruct (format_02d_small _ Hmin) as (tm & Em & Fm & Vm & Lm).
    destruct (format_02d_small _ Hs) as (ts & Es & Fs & Vs & Ls).
    exists (th ++ ":" ++ tm ++ ":" ++ ts). split.
    - unfold TimeHelpers.format_seconds_to_time. cbv zeta.
      rewrite Eh, Em, Es. reflexivity.
    - exists th, tm, ts, "". rewrite append_empty_r.
      repeat split; auto; lia. }
  split.
  - intros Hlt. destruct (Hday Hlt) as (t & Ht & _). eauto.
  - intros t Ht. split; [exact (Hback t Ht)|]. split.
    + intros Hv. apply validate_day_time_form, day_time_seconds in Hv.
      rewrite (Hback t Ht) in Hv. lia.
    + intros Hlt. destruct (Hday Hlt) as (t' & Ht' & Hform).
      rewrite Ht in Ht'. injection Ht' as <-.
      apply validate_day_time_form, Hform.
Qed.

Lemma formatted_time_valid_within_a_day_witness :
  TimeHelpers.convert_time_to_seconds "24:00:00" = 86400
  /\ (WebTime.validate_time_format "24:00:00" = true <-> 86400 < 86400).
Proof.
  destruct (formatted_time_valid_within_a_day 86400 ltac:(lia)) as [_ H].
  apply (H "24:00:00"). reflexivity.
Defined.

(** X4.  [seconds_to_hms] splits every integer, negative ones included,
    into hours, minutes and seconds that add up to it again, with minutes
    and seconds in [0,60); the hours carry the sign. *)
Theorem seconds_to_hms_adds_up (seconds : Z) :
  let '(hours, minutes, secs) := WebTime.seconds_to_hms seconds in
  hours * 3600 + minutes * 60 + secs = seconds
  /\ 0 <= minutes < 60 /\ 0 <= secs < 60
  /\ (0 <= hours <-> 0 <= seconds).
Proof.
  unfold WebTime.seconds_to_hms. cbv zeta.
  pose proof (Z.div_mod seconds 3600 ltac:(lia)) as E1.
  pose proof (Z.div_mod (seconds mod 3600) 60 ltac:(lia)) as E2.
  pose proof (Z.mod_pos_bound seconds 3600 ltac:(lia)) as Hr.
  pose proof (Z.mod_pos_bound seconds 60 ltac:(lia)) as Hs.
  pose proof (Z.mod_pos_bound (seconds mod 3600) 60 ltac:(lia)) as Hs'.
  assert (E3 : (seconds mod 3600) mod 60 = seconds mod 60).
  { symmetry. rewrite E1 at 1.
    replace (3600 * (seconds / 3600) + seconds mod 3600)
      with (seconds mod 3600 + (60 * (seconds / 3600)) * 60) by ring.
    apply Z.mod_add. lia. }
  assert (Hmin : 0 <= (seconds mod 3600) / 60 < 60).
  { split; [apply Z.div_pos; lia|apply Z.div_lt_upper_bound; lia]. }
  repeat split; lia.
Qed.

(** X5.  On every string the pattern of [validate_time_format] accepts,
    [parse_time_string] and [convert_time_to_seconds] give the same number
    of seconds. *)
Theorem parse_time_string_agrees_with_convert (s : string) :
  WebTime.validate_time_format s = true ->
  WebTime.parse_time_string s = TimeHelpers.convert_time_to_seconds s.
Proof.
  intros H. apply validate_day_time_form in H
    as (h & m & x & tail & -> & Ht & Fh & Fm & Fx & Lh & Lm & Lx
        & Vh & Vm & Vx).
  rewrite convert_day_time by assumption.
  unfold WebTime.parse_time_string.
  change (h ++ ":" ++ m ++ ":" ++ x ++ tail)
    with (h ++ String ":" (m ++ ":" ++ x ++ tail)) at 1.
  rewrite contains_colon. cbn [negb].
  rewrite strip_day_time, split_three_fields by assumption.
  cbn [filter]. rewrite !decimal_field_isdigit by assumption.
  rewrite (int_decimal_field h Fh), (int_decimal_field m Fm),
    (int_decimal_field x Fx).
  rewrite !short_field_limit by lia. reflexivity.
Qed.

Lemma parse_time_string_agrees_with_convert_witness :
  WebTime.parse_time_string "01:02:03"
  = TimeHelpers.convert_time_to_seconds "01:02:03".
Proof.
  apply (parse_time_string_agrees_with_convert "01:02:03"). reflexivity.
Defined.

(** X6.  [parse_time_string] never returns a negative number, whatever the
    string: signed fields do not pass [isdigit()] and are dropped. *)
Theorem parse_time_string_nonneg (s : string) :
  0 <= WebTime.parse_time_string s.
Proof.
  unfold WebTime.parse_time_string.
  destruct (negb (PyStr.contains ":" s)); [lia|].
  pose proof (fun f => proj1 (filter_In PyStr.isdigit f
                (PyStr.split ":" (PyStr.strip s)))) as Hin.
  destruct (filter PyStr.isdigit (PyStr.split ":" (PyStr.strip s)))
    as [|a [|b [|c [|d r]]]]; try lia.
  - destruct (Hin a ltac:(simpl; auto)) as [_ Da].
    destruct (Hin b ltac:(simpl; auto)) as [_ Db].
    destruct (PyStr.int a) as [av|] eqn:Ea; [|lia].
    destruct (PyStr.int b) as [bv|] eqn:Eb; [|lia].
    pose proof (int_isdigit_nonneg a av Da Ea).
    pose proof (int_isdigit_nonneg b bv Db Eb). lia.
  - destruct (Hin a ltac:(simpl; auto)) as [_ Da].
    destruct (Hin b ltac:(simpl; auto)) as [_ Db].
    destruct (Hin c ltac:(simpl; auto)) as [_ Dc].
    destruct (PyStr.int a) as [av|] eqn:Ea; [|lia].
    destruct (PyStr.int b) as [bv|] eqn:Eb; [|lia].
    destruct (PyStr.int c) as [cv|] eqn:Ec; [|lia].
    pose proof (int_isdigit_nonneg a av Da Ea).
    pose proof (int_isdigit_nonneg b bv Db Eb).
    pose proof (int_isdigit_nonneg c cv Dc Ec). lia.
Qed.

(** ** More on the reader *)

Example first_seen_example :
  first_seen ["b"; "a"; "b"; "c"; "a"] = ["b"; "a"; "c"].
Proof. reflexivity. Qed.

Section ReaderAccounts.
Import CsvReader.
Local Open Scope list_scope.

Lemma row_numbers_cons (first : Z) (n : nat) :
  row_numbers first (S n) = first :: row_numbers (first + 1) n.
Proof.
  unfold row_numbers. simpl. rewrite Z.add_0_r. f_equal.
  rewrite <- seq_shift, map_map. apply map_ext. intros j. lia.
Qed.

Lemma read_rows_row_numbers (rows : list (list string)) (first : Z) :
  Permutation
    (map row_number (fst (read_rows first rows))
     ++ map invalid_row_number (snd (read_rows first rows)))
    (row_numbers first (List.length rows)).
Proof.
  revert first. induction rows as [|r rest IH]; intros first.
  - reflexivity.
  - cbn [List.length]. rewrite row_numbers_cons. simpl read_rows.
    specialize (IH (first + 1)).
    destruct (read_rows (first + 1) rest) as [cs bad]. cbn [fst snd] in IH.
    destruct (check_row first r) as [c|b] eqn:E; cbn [fst snd map].
    + rewrite (check_row_row_number _ _ _ E). simpl.
      apply perm_skip, IH.
    + destruct (check_row_inr _ _ _ E) as [reason ->].
      unfold invalid_row_number at 1. cbn [fst].
      rewrite <- Permutation_middle. apply perm_skip, IH.
Qed.

Lemma fold_keys (cs : list ClipData) (d : clip_dict) :
  map fst (fold_left collect_step cs d)
  = fold_left (fun acc u => if in_dec string_dec u acc then acc
                            else acc ++ [u])
              (map youtube_url cs) (map fst d).
Proof.
  revert d. induction cs as [|c r IH]; intros d; simpl; [reflexivity|].
  rewrite IH. unfold collect_step. rewrite keys_dict_append.
  reflexivity.
Qed.

Lemma fold_first_seen (l : list string) :
  fold_left (fun acc u => if in_dec string_dec u acc then acc
                          else acc ++ [u]) l []
  = first_seen l.
Proof.
  induction l as [|u r IH] using rev_ind; [reflexivity|].
  rewrite fold_left_app, IH. cbn [fold_left].
  unfold first_seen. rewrite rev_app_distr. cbn [rev app nodup].
  destruct (in_dec string_dec u (rev (nodup string_dec (rev r))))
    as [Hin|Hout];
    destruct (in_dec string_dec u (rev r)) as [Hin'|Hout'].
  - reflexivity.
  - exfalso. apply Hout'. apply in_rev in Hin.
    apply nodup_In in Hin. exact Hin.
  - exfalso. apply Hout. apply in_rev. rewrite rev_involutive.
    apply nodup_In. exact Hin'.
  - reflexivity.
Qed.

End ReaderAccounts.

(** X7.  [read_csv] loses no row and counts none twice: the row numbers of
    the returned clips together with the row numbers of the reported rows
    are exactly the numbers 1 to the number of rows of the file, each once;
    in particular the two lists together are as long as the file. *)
Theorem read_csv_accounts_for_every_row
        (self self' : CsvReader.CSVReader) (rows : list (list string))
        (clips : list CsvReader.ClipData)
        (bad : list CsvReader.invalid_row) :
  CsvReader.read_csv self (CsvReader.Rows rows) = (Returned clips, bad, self')
  ->
  Permutation (map CsvReader.row_number clips
               ++ map invalid_row_number bad)%list
              (row_numbers 1 (List.length rows))
  /\ (List.length clips + List.length bad = List.length rows)%nat.
Proof.
  unfold CsvReader.read_csv. intros H.
  pose proof (read_rows_row_numbers rows 1) as Hp.
  destruct (CsvReader.read_rows 1 rows) as [cs bs]. cbn [fst snd] in Hp.
  injection H as <- <- _. split; [exact Hp|].
  apply Permutation_length in Hp.
  unfold row_numbers in Hp.
  rewrite length_app, !length_map, length_seq in Hp. exact Hp.
Qed.

Lemma read_csv_accounts_for_every_row_witness :
  exists clips bad,
    Permutation (map CsvReader.row_number clips
                 ++ map invalid_row_number bad)%list [1; 2; 3].
Proof.
  pose (rows := [["00:00:10"; "00:00:20"; "https://youtu.be/a"];
                 ["oops"];
                 ["00:01:00"; "00:02:00"; "https://youtu.be/b"]]).
  destruct (CsvReader.read_csv (CsvReader.init "clip_ranges.csv")
                               (CsvReader.Rows rows))
    as [[res bad] self'] eqn:E.
  destruct res as [clips|]; [|vm_compute in E; discriminate E].
  exists clips, bad.
  exact (proj1 (read_csv_accounts_for_every_row _ _ rows clips bad E)).
Defined.


(** X8.  The dictionary [group_clips_by_url] builds has one group for each
    distinct URL, in the order in which the URLs first occur in the list of
    clips.  The call returns that dictionary or raises, and it returns it
    whenever no row number has more than 4300 digits. *)
Theorem groups_in_order_of_first_occurrence
        (self : CsvReader.CSVReader) (cs : list CsvReader.ClipData) :
  let call := CsvReader.group_clips_by_url self (Some cs) in
  map fst (CsvReader.grouped_clips (snd call))
  = first_seen (map CsvReader.youtube_url cs)
  /\ (fst call = Returned (CsvReader.grouped_clips (snd call))
      \/ fst call = Raised)
  /\ ((forall c, In c cs ->
         Z.abs (CsvReader.row_number c) < 10 ^ PyStr.max_str_digits) ->
      fst call = Returned (CsvReader.grouped_clips (snd call))).
Proof.
  cbv zeta. destruct (grouping_outcome self (Some cs)) as [Hcases Hiff].
  split; [|split; [exact Hcases|]].
  - rewrite grouping_result, keys_sort_entries.
    unfold CsvReader.collect.
    change (fun grouped clip =>
              CsvReader.dict_append (CsvReader.youtube_url clip) clip grouped)
      with collect_step.
    rewrite fold_keys. apply fold_first_seen.
  - intros Hsmall. apply Hiff, small_rows_log_cleanly, Hsmall.
Qed.

Lemma groups_in_order_of_first_occurrence_witness :
  let cs := [CsvReader.mkClip "00:00:10" "00:00:20" "https://youtu.be/b" 1;
             CsvReader.mkClip "00:00:00" "00:00:05" "https://youtu.be/a" 2;
             CsvReader.mkClip "00:05:00" "00:05:30" "https://youtu.be/b" 3] in
  let call := CsvReader.group_clips_by_url (CsvReader.init "clip_ranges.csv")
                                           (Some cs) in
  map fst (CsvReader.grouped_clips (snd call))
  = ["https://youtu.be/b"; "https://youtu.be/a"]
  /\ fst call = Returned (CsvReader.grouped_clips (snd call)).
Proof.
  intros cs call.
  destruct (groups_in_order_of_first_occurrence
              (CsvReader.init "clip_ranges.csv") cs) as (Hk & _ & Hret).
  split; [exact Hk|]. apply Hret.
  intros c [<-|[<-|[<-|[]]]]; vm_compute; reflexivity.
Defined.



(** ** The statistics and the runner's totals *)

Section Statistics.
Import CsvReader CsvStatistics.
Local Open Scope list_scope.

Lemma clip_duration_nonneg (c : ClipData) : 0 <= clip_duration c.
Proof.
  unfold clip_duration.
  destruct (hms_seconds (start_time c)) as [a|]; [|lia].
  destruct (hms_seconds (end_time c)) as [b|]; [|lia].
  cbv zeta. destruct (0 <? b - a) eqn:E; [|lia].
  apply Z.ltb_lt in E. lia.
Qed.

Lemma total_duration_nonneg (cs : list ClipData) (acc : Z) :
  acc <= fold_left (fun total clip => total + clip_duration clip) cs acc.
Proof.
  revert acc. induction cs as [|c r IH]; intros acc; simpl; [lia|].
  pose proof (clip_duration_nonneg c). specialize (IH (acc + clip_duration c)).
  lia.
Qed.

Lemma nodup_rev_length (l : list string) :
  List.length (nodup string_dec (rev l))
  = List.length (nodup string_dec l).
Proof.
  apply Permutation_length, NoDup_Permutation; try apply NoDup_nodup.
  intros x. rewrite !nodup_In, <- in_rev. tauto.
Qed.

Lemma first_seen_length (l : list string) :
  List.length (first_seen l) = List.length (nodup string_dec l).
Proof. unfold first_seen. rewrite length_rev. apply nodup_rev_length. Qed.

Lemma nodup_length_le (l : list string) :
  (List.length (nodup string_dec l) <= List.length l)%nat.
Proof.
  induction l as [|x r IH]; simpl; [lia|].
  destruct (in_dec string_dec x r); simpl; lia.
Qed.

Lemma nodup_nonempty (l : list string) :
  l <> [] -> (1 <= List.length (nodup string_dec l))%nat.
Proof.
  intros Hne. destruct (nodup string_dec l) as [|x r] eqn:E; simpl; [|lia].
  destruct l as [|y l']; [contradiction|].
  assert (Hin : In y (nodup string_dec (y :: l')))
    by (apply nodup_In; left; reflexivity).
  rewrite E in Hin. contradiction.
Qed.

Lemma total_descriptors_concat (g : clip_dict) :
  Runner.total_descriptors g
  = Z.of_nat (List.length (List.concat (map snd g))).
Proof.
  induction g as [|[k v] r IH]; [reflexivity|].
  cbn [Runner.total_descriptors fold_right map List.concat snd].
  fold (Runner.total_descriptors r). rewrite IH, length_app. lia.
Qed.

Lemma grouping_total (self : CSVReader) (cs : list ClipData) :
  Runner.total_descriptors (grouped_clips (snd (group_clips_by_url self (Some cs))))
  = Z.of_nat (List.length cs).
Proof.
  rewrite total_descriptors_concat, grouping_result. f_equal.
  apply Permutation_length.
  transitivity (List.concat (map snd (collect cs))).
  - rewrite map_map. simpl.
    induction (collect cs) as [|[k v] r IH]; simpl; [reflexivity|].
    apply Permutation_app; [apply sort_by_row_perm|exact IH].
  - apply (concat_fold cs []).
Qed.

Lemma grouping_count (self : CSVReader) (cs : list ClipData) :
  Z.of_nat (List.length (grouped_clips (snd (group_clips_by_url self (Some cs)))))
  = count_unique_urls cs.
Proof.
  unfold count_unique_urls. f_equal.
  rewrite <- first_seen_length, <- (length_map fst).
  rewrite grouping_result, keys_sort_entries.
  unfold collect.
  change (fun grouped clip => dict_append (youtube_url clip) clip grouped)
    with collect_step.
  rewrite fold_keys. simpl map. rewrite fold_first_seen. reflexivity.
Qed.

End Statistics.

Lemma statistics_agree_with_grouping_aux
        (self : CsvReader.CSVReader) (st : CsvStatistics.Statistics) :
  CsvStatistics.get_statistics self = Returned (CsvStatistics.Loaded st) ->
  CsvStatistics.unique_youtube_urls st
  = Z.of_nat (List.length (CsvReader.grouped_clips (snd (CsvReader.group_clips_by_url self None))))
  /\ 1 <= CsvStatistics.unique_youtube_urls st
       <= CsvStatistics.total_clips st
  /\ CsvStatistics.total_clips st
     = Z.of_nat (List.length (CsvReader.clips self))
  /\ 0 <= CsvStatistics.total_duration_seconds st.
Proof.
  unfold CsvStatistics.get_statistics.
  destruct (CsvReader.clips self) as [|c r] eqn:Ec; [discriminate|].
  cbv zeta.
  remember (Z.of_nat (List.length (c :: r))) as total eqn:Etotal.
  destruct (PyStr.format_02d _) as [h|]; [|discriminate].
  destruct (PyStr.format_02d _) as [m|]; [|discriminate].
  destruct (PyStr.format_02d _) as [x|]; [|discriminate].
  destruct (if 0 <? total then _ else _) as [avg|]; [|discriminate].
  intros [= <-]. cbn [CsvStatistics.unique_youtube_urls
                      CsvStatistics.total_clips
                      CsvStatistics.total_duration_seconds].
  change (CsvReader.grouped_clips (snd (CsvReader.group_clips_by_url self None)))
    with (CsvReader.grouped_clips (snd (CsvReader.group_clips_by_url self
                 (Some (CsvReader.clips self))))).
  rewrite grouping_count, Ec. unfold CsvStatistics.count_unique_urls.
  pose proof (nodup_length_le (map CsvReader.youtube_url (c :: r))) as Hle.
  pose proof (nodup_nonempty (map CsvReader.youtube_url (c :: r))
                             ltac:(discriminate)) as Hge.
  rewrite length_map in Hle.
  pose proof (total_duration_nonneg (c :: r) 0) as Hd.
  split; [reflexivity|]. split; [lia|]. split; [reflexivity|exact Hd].
Qed.

(** X10.  When [get_statistics] returns statistics, the number of unique
    URLs it counts with a set is the number of groups
    [group_clips_by_url] builds, it lies between 1 and the number of clips,
    and the total duration is never negative, clips that end before they
    start included. *)
Theorem statistics_agree_with_grouping
        (self : CsvReader.CSVReader) (st : CsvStatistics.Statistics) :
  CsvStatistics.get_statistics self = Returned (CsvStatistics.Loaded st) ->
  CsvStatistics.unique_youtube_urls st
  = Z.of_nat (List.length (CsvReader.grouped_clips (snd (CsvReader.group_clips_by_url self None))))
  /\ 1 <= CsvStatistics.unique_youtube_urls st
       <= CsvStatistics.total_clips st
  /\ CsvStatistics.total_clips st
     = Z.of_nat (List.length (CsvReader.clips self))
  /\ 0 <= CsvStatistics.total_duration_seconds st.
Proof. apply statistics_agree_with_grouping_aux. Qed.

Lemma statistics_agree_with_grouping_witness :
  let self := CsvReader.mkReader "clip_ranges.csv"
                [CsvReader.mkClip "00:00:20" "00:00:10" "https://youtu.be/a" 1;
                 CsvReader.mkClip "00:00:00" "00:00:05" "https://youtu.be/b" 2;
                 CsvReader.mkClip "00:01:00" "00:01:30" "https://youtu.be/a" 3]
                [] in
  exists st,
    CsvStatistics.get_statistics self = Returned (CsvStatistics.Loaded st)
    /\ CsvStatistics.unique_youtube_urls st = 2
    /\ CsvStatistics.total_duration_seconds st = 35.
Proof.
  intros self.
  destruct (CsvStatistics.get_statistics self) as [[|st]|] eqn:E;
    try (vm_compute in E; discriminate E).
  exists st. split; [reflexivity|].
  destruct (statistics_agree_with_grouping self st E) as (Hu & _).
  split; [rewrite Hu; reflexivity|].
  vm_compute in E. injection E as <-. reflexivity.
Defined.

Section RunnerTotals.
Import CsvReader Runner.
Context {World : Type} {site : Site World}.

Lemma keeps_totals_refl (st : Stats) : keeps_totals st st.
Proof. unfold keeps_totals. repeat split; lia. Qed.

Lemma keeps_totals_trans (a b c : Stats) :
  keeps_totals a b -> keeps_totals b c -> keeps_totals a c.
Proof. unfold keeps_totals. intuition lia. Qed.

Lemma create_clips_keeps_totals (cfg : Config) (cs : list ClipData) :
  forall (i : Z) (st : Stats) (wa : Automation World),
    keeps_totals st (fst (create_clips cfg i cs st wa))
    /\ current_url (snd (create_clips cfg i cs st wa)) = current_url wa.
Proof.
  induction cs as [|c r IH]; intros i st wa.
  - split; [apply keeps_totals_refl|reflexivity].
  - cbn [create_clips].
    destruct (create_clip (start_time c) (end_time c) (1 <? i) (session wa))
      as [[|] w].
    + destruct (IH (i + 1) (count_created st)
                   (pause (DELAY_BETWEEN_CLIPS cfg)
                      (pause 3000 (mkAutomation (current_url wa) w))))
        as [Hk Hu].
      split; [|exact Hu].
      apply (keeps_totals_trans _ (count_created st)); [|exact Hk].
      unfold keeps_totals. simpl. repeat split; lia.
    + destruct (IH (i + 1) (count_failed st)
                   (pause (DELAY_BETWEEN_CLIPS cfg)
                      (mkAutomation (current_url wa) w)))
        as [Hk Hu].
      split; [|exact Hu].
      apply (keeps_totals_trans _ (count_failed st)); [|exact Hk].
      unfold keeps_totals. simpl. repeat split; lia.
Qed.

Lemma process_groups_keeps_totals (cfg : Config) (groups : clip_dict) :
  forall (st : Stats) (wa : Automation World),
    keeps_totals st (fst (process_groups cfg groups st wa)).
Proof.
  induction groups as [|[url cs] rest IH]; intros st wa.
  - apply keeps_totals_refl.
  - cbn [process_groups].
    destruct (load_video cfg url wa) as [[|] wa1]; [|apply IH].
    destruct (create_clips_keeps_totals cfg cs 1 st wa1) as [Hk _].
    destruct (create_clips cfg 1 cs st wa1) as [st' wa2]. cbn [fst] in Hk.
    apply (keeps_totals_trans _ st'); [exact Hk|apply IH].
Qed.

End RunnerTotals.

Lemma read_and_validate_csv_facts
        {World : Type} (self self' : Runner.ClipScutterRunner World)
        (csv_path : string) (src : CsvReader.csv_source)
        (data : RunnerCsv.CsvData) :
  RunnerCsv.read_and_validate_csv self csv_path src = (Some data, self') ->
  RunnerCsv.data_clips data <> []
  /\ Runner.total_clips (Runner.stats self')
     = Z.of_nat (List.length (RunnerCsv.data_clips data))
  /\ Runner.total_clips (Runner.stats self')
     = Runner.total_descriptors (RunnerCsv.data_grouped_clips data)
  /\ Runner.unique_urls (Runner.stats self')
     = Z.of_nat (List.length (RunnerCsv.data_grouped_clips data))
  /\ Runner.unique_urls (Runner.stats self')
     = CsvStatistics.unique_youtube_urls (RunnerCsv.data_stats data)
  /\ 1 <= Runner.unique_urls (Runner.stats self')
       <= Runner.total_clips (Runner.stats self')
  /\ Runner.clips_created (Runner.stats self')
     = Runner.clips_created (Runner.stats self)
  /\ Runner.failed_clips (Runner.stats self')
     = Runner.failed_clips (Runner.stats self)
  /\ Runner.clips_downloaded (Runner.stats self')
     = Runner.clips_downloaded (Runner.stats self)
  /\ Runner.config self' = Runner.config self
  /\ Runner.web_automation self' = Runner.web_automation self
  /\ Runner.downloader self' = Runner.downloader self.
Proof.
  unfold RunnerCsv.read_and_validate_csv.
  destruct src as [|rows|rows]; try discriminate.
  destruct (CsvReader.read_csv (CsvReader.init csv_path) (CsvReader.Rows rows))
    as [[[cs|] bad] reader1] eqn:Er; try discriminate.
  assert (Hcs : CsvReader.clips reader1 = cs).
  { unfold CsvReader.read_csv in Er.
    destruct (CsvReader.read_rows 1 rows) as [cs0 bad0].
    injection Er as <- _ <-. reflexivity. }
  destruct cs as [|c r]; [discriminate|].
  remember (c :: r) as cs eqn:Ecs.
  pose proof (grouping_total reader1 cs) as Htot.
  pose proof (grouping_count reader1 cs) as Hcnt.
  pose proof (proj1 (grouping_outcome reader1 (Some cs))) as Hout.
  cbv zeta in Hout.
  destruct (CsvReader.group_clips_by_url reader1 (Some cs))
    as [[grouped|] reader2] eqn:Eg; [|discriminate].
  cbn [fst snd] in Htot, Hcnt, Hout.
  destruct Hout as [[= Hg]|Hout]; [|discriminate Hout].
  rewrite <- Hg in Htot, Hcnt.
  assert (Hr2 : CsvReader.clips reader2 = cs).
  { unfold CsvReader.group_clips_by_url in Eg.
    injection Eg as _ <-. exact Hcs. }
  destruct (CsvStatistics.get_statistics reader2) as [[|st]|] eqn:Es;
    try discriminate.
  intros [= <- <-].
  destruct (statistics_agree_with_grouping_aux reader2 st Es)
    as (Hu & Hrange & Htc & _).
  change (CsvReader.grouped_clips
            (snd (CsvReader.group_clips_by_url reader2 None)))
    with (CsvReader.grouped_clips
            (snd (CsvReader.group_clips_by_url
                    reader1 (Some (CsvReader.clips reader2))))) in Hu.
  rewrite Hr2, Eg in Hu. cbn [snd] in Hu. rewrite <- Hg in Hu.
  rewrite Hr2 in Htc.
  cbn [RunnerCsv.data_clips RunnerCsv.data_grouped_clips
       RunnerCsv.data_stats RunnerCsv.set_totals Runner.stats
       Runner.total_clips Runner.unique_urls Runner.web_automation
       Runner.downloader Runner.clips_created Runner.failed_clips
       Runner.clips_downloaded Runner.config].
  repeat split; try congruence; try lia; subst cs; discriminate.
Qed.

(** X11.  When [read_and_validate_csv] returns data, there is at least one
    clip, the runner's [total_clips] is the number of clips and also the
    number of descriptors in all groups, its [unique_urls] is the number of
    groups and the number of unique URLs of the statistics, and
    [clips_created], [failed_clips], [clips_downloaded], the configuration
    and the modules of the runner are as before. *)
Theorem read_and_validate_csv_sets_totals
        {World : Type} (self self' : Runner.ClipScutterRunner World)
        (csv_path : string) (src : CsvReader.csv_source)
        (data : RunnerCsv.CsvData) :
  RunnerCsv.read_and_validate_csv self csv_path src = (Some data, self') ->
  RunnerCsv.data_clips data <> []
  /\ Runner.total_clips (Runner.stats self')
     = Z.of_nat (List.length (RunnerCsv.data_clips data))
  /\ Runner.total_clips (Runner.stats self')
     = Runner.total_descriptors (RunnerCsv.data_grouped_clips data)
  /\ Runner.unique_urls (Runner.stats self')
     = Z.of_nat (List.length (RunnerCsv.data_grouped_clips data))
  /\ Runner.unique_urls (Runner.stats self')
     = CsvStatistics.unique_youtube_urls (RunnerCsv.data_stats data)
  /\ 1 <= Runner.unique_urls (Runner.stats self')
       <= Runner.total_clips (Runner.stats self')
  /\ Runner.clips_created (Runner.stats self')
     = Runner.clips_created (Runner.stats self)
  /\ Runner.failed_clips (Runner.stats self')
     = Runner.failed_clips (Runner.stats self)
  /\ Runner.clips_downloaded (Runner.stats self')
     = Runner.clips_downloaded (Runner.stats self)
  /\ Runner.config self' = Runner.config self
  /\ Runner.web_automation self' = Runner.web_automation self
  /\ Runner.downloader self' = Runner.downloader self.
Proof. apply read_and_validate_csv_facts. Qed.

Lemma read_and_validate_csv_sets_totals_witness :
  exists data self',
    RunnerCsv.read_and_validate_csv fresh_runner "clip_ranges.csv"
                                    (CsvReader.Rows three_rows)
    = (Some data, self')
    /\ Runner.total_clips (Runner.stats self') = 3
    /\ Runner.total_descriptors (RunnerCsv.data_grouped_clips data) = 3
    /\ Runner.unique_urls (Runner.stats self') = 2.
Proof.
  destruct (RunnerCsv.read_and_validate_csv fresh_runner "clip_ranges.csv"
                                            (CsvReader.Rows three_rows))
    as [[data|] self'] eqn:E; [|vm_compute in E; discriminate E].
  exists data, self'. split; [reflexivity|].
  destruct (read_and_validate_csv_sets_totals _ _ _ _ _ E)
    as (_ & Hn & Hd & Hu & _).
  rewrite <- Hd. vm_compute in E. injection E as <- <-.
  repeat split; reflexivity.
Defined.

(** X12.  [process_all_clips] leaves [total_clips], [clips_downloaded] and
    [unique_urls] as they are and never lowers [clips_created] or
    [failed_clips]; together the two never grow by more than the number of
    descriptors in the groups. *)
Theorem process_all_clips_only_counts_up
        {World : Type} {site : Runner.Site World}
        (self : Runner.ClipScutterRunner World)
        (groups : CsvReader.clip_dict) :
  let after := Runner.stats (snd (Runner.process_all_clips self groups)) in
  keeps_totals (Runner.stats self) after
  /\ Runner.attempted after
     <= Runner.attempted (Runner.stats self)
        + Runner.total_descriptors groups.
Proof.
  cbv zeta. unfold Runner.process_all_clips.
  assert (Hz : 0 <= Runner.total_descriptors groups).
  { rewrite total_descriptors_concat. lia. }
  destruct (Runner.web_automation self) as [wa|];
    [|split; [apply keeps_totals_refl|cbn [snd]; lia]].
  destruct (Runner.downloader self);
    [|split; [apply keeps_totals_refl|cbn [snd]; lia]].
  pose proof (process_groups_keeps_totals (Runner.config self) groups
                (Runner.stats self) wa) as Hk.
  destruct (process_groups_attempted (Runner.config self) groups
              (Runner.stats self) wa) as [Hle _].
  destruct (Runner.process_groups (Runner.config self) groups
              (Runner.stats self) wa) as [st wa'].
  split; [exact Hk|exact Hle].
Qed.

(** X13.  From reading the file to the end of [process_all_clips]: when
    [read_and_validate_csv] returns data, the modules are initialised and
    every URL can be submitted, the clips recorded as created or failed
    during the run are as many as [total_clips], so that the final summary
    adds up. *)
Theorem whole_file_is_attempted
        {World : Type} {site : Runner.Site World}
        (self self1 : Runner.ClipScutterRunner World)
        (wa : Runner.Automation World)
        (csv_path : string) (src : CsvReader.csv_source)
        (data : RunnerCsv.CsvData) :
  RunnerCsv.read_and_validate_csv self csv_path src = (Some data, self1) ->
  Runner.web_automation self = Some wa ->
  Runner.downloader self = true ->
  (forall url w, fst (Runner.submit_url url w) = true) ->
  let result :=
    Runner.process_all_clips self1 (RunnerCsv.data_grouped_clips data) in
  fst result = true
  /\ Runner.attempted (Runner.stats (snd result))
     = Runner.attempted (Runner.stats self)
       + Runner.total_clips (Runner.stats (snd result)).
Proof.
  intros Hread Hwa Hd Hok. cbv zeta.
  destruct (read_and_validate_csv_facts _ _ _ _ _ Hread)
    as (_ & _ & Htot & _ & _ & _ & Hcr & Hfl & _ & _ & Hwa1 & Hd1).
  assert (Hatt : Runner.attempted (Runner.stats self1)
                 = Runner.attempted (Runner.stats self))
    by (unfold Runner.attempted; rewrite Hcr, Hfl; reflexivity).
  rewrite Hwa in Hwa1. rewrite Hd in Hd1.
  destruct (process_all_clips_attempted self1 wa
              (RunnerCsv.data_grouped_clips data) Hwa1 Hd1 Hok)
    as [Hres Hcount].
  split; [exact Hres|]. rewrite Hcount, Hatt, <- Htot. f_equal.
  unfold Runner.process_all_clips. rewrite Hwa1, Hd1.
  pose proof (process_groups_keeps_totals (Runner.config self1)
                (RunnerCsv.data_grouped_clips data)
                (Runner.stats self1) wa) as Hk.
  destruct (Runner.process_groups _ _ _ _) as [st wa'].
  destruct Hk as (Hk & _). cbn [snd Runner.stats fst] in *. congruence.
Qed.

Lemma whole_file_is_attempted_witness :
  exists data self1,
    RunnerCsv.read_and_validate_csv fresh_runner "clip_ranges.csv"
                                    (CsvReader.Rows three_rows)
    = (Some data, self1)
    /\ let result :=
         Runner.process_all_clips (site := steady_site) self1
                                  (RunnerCsv.data_grouped_clips data) in
       Runner.attempted (Runner.stats (snd result))
       = Runner.attempted (Runner.stats fresh_runner)
         + Runner.total_clips (Runner.stats (snd result)).
Proof.
  destruct (RunnerCsv.read_and_validate_csv fresh_runner "clip_ranges.csv"
                                            (CsvReader.Rows three_rows))
    as [[data|] self1] eqn:E; [|vm_compute in E; discriminate E].
  exists data, self1. split; [reflexivity|].
  apply (whole_file_is_attempted (site := steady_site) fresh_runner self1
           (Runner.mkAutomation None tt) "clip_ranges.csv"
           (CsvReader.Rows three_rows) data E);
    [reflexivity|reflexivity|intros; reflexivity].
Defined.

(** X14.  When [process_all_clips] goes on to the clips of a group, the URL
    it holds as loaded is the URL of that group, and creating the clips
    does not change it; when the URL could not be submitted, no URL is held
    as loaded, so that the next group is loaded afresh. *)
Theorem clips_are_created_on_the_loaded_url
        {World : Type} {site : Runner.Site World}
        (cfg : Runner.Config) (youtube_url : string)
        (cs : list CsvReader.ClipData) (st : Runner.Stats)
        (wa : Runner.Automation World) :
  let loaded := Runner.load_video cfg youtube_url wa in
  (fst loaded = true ->
   Runner.current_url (snd loaded) = Some youtube_url
   /\ Runner.current_url
        (snd (Runner.create_clips cfg 1 cs st (snd loaded)))
      = Some youtube_url)
  /\ (fst loaded = false -> Runner.current_url (snd loaded) = None).
Proof.
  cbv zeta.
  assert (Hload :
    (fst (Runner.load_video cfg youtube_url wa) = true ->
     Runner.current_url (snd (Runner.load_video cfg youtube_url wa))
     = Some youtube_url)
    /\ (fst (Runner.load_video cfg youtube_url wa) = false ->
        Runner.current_url (snd (Runner.load_video cfg youtube_url wa))
        = None)).
  { unfold Runner.load_video, Runner.check_if_same_video_loaded.
    destruct (Runner.current_url wa) as [u|] eqn:Eu.
    - destruct (String.eqb_spec u youtube_url) as [->|Hne]; cbn [negb].
      + split; [intros _; exact Eu|discriminate].
      + unfold Runner.input_youtube_url, Runner.reset_for_new_video,
          Runner.pause.
        destruct (Runner.navigate_to_homepage (Runner.session wa))
          as [ok0 w0]. cbn [snd Runner.session Runner.current_url].
        destruct (Runner.submit_url youtube_url _) as [[|] w1]; cbn [negb].
        * destruct (Runner.set_quality_to_1080p _) as [q w2].
          split; [intros _; reflexivity|discriminate].
        * split; [discriminate|intros _; reflexivity].
    - cbn [negb]. unfold Runner.input_youtube_url, Runner.pause.
      destruct (Runner.submit_url youtube_url _) as [[|] w1]; cbn [negb].
      + destruct (Runner.set_quality_to_1080p _) as [q w2].
        split; [intros _; reflexivity|discriminate].
      + split; [discriminate|intros _; exact Eu]. }
  destruct Hload as [Hyes Hno]. split; [|exact Hno].
  intros Ht. split; [exact (Hyes Ht)|].
  rewrite (proj2 (create_clips_keeps_totals cfg cs 1 st _)).
  exact (Hyes Ht).
Qed.

Lemma clips_are_created_on_the_loaded_url_witness :
  Runner.current_url
    (snd (Runner.load_video (site := steady_site) Runner.default_config
            "https://youtu.be/b"
            (Runner.mkAutomation (Some "https://youtu.be/a") tt)))
  = Some "https://youtu.be/b".
Proof.
  apply (clips_are_created_on_the_loaded_url (site := steady_site)
           Runner.default_config "https://youtu.be/b" [] Runner.initial_stats
           (Runner.mkAutomation (Some "https://youtu.be/a") tt)).
  reflexivity.
Defined.

(** ** File names of the downloader *)

Section FileNames.
Import PyStr.

Lemma unique_from_free (fuel : nat) (path_exists : string -> bool)
      (title extension : string) (counter : Z) (filename : string) :
  path_exists filename = false ->
  Downloader.unique_from fuel path_exists title extension counter filename
  = Some (Returned filename).
Proof. intros H. destruct fuel; simpl; rewrite H; reflexivity. Qed.

Lemma unique_from_first_free (path_exists : string -> bool)
      (title extension : string) (k : Z) :
  0 <= k < 10 ^ max_str_digits ->
  (forall j, 0 <= j < k -> path_exists (candidate title extension j) = true) ->
  path_exists (candidate title extension k) = false ->
  forall (m fuel : nat) (j : Z),
    0 <= j -> k - j = Z.of_nat m -> (m <= fuel)%nat ->
    Downloader.unique_from fuel path_exists title extension (j + 1)
                           (candidate title extension j)
    = Some (Returned (candidate title extension k)).
Proof.
  intros Hk Htaken Hfree. induction m as [|m IH]; intros fuel j Hj Hm Hfuel.
  - assert (j = k) by lia. subst j. apply unique_from_free, Hfree.
  - destruct fuel as [|fuel]; [lia|]. cbn [Downloader.unique_from].
    rewrite (Htaken j) by lia. rewrite str_int_small by lia.
    replace ((title ++ "_" ++ decimal (j + 1)) ++ extension)
      with (candidate title extension (j + 1)).
    + apply IH; lia.
    + unfold candidate. destruct (Z.eqb_spec (j + 1) 0); [lia|reflexivity].
Qed.

Lemma replace_fold_empty (l : list ascii) :
  fold_left (fun name char => Downloader.replace_char char "_" name)
            l EmptyString = EmptyString.
Proof. induction l as [|old l IH]; simpl; [reflexivity|exact IH]. Qed.

Lemma replace_fold_cons (l : list ascii) :
  forall (c : ascii) (r : string),
    fold_left (fun name char => Downloader.replace_char char "_" name)
              l (String c r)
    = String (fold_left (fun x old => if Ascii.eqb x old then "_"%char else x)
                        l c)
             (fold_left (fun name char => Downloader.replace_char char "_" name)
                        l r).
Proof.
  induction l as [|old l IH]; intros c r; simpl; [reflexivity|].
  apply IH.
Qed.

Lemma clean_char_valid (c : ascii) : valid_char (clean_char c) = true.
Proof.
  destruct c as [[|] [|] [|] [|] [|] [|] [|] [|]]; vm_compute; reflexivity.
Qed.

Lemma clean_char_id (c : ascii) : valid_char c = true -> clean_char c = c.
Proof.
  destruct c as [[|] [|] [|] [|] [|] [|] [|] [|]]; vm_compute;
    intro H; try discriminate H; reflexivity.
Qed.

Lemma replaced_valid (s : string) :
  forallb_str valid_char
    (fold_left (fun name char => Downloader.replace_char char "_" name)
               Downloader.invalid_chars s) = true.
Proof.
  induction s as [|c r IH].
  - rewrite replace_fold_empty. reflexivity.
  - rewrite replace_fold_cons. cbn [forallb_str]. rewrite IH.
    fold (clean_char c). rewrite clean_char_valid. reflexivity.
Qed.

Lemma replaced_id (s : string) :
  forallb_str valid_char s = true ->
  fold_left (fun name char => Downloader.replace_char char "_" name)
            Downloader.invalid_chars s = s.
Proof.
  induction s as [|c r IH]; intros H.
  - apply replace_fold_empty.
  - cbn [forallb_str] in H. apply andb_true_iff in H as [Hc Hr].
    rewrite replace_fold_cons, (IH Hr). fold (clean_char c).
    rewrite (clean_char_id c Hc). reflexivity.
Qed.

Lemma substring_prefix_facts (p : ascii -> bool) (n : nat) :
  forall s : string,
    (String.length (String.substring 0 n s) <= n)%nat
    /\ (forallb_str p s = true ->
        forallb_str p (String.substring 0 n s) = true).
Proof.
  induction n as [|n IH]; intros [|c r]; simpl; try (split; [lia|auto]).
  destruct (IH r) as [Hl Hp]. split; [lia|].
  intros H. apply andb_true_iff in H as [Hc Hr].
  rewrite Hc, (Hp Hr). reflexivity.
Qed.

Lemma lstrip_by_facts (p q : ascii -> bool) (s : string) :
  (String.length (lstrip_by q s) <= String.length s)%nat
  /\ (forallb_str p s = true -> forallb_str p (lstrip_by q s) = true).
Proof.
  induction s as [|c r [Hl Hp]]; simpl; [split; [lia|auto]|].
  destruct (q c); [|split; [simpl; lia|auto]].
  split; [lia|]. intros H. apply andb_true_iff in H as [_ Hr].
  exact (Hp Hr).
Qed.

Lemma rstrip_by_facts (p q : ascii -> bool) (s : string) :
  (String.length (rstrip_by q s) <= String.length s)%nat
  /\ (forallb_str p s = true -> forallb_str p (rstrip_by q s) = true).
Proof.
  induction s as [|c r [Hl Hp]]; simpl; [split; [lia|auto]|].
  destruct (rstrip_by q r) as [|c' r'] eqn:E.
  - destruct (q c); simpl; (split; [lia|]); [auto|].
    intros H. apply andb_true_iff in H as [Hc _]. rewrite Hc. reflexivity.
  - split; [simpl in *; lia|].
    intros H. apply andb_true_iff in H as [Hc Hr].
    cbn [forallb_str]. rewrite Hc. exact (Hp Hr).
Qed.

Lemma rstrip_by_idem (q : ascii -> bool) (s : string) :
  rstrip_by q (rstrip_by q s) = rstrip_by q s.
Proof.
  induction s as [|c r IH]; simpl; [reflexivity|].
  destruct (rstrip_by q r) as [|c' r'] eqn:E.
  - destruct (q c) eqn:Ec; simpl; [reflexivity|]. rewrite Ec. reflexivity.
  - change (rstrip_by q (String c (String c' r')))
      with (match rstrip_by q (String c' r') with
            | EmptyString => if q c then EmptyString else String c EmptyString
            | String a b => String c (String a b)
            end).
    rewrite IH. reflexivity.
Qed.

Lemma lstrip_by_head (q : ascii -> bool) (s : string) :
  match lstrip_by q s with
  | EmptyString => True
  | String c _ => q c = false
  end.
Proof.
  induction s as [|c r IH]; simpl; [exact I|].
  destruct (q c) eqn:Ec; [exact IH|exact Ec].
Qed.

Lemma strip_by_idem (q : ascii -> bool) (s : string) :
  strip_by q (strip_by q s) = strip_by q s.
Proof.
  unfold strip_by. pose proof (lstrip_by_head q s) as Hh.
  destruct (lstrip_by q s) as [|c r]; [reflexivity|].
  assert (Hl : lstrip_by q (rstrip_by q (String c r))
               = rstrip_by q (String c r)).
  { simpl. destruct (rstrip_by q r); rewrite ?Hh; simpl; rewrite Hh;
      reflexivity. }
  rewrite Hl. apply rstrip_by_idem.
Qed.

Lemma clean_filename_portable (filename : string) :
  portable (Downloader.clean_filename filename).
Proof.
  unfold Downloader.clean_filename, portable, strip.
  set (replaced := fold_left _ Downloader.invalid_chars filename).
  pose proof (replaced_valid filename) as Hv. fold replaced in Hv.
  set (limited := if 200 <? Z.of_nat (String.length replaced)
                  then String.substring 0 200 replaced else replaced).
  assert (Hlim : forallb_str valid_char limited = true
                 /\ (String.length limited <= 200)%nat).
  { unfold limited.
    destruct (Z.ltb_spec 200 (Z.of_nat (String.length replaced))).
    - destruct (substring_prefix_facts valid_char 200 replaced) as [Hl Hp].
      split; [exact (Hp Hv)|exact Hl].
    - split; [exact Hv|lia]. }
  destruct Hlim as [Hlv Hll]. unfold strip_by.
  destruct (lstrip_by_facts valid_char isspace_char limited) as [Hl1 Hp1].
  destruct (rstrip_by_facts valid_char isspace_char
              (lstrip_by isspace_char limited)) as [Hl2 Hp2].
  split; [exact (Hp2 (Hp1 Hlv))|]. split; [lia|].
  apply (strip_by_idem isspace_char limited).
Qed.

Lemma portable_clean_filename (filename : string) :
  portable filename -> Downloader.clean_filename filename = filename.
Proof.
  intros (Hv & Hl & Hs). unfold Downloader.clean_filename.
  rewrite (replaced_id filename Hv).
  destruct (Z.ltb_spec 200 (Z.of_nat (String.length filename))); [lia|].
  exact Hs.
Qed.

End FileNames.

(** X15.  [download_clip_via_url] writes to the first free name: when the
    plain name and the names numbered 1 to [k - 1] exist and the name
    numbered [k] does not ([k = 0] is the plain name), the loop ends within
    [k] rounds with that name.  The bound on [k] keeps the counter below
    the digit limit of [str]. *)
Theorem unique_filename_is_first_free
        (path_exists : string -> bool) (title extension : string)
        (k : Z) (fuel : nat) :
  0 <= k < 10 ^ PyStr.max_str_digits ->
  (forall j, 0 <= j < k -> path_exists (candidate title extension j) = true) ->
  path_exists (candidate title extension k) = false ->
  (Z.to_nat k <= fuel)%nat ->
  Downloader.unique_filename fuel path_exists title extension
  = Some (Returned (candidate title extension k)).
Proof.
  intros Hk Htaken Hfree Hfuel. unfold Downloader.unique_filename.
  change (title ++ extension) with (candidate title extension 0).
  change 1 with (0 + 1).
  apply (unique_from_first_free path_exists title extension k Hk Htaken Hfree
           (Z.to_nat k) fuel 0); lia.
Qed.

Lemma unique_filename_is_first_free_witness :
  Downloader.unique_filename 5 taken_twice "clip_001" ".mp4"
  = Some (Returned "clip_001_2.mp4").
Proof.
  apply (unique_filename_is_first_free taken_twice "clip_001" ".mp4" 2 5).
  - split; [lia|]. vm_compute. reflexivity.
  - intros j Hj. assert (Hc : j = 0 \/ j = 1) by lia.
    destruct Hc as [-> | ->]; reflexivity.
  - reflexivity.
  - simpl. lia.
Defined.

(** X16.  Whatever the name, [clean_filename] returns a name that holds
    none of the nine replaced characters, has at most 200 characters and
    neither starts nor ends with white space. *)
Theorem clean_filename_is_portable (filename : string) :
  portable (Downloader.clean_filename filename).
Proof. apply clean_filename_portable. Qed.

(** X17.  [clean_filename] leaves a name as it is exactly when the name is
    already of that kind; so cleaning twice is cleaning once. *)
Theorem clean_filename_fixes_portable_names (filename : string) :
  (Downloader.clean_filename filename = filename <-> portable filename)
  /\ Downloader.clean_filename (Downloader.clean_filename filename)
     = Downloader.clean_filename filename.
Proof.
  split.
  - split.
    + intros H. rewrite <- H. apply clean_filename_portable.
    + apply portable_clean_filename.
  - apply portable_clean_filename, clean_filename_portable.
Qed.

(** ** The clips page *)

Section ClipsOnPage.
Import Downloader.
Local Open Scope list_scope.
Context {World : Type} {P : ClipsPage World}.

Lemma existsb_same_element (b : WebDriver.WebElement)
      (l : list WebDriver.WebElement) :
  existsb (same_element b) l = true
  <-> In (WebDriver.elem_id b) (map WebDriver.elem_id l).
Proof.
  rewrite existsb_exists, in_map_iff. unfold same_element.
  split; intros (x & H1 & H2).
  - exists x. apply Z.eqb_eq in H2. split; [symmetry; exact H2|exact H1].
  - exists x. split; [exact H2|]. apply Z.eqb_eq. symmetry. exact H1.
Qed.

(** The loop that removes duplicates, from any list of distinct
    elements on. *)
Lemma unique_loop_facts (l : list WebDriver.WebElement) :
  forall acc : list WebDriver.WebElement,
    NoDup (map WebDriver.elem_id acc) ->
    let r :=
      fold_left
        (fun unique button =>
           if existsb (same_element button) unique then unique
           else unique ++ [button]) l acc in
    NoDup (map WebDriver.elem_id r)
    /\ (forall b, In b acc \/ In b l ->
                  In (WebDriver.elem_id b) (map WebDriver.elem_id r))
    /\ (forall b, In b r -> In b acc \/ In b l)
    /\ (acc <> [] \/ l <> [] -> r <> []).
Proof.
  induction l as [|x l IH]; intros acc Hnd; cbn [fold_left].
  - split; [exact Hnd|]. split; [|split].
    + intros b [H|[]]. apply in_map, H.
    + intros b H. left. exact H.
    + intros [H|H]; [exact H|contradiction].
  - destruct (existsb (same_element x) acc) eqn:E.
    + destruct (IH acc Hnd) as (H1 & H2 & H3 & H4).
      split; [exact H1|]. split; [|split].
      * intros b [H|[<-|H]]; [apply H2; left; exact H| |apply H2; right; exact H].
        apply existsb_same_element in E.
        apply in_map_iff in E as (y & Hy & Hin).
        rewrite <- Hy. apply H2. left. exact Hin.
      * intros b H. destruct (H3 b H) as [Hb|Hb]; [left|right; right]; exact Hb.
      * intros _. apply H4. left. intros ->. discriminate E.
    + assert (Hnd' : NoDup (map WebDriver.elem_id (acc ++ [x]))).
      { rewrite map_app. cbn [map].
        apply NoDup_app_remove_l with (l := []). cbn [app].
        apply Permutation_NoDup
          with (l := WebDriver.elem_id x :: map WebDriver.elem_id acc).
        - apply Permutation_cons_append.
        - constructor; [|exact Hnd]. intros Hin.
          apply existsb_same_element in Hin. congruence. }
      destruct (IH (acc ++ [x]) Hnd') as (H1 & H2 & H3 & H4).
      split; [exact H1|]. split; [|split].
      * intros b [H|[<-|H]]; apply H2.
        -- left. apply in_or_app. left. exact H.
        -- left. apply in_or_app. right. left. reflexivity.
        -- right. exact H.
      * intros b H. destruct (H3 b H) as [Hb|Hb]; [|right; right; exact Hb].
        apply in_app_or in Hb as [Hb|[<-|[]]]; [left; exact Hb|].
        right. left. reflexivity.
      * intros _. apply H4. left. destruct acc; discriminate.
Qed.

Lemma menu_clips_facts (buttons : list WebDriver.WebElement) :
  forall i : Z,
    map index (menu_clips i buttons)
    = row_numbers i (List.length (menu_clips i buttons))
    /\ map button_id (menu_clips i buttons)
       = map (fun b => Some (WebDriver.elem_id b)) buttons
    /\ (forall c, In c (menu_clips i buttons) ->
          (exists b, In b buttons /\ download_button c = Some b)
          /\ download_url c = None
          /\ title c = ("Clip_" ++ PyStr.decimal (index c))%string
          /\ menu_type c = Some "material_ui_dropdown"%string).
Proof.
  induction buttons as [|b rest IH]; intros i; cbn [menu_clips].
  - split; [reflexivity|]. split; [reflexivity|]. intros c [].
  - destruct (IH (i + 1)) as (H1 & H2 & H3).
    split; [|split].
    + cbn [map index List.length]. rewrite row_numbers_cons, H1.
      reflexivity.
    + cbn [map]. rewrite H2. reflexivity.
    + intros c [<-|Hc].
      * cbn. split; [exists b; split; [left|]; reflexivity|]. repeat split.
      * destruct (H3 c Hc) as ((b' & Hb & He) & Hrest).
        split; [exists b'; split; [right; exact Hb|exact He]|exact Hrest].
Qed.

Lemma NoDup_map_Some (l : list Z) :
  NoDup l -> NoDup (map (@Some Z) l).
Proof.
  induction 1 as [|x l Hx Hnd IH]; cbn [map]; constructor; [|exact IH].
  intros Hin. apply in_map_iff in Hin as (y & [= ->] & Hy). exact (Hx Hy).
Qed.

Lemma button_clips_facts (w : World) :
  let found := fst (gather_buttons button_selectors [] w) in
  let clips := fst (find_all_clip_elements w) in
  found <> [] ->
  map index clips = row_numbers 1 (List.length clips)
  /\ NoDup (map button_id clips)
  /\ (forall b, In b found ->
                In (Some (WebDriver.elem_id b)) (map button_id clips))
  /\ (forall c, In c clips ->
        (exists b, In b found /\ download_button c = Some b)
        /\ download_url c = None
        /\ title c = ("Clip_" ++ PyStr.decimal (index c))%string
        /\ menu_type c = Some "material_ui_dropdown"%string).
Proof.
  unfold find_all_clip_elements.
  destruct (gather_buttons button_selectors [] w) as [found w1].
  cbn [fst]. intros Hne.
  destruct (unique_loop_facts found [] (NoDup_nil _)) as (U1 & U2 & U3 & U4).
  fold (unique_buttons found) in U1, U2, U3, U4.
  destruct (unique_buttons found) as [|u us] eqn:E.
  { exfalso. apply U4; [right; exact Hne|reflexivity]. }
  cbn [fst]. destruct (menu_clips_facts (u :: us) 1) as (M1 & M2 & M3).
  split; [exact M1|]. split; [|split].
  - rewrite M2, <- map_map. apply NoDup_map_Some, U1.
  - intros b Hb. rewrite M2, <- map_map. apply in_map, U2. right. exact Hb.
  - intros c Hc. destruct (M3 c Hc) as ((b & Hb & He) & Hrest).
    split; [|exact Hrest]. exists b. split; [|exact He].
    destruct (U3 b Hb) as [[]|Hin]. exact Hin.
Qed.

(** The loop over the selectors stops at a selector that carries the
    site's class name and finds something. *)
Lemma gather_buttons_primary (selector : string) (rest : list string)
      (w w1 : World) (b : WebDriver.WebElement)
      (bs : list WebDriver.WebElement) :
  PyStr.contains "cutterClipsListItem_downloadIcon" selector = true ->
  find_elements selector w = (Returned (b :: bs), w1) ->
  gather_buttons (selector :: rest) [] w = (b :: bs, w1).
Proof.
  intros Hm Hf. cbn [gather_buttons]. rewrite Hf, Hm. reflexivity.
Qed.

(** What one round of the download loop adds: the title goes to exactly
    one of the two lists, and the counter of that list goes up by one. *)
Lemma download_each_tally (clips : list ClipInfo) :
  forall (d f : Z) (self : ClipDownloader World),
    let '(d', f', self') := download_each clips d f self in
    exists ds fs,
      downloaded_clips self' = downloaded_clips self ++ ds
      /\ failed_downloads self' = failed_downloads self ++ fs
      /\ d' = d + Z.of_nat (List.length ds)
      /\ f' = f + Z.of_nat (List.length fs)
      /\ Permutation (ds ++ fs) (map title clips).
Proof.
  induction clips as [|c rest IH]; intros d f self; cbn [download_each].
  - exists [], []. rewrite !List.app_nil_r. cbn [List.length map app].
    repeat split; try lia. constructor.
  - destruct (download_one c (page self)) as [[|] w].
    + specialize (IH (d + 1) f
                     (mkDownloader (downloaded_clips self ++ [title c])
                                   (failed_downloads self) (sleep 3000 w))).
      destruct (download_each rest _ _ _) as [[d' f'] self'].
      destruct IH as (ds & fs & H1 & H2 & H3 & H4 & H5).
      cbn [downloaded_clips failed_downloads] in H1, H2.
      exists (title c :: ds), fs. rewrite H1, H2, <- List.app_assoc.
      repeat split; cbn [List.length]; try lia.
      cbn [map app]. constructor. exact H5.
    + specialize (IH d (f + 1)
                     (mkDownloader (downloaded_clips self)
                                   (failed_downloads self ++ [title c])
                                   (sleep 3000 w))).
      destruct (download_each rest _ _ _) as [[d' f'] self'].
      destruct IH as (ds & fs & H1 & H2 & H3 & H4 & H5).
      cbn [downloaded_clips failed_downloads] in H1, H2.
      exists ds, (title c :: fs). rewrite H1, H2, <- List.app_assoc.
      repeat split; cbn [List.length]; try lia.
      cbn [map]. apply Permutation_sym, Permutation_cons_app,
                   Permutation_sym, H5.
Qed.

(** The summary of [download_all_clips] and the downloader after it. *)
Lemma download_all_clips_facts (self self' : ClipDownloader World)
      (total downloaded failed : Z) (dl fl : list string) :
  download_all_clips self = (Summary total downloaded failed dl fl, self') ->
  exists ds fs,
    dl = downloaded_clips self ++ ds
    /\ fl = failed_downloads self ++ fs
    /\ downloaded_clips self' = dl
    /\ failed_downloads self' = fl
    /\ downloaded = Z.of_nat (List.length ds)
    /\ failed = Z.of_nat (List.length fs)
    /\ total = Z.of_nat (List.length (clips_found self))
    /\ Permutation (ds ++ fs) (map title (clips_found self)).
Proof.
  unfold download_all_clips, clips_found.
  destruct (navigate_to_clips_page (page self)) as [[|] w];
    cbn [negb snd]; [|discriminate].
  destruct (find_all_clip_elements w) as [[|c rest] w1]; [discriminate|].
  cbn [fst].
  pose proof (download_each_tally (c :: rest) 0 0
                (mkDownloader (downloaded_clips self)
                              (failed_downloads self) w1)) as Ht.
  destruct (download_each (c :: rest) 0 0 _) as [[d' f'] self2].
  destruct Ht as (ds & fs & H1 & H2 & H3 & H4 & H5).
  cbn [downloaded_clips failed_downloads] in H1, H2.
  intros [= <- <- <- <- <- <-]. exists ds, fs.
  cbn [downloaded_clips failed_downloads].
  repeat split; try assumption; lia.
Qed.

(** Without clips on the page the downloader's lists stay as they are. *)
Lemma download_all_clips_nothing (self self' : ClipDownloader World) :
  download_all_clips self = (NothingToDownload, self') ->
  downloaded_clips self' = downloaded_clips self.
Proof.
  unfold download_all_clips.
  destruct (navigate_to_clips_page (page self)) as [[|] w];
    cbn [negb]; [|discriminate].
  destruct (find_all_clip_elements w) as [[|c rest] w1].
  - intros [= <-]. reflexivity.
  - destruct (download_each (c :: rest) 0 0 _) as [[d' f'] self2].
    discriminate.
Qed.

End ClipsOnPage.

(** X18.  When any of the button selectors finds a button,
    [find_all_clip_elements] returns one clip for each distinct button:
    the clips are numbered 1, 2, ... in list order, no two of them share a
    button, every button found is the button of a clip, and each clip has
    the title [Clip_] followed by its number, a button among those found
    and no download URL. *)
Theorem button_clips_are_distinct_and_numbered
        {World : Type} {P : Downloader.ClipsPage World} (w : World) :
  let found :=
    fst (Downloader.gather_buttons Downloader.button_selectors [] w) in
  let clips := fst (Downloader.find_all_clip_elements w) in
  found <> [] ->
  map Downloader.index clips = row_numbers 1 (List.length clips)
  /\ NoDup (map button_id clips)
  /\ (forall b, In b found ->
                In (Some (WebDriver.elem_id b)) (map button_id clips))
  /\ (forall c, In c clips ->
        (exists b, In b found /\ Downloader.download_button c = Some b)
        /\ Downloader.download_url c = None
        /\ Downloader.title c = "Clip_" ++ PyStr.decimal (Downloader.index c)
        /\ Downloader.menu_type c = Some "material_ui_dropdown").
Proof. apply button_clips_facts. Qed.

Lemma button_clips_are_distinct_and_numbered_witness :
  let clips :=
    fst (Downloader.find_all_clip_elements (P := three_buttons_page) tt) in
  map Downloader.index clips = row_numbers 1 (List.length clips)
  /\ NoDup (map button_id clips).
Proof.
  pose proof (button_clips_are_distinct_and_numbered
                (P := three_buttons_page) tt) as H.
  cbv zeta in H.
  assert (Hfound : fst (Downloader.gather_buttons
                          (P := three_buttons_page)
                          Downloader.button_selectors [] tt) <> []).
  { vm_compute. discriminate. }
  destruct (H Hfound) as (H1 & H2 & _). split; assumption.
Defined.

(** X19.  When the site's own selector, the first of the list, finds
    buttons, no other selector is looked up: the clips are those of its
    buttons, and the page is left as that one lookup left it. *)
Theorem site_buttons_take_precedence
        {World : Type} {P : Downloader.ClipsPage World} (w w1 : World)
        (b : WebDriver.WebElement) (bs : list WebDriver.WebElement) :
  Downloader.find_elements
    "//button[contains(@class, 'cutterClipsListItem_downloadIcon__gik8o')]" w
  = (Returned (b :: bs), w1) ->
  Downloader.find_all_clip_elements w
  = (Downloader.menu_clips 1 (Downloader.unique_buttons (b :: bs)), w1).
Proof.
  intros H. unfold Downloader.find_all_clip_elements.
  unfold Downloader.button_selectors.
  assert (Hm : PyStr.contains
                 "cutterClipsListItem_downloadIcon"
                 "//button[contains(@class, 'cutterClipsListItem_downloadIcon__gik8o')]"
               = true) by (vm_compute; reflexivity).
  rewrite (gather_buttons_primary _ _ w w1 b bs Hm H).
  destruct (unique_loop_facts (b :: bs) [] (NoDup_nil _)) as (_ & _ & _ & U4).
  fold (Downloader.unique_buttons (b :: bs)) in U4.
  destruct (Downloader.unique_buttons (b :: bs)) as [|u us];
    [|reflexivity].
  exfalso. apply U4; [right; discriminate|reflexivity].
Qed.

Lemma site_buttons_take_precedence_witness :
  Downloader.find_all_clip_elements (P := three_buttons_page) tt
  = (Downloader.menu_clips 1
       (Downloader.unique_buttons
          [WebDriver.mkElement 11 true; WebDriver.mkElement 12 true;
           WebDriver.mkElement 11 true; WebDriver.mkElement 13 true]), tt).
Proof.
  apply (site_buttons_take_precedence (P := three_buttons_page) tt tt).
  vm_compute. reflexivity.
Defined.

(** X20.  When [download_all_clips] returns a summary, every clip found
    on the page is in it exactly once: the titles added to the downloaded
    list and to the failed list are together a rearrangement of the titles
    of the clips found, the two counts are the numbers of titles added, and
    they add up to the total.  The lists of the summary are the
    downloader's own lists, so they start with what earlier calls left
    there. *)
Theorem download_all_clips_counts_every_clip_once
        {World : Type} {P : Downloader.ClipsPage World}
        (self self' : Downloader.ClipDownloader World)
        (total downloaded failed : Z) (dl fl : list string) :
  Downloader.download_all_clips self
  = (Downloader.Summary total downloaded failed dl fl, self') ->
  exists ds fs,
    dl = (Downloader.downloaded_clips self ++ ds)%list
    /\ fl = (Downloader.failed_downloads self ++ fs)%list
    /\ Downloader.downloaded_clips self' = dl
    /\ Downloader.failed_downloads self' = fl
    /\ downloaded = Z.of_nat (List.length ds)
    /\ failed = Z.of_nat (List.length fs)
    /\ downloaded + failed = total
    /\ total = Z.of_nat (List.length (clips_found self))
    /\ Permutation (ds ++ fs)%list
                   (map Downloader.title (clips_found self)).
Proof.
  intros H.
  destruct (download_all_clips_facts _ _ _ _ _ _ _ H)
    as (ds & fs & H1 & H2 & H3 & H4 & H5 & H6 & H7 & H8).
  exists ds, fs. repeat split; try assumption.
  pose proof (Permutation_length H8) as Hlen.
  rewrite List.length_app, List.length_map in Hlen. lia.
Qed.

Lemma download_all_clips_counts_every_clip_once_witness :
  exists ds fs,
    ["Clip_1"; "Clip_1"; "Clip_3"] = (["Clip_1"] ++ ds)%list
    /\ ["Clip_2"] = ([] ++ fs)%list
    /\ 2 = Z.of_nat (List.length ds)
    /\ 1 = Z.of_nat (List.length fs).
Proof.
  assert (E : Downloader.download_all_clips (P := three_buttons_page)
                used_downloader
              = (Downloader.Summary 3 2 1 ["Clip_1"; "Clip_1"; "Clip_3"]
                                    ["Clip_2"],
                 Downloader.mkDownloader ["Clip_1"; "Clip_1"; "Clip_3"]
                                         ["Clip_2"] tt)).
  { vm_compute. reflexivity. }
  destruct (download_all_clips_counts_every_clip_once _ _ _ _ _ _ _ E)
    as (ds & fs & H1 & H2 & _ & _ & H5 & H6 & _).
  exists ds, fs. repeat split; assumption.
Defined.

(** X21.  The runner's [download_all_clips], when it is not skipped and
    reports success, sets [clips_downloaded] to the number of titles this
    call added to the downloader's list, which is at most the number of
    clips on the page, and leaves the other four counters as they were. *)
Theorem runner_records_the_downloads_of_this_call
        {World : Type} {P : Downloader.ClipsPage World}
        (st st' : Runner.Stats)
        (d d' : Downloader.ClipDownloader World) :
  RunnerDownload.download_all_clips false st (Some d) = (true, st', Some d') ->
  Z.of_nat (List.length (Downloader.downloaded_clips d'))
  = Z.of_nat (List.length (Downloader.downloaded_clips d))
    + Runner.clips_downloaded st'
  /\ 0 <= Runner.clips_downloaded st'
     <= Z.of_nat (List.length (clips_found d))
  /\ Runner.total_clips st' = Runner.total_clips st
  /\ Runner.clips_created st' = Runner.clips_created st
  /\ Runner.failed_clips st' = Runner.failed_clips st
  /\ Runner.unique_urls st' = Runner.unique_urls st.
Proof.
  unfold RunnerDownload.download_all_clips.
  destruct (Downloader.download_all_clips d)
    as [[| |total downloaded failed dl fl] after] eqn:E;
    [discriminate| |]; intros [= <- <-]; unfold RunnerDownload.set_downloaded;
    cbn [Runner.clips_downloaded Runner.total_clips Runner.clips_created
         Runner.failed_clips Runner.unique_urls].
  - rewrite (download_all_clips_nothing _ _ E). repeat split; lia.
  - destruct (download_all_clips_facts _ _ _ _ _ _ _ E)
      as (ds & fs & H1 & H2 & H3 & H4 & H5 & H6 & H7 & H8).
    rewrite H3, H1, List.length_app.
    pose proof (Permutation_length H8) as Hlen.
    rewrite List.length_app, List.length_map in Hlen.
    repeat split; lia.
Qed.

Lemma runner_records_the_downloads_of_this_call_witness :
  Z.of_nat (List.length ["Clip_1"; "Clip_1"; "Clip_3"])
  = Z.of_nat (List.length (Downloader.downloaded_clips used_downloader))
    + Runner.clips_downloaded (Runner.mkStats 3 3 2 0 2).
Proof.
  assert (E : RunnerDownload.download_all_clips
                (P := three_buttons_page) false
                (Runner.mkStats 3 3 7 0 2) (Some used_downloader)
              = (true, Runner.mkStats 3 3 2 0 2,
                 Some (Downloader.mkDownloader
                         ["Clip_1"; "Clip_1"; "Clip_3"] ["Clip_2"] tt))).
  { vm_compute. reflexivity. }
  apply (runner_records_the_downloads_of_this_call _ _ _ _ E).
Defined.

(** ** The reader and the grouping of [main.py] *)

Section FirstReader.
Local Open Scope list_scope.

Lemma read_rows_filter (rows : list (list string)) :
  forall first : Z,
    map without_row (fst (CsvReader.read_rows first rows))
    = filter passes_checks (Main.read_rows rows).
Proof.
  induction rows as [|row rest IH]; intros first; [reflexivity|].
  cbn [CsvReader.read_rows Main.read_rows]. specialize (IH (first + 1)).
  destruct (CsvReader.read_rows (first + 1) rest) as [cs bad].
  cbn [fst] in IH. unfold CsvReader.check_row.
  destruct row as [|c0 [|c1 [|c2 more]]]; try exact IH.
  cbn [filter]. unfold passes_checks at 1.
  cbn [Main.start_time Main.end_time Main.youtube_url].
  destruct (CsvReader.validate_time_format (PyStr.strip c0));
    cbn [negb andb]; [|exact IH].
  destruct (CsvReader.validate_time_format (PyStr.strip c1));
    cbn [negb andb]; [|exact IH].
  destruct (CsvReader.validate_youtube_url (PyStr.strip c2));
    cbn [negb andb]; [|exact IH].
  cbn [fst map]. rewrite IH. reflexivity.
Qed.

Lemma first_seen_snoc (l : list string) (u : string) :
  first_seen (l ++ [u])
  = if in_dec string_dec u (first_seen l) then first_seen l
    else first_seen l ++ [u].
Proof.
  rewrite <- !fold_first_seen, fold_left_app. reflexivity.
Qed.

Lemma first_seen_NoDup (l : list string) : NoDup (first_seen l).
Proof. unfold first_seen. apply NoDup_rev, NoDup_nodup. Qed.

Lemma first_seen_In (l : list string) (u : string) :
  In u (first_seen l) <-> In u l.
Proof.
  unfold first_seen. rewrite <- in_rev, nodup_In, <- in_rev. reflexivity.
Qed.

(** Appending to the list of a key of a dictionary given by its keys. *)
Lemma add_clip_map (c : Main.ClipData)
      (f : string -> list Main.ClipData) (keys : list string) :
  NoDup keys ->
  Main.add_clip c (map (fun u => (u, f u)) keys)
  = if in_dec string_dec (Main.youtube_url c) keys
    then map (fun u => (u, if String.eqb u (Main.youtube_url c)
                           then f u ++ [c] else f u)) keys
    else map (fun u => (u, f u)) keys ++ [(Main.youtube_url c, [c])].
Proof.
  induction keys as [|k r IH]; intros Hnd; [reflexivity|].
  inversion Hnd as [|? ? Hk Hr]; subst. cbn [map Main.add_clip].
  destruct (String.eqb_spec k (Main.youtube_url c)) as [->|Hne].
  - destruct (in_dec string_dec (Main.youtube_url c)
                     (Main.youtube_url c :: r)) as [_|Hout];
      [|exfalso; apply Hout; left; reflexivity].
    cbn [map]. f_equal.
    apply map_ext_in. intros u Hu.
    destruct (String.eqb_spec u (Main.youtube_url c)) as [->|_];
      [contradiction|reflexivity].
  - rewrite (IH Hr).
    destruct (in_dec string_dec (Main.youtube_url c) r) as [Hin|Hout];
      destruct (in_dec string_dec (Main.youtube_url c) (k :: r))
        as [Hin'|Hout'].
    + cbn [map]. destruct (String.eqb_spec k (Main.youtube_url c));
        [contradiction|reflexivity].
    + exfalso. apply Hout'. right. exact Hin.
    + exfalso. destruct Hin' as [Heq|Hin']; [exact (Hne Heq)|exact (Hout Hin')].
    + reflexivity.
Qed.

Lemma clips_of_snoc (u : string) (cs : list Main.ClipData)
      (c : Main.ClipData) :
  clips_of u (cs ++ [c])
  = clips_of u cs ++ (if String.eqb (Main.youtube_url c) u then [c] else []).
Proof. unfold clips_of. rewrite filter_app. reflexivity. Qed.

Lemma clips_of_absent (u : string) (cs : list Main.ClipData) :
  ~ In u (map Main.youtube_url cs) -> clips_of u cs = [].
Proof.
  induction cs as [|c r IH]; intros H; [reflexivity|].
  unfold clips_of. cbn [filter].
  destruct (String.eqb_spec (Main.youtube_url c) u) as [Heq|_].
  - exfalso. apply H. left. exact Heq.
  - apply IH. intros Hin. apply H. right. exact Hin.
Qed.

Lemma main_grouping (cs : list Main.ClipData) :
  Main.group_clips_by_url cs
  = map (fun u => (u, clips_of u cs)) (first_seen (map Main.youtube_url cs)).
Proof.
  unfold Main.group_clips_by_url.
  induction cs as [|c r IH] using rev_ind; [reflexivity|].
  rewrite fold_left_app, IH. cbn [fold_left].
  rewrite map_app. cbn [map]. rewrite first_seen_snoc.
  rewrite (add_clip_map c (fun u => clips_of u r) _ (first_seen_NoDup _)).
  destruct (in_dec string_dec (Main.youtube_url c)
                   (first_seen (map Main.youtube_url r))) as [Hin|Hout].
  - apply map_ext. intros u. rewrite clips_of_snoc.
    rewrite (String.eqb_sym u).
    destruct (String.eqb (Main.youtube_url c) u);
      [reflexivity|rewrite List.app_nil_r; reflexivity].
  - rewrite map_app. cbn [map]. f_equal.
    + apply map_ext_in. intros u Hu. rewrite clips_of_snoc.
      destruct (String.eqb_spec (Main.youtube_url c) u) as [<-|_];
        [contradiction|rewrite List.app_nil_r; reflexivity].
    + rewrite clips_of_snoc, String.eqb_refl, clips_of_absent;
        [reflexivity|].
      intros H. apply Hout, first_seen_In, H.
Qed.

End FirstReader.

(** X22.  On the same rows, that is when [csv.reader] delivers the same
    rows to both, the reader of [csv_reader.py] returns, in the same order
    and with the same three fields, exactly those clips of the reader of
    [main.py] that pass the two time checks and the URL check. *)
Theorem validated_reader_filters_first_reader
        (self : CsvReader.CSVReader) (rows : list (list string)) :
  match fst (fst (CsvReader.read_csv self (CsvReader.Rows rows))),
        Main.read_csv_file (CsvReader.Rows rows) with
  | Returned cs, Returned ms => map without_row cs = filter passes_checks ms
  | _, _ => False
  end.
Proof.
  cbn [CsvReader.read_csv Main.read_csv_file].
  pose proof (read_rows_filter rows 1) as H.
  destruct (CsvReader.read_rows 1 rows) as [cs bad]. exact H.
Qed.

(** X23.  [group_clips_by_url] of [main.py] has one entry for each URL,
    in the order in which the URLs first occur, and the entry of a URL holds
    all the clips of that URL in their order in the list. *)
Theorem first_grouping_keeps_list_order (cs : list Main.ClipData) :
  Main.group_clips_by_url cs
  = map (fun u => (u, clips_of u cs)) (first_seen (map Main.youtube_url cs)).
Proof. apply main_grouping. Qed.

(** ** The journal of the actuator *)

Section Clicks.
Import WebDriver WebAutomation.
Local Open Scope list_scope.
Context {World : Type} {D : Driver World}.

Lemma logged_perform (a : action) (e : WebElement) (w : World)
      (l : list event) :
  perform (Driver := logged D) a e (w, l)
  = (fst (perform a e w),
     (snd (perform a e w), l ++ [EvPerform a e (fst (perform a e w))])).
Proof. simpl. destruct (perform a e w); reflexivity. Qed.

Lemma logged_sleep (ms : Z) (w : World) (l : list event) :
  sleep (Driver := logged D) ms (w, l) = (sleep ms w, l ++ [EvSleep ms]).
Proof. reflexivity. Qed.

Lemma undelivered_app (a b : list event) :
  undelivered a -> undelivered b -> undelivered (a ++ b).
Proof.
  unfold undelivered. intros Ha Hb. rewrite forallb_app, Ha, Hb. reflexivity.
Qed.

Lemma ends_with_delivery_app (a b : list event) :
  undelivered a -> ends_with_delivery b -> ends_with_delivery (a ++ b).
Proof.
  intros Ha (before & last & -> & Hl & Hb).
  exists (a ++ before), last. rewrite List.app_assoc.
  split; [reflexivity|]. split; [exact Hl|apply undelivered_app; assumption].
Qed.

Ltac journal_step a :=
  rewrite (logged_perform a); cbn [fst snd];
  let r := fresh "r" in
  let w := fresh "w" in
  match goal with
  | |- context [perform a ?e ?w0] => destruct (perform a e w0) as [r w]
  end;
  cbn [fst snd]; destruct r.

Ltac journal_done :=
  left; split; [reflexivity|]; eexists; split;
  [rewrite <- !List.app_assoc; cbn [app]; reflexivity|];
  split;
  [match goal with
   | |- ends_with_delivery ?l =>
       exists (removelast l), (List.last l (EvSleep 0)); cbn;
       repeat split
   end
  |cbn; lia].

Ltac journal_retry :=
  right; do 2 eexists; split; [|split]; cycle 2;
  [rewrite ?logged_sleep, <- !List.app_assoc; cbn [app]; reflexivity
  |reflexivity|cbn; lia].

(** One round of the loop: it ends the call with a click that went
    through, or it hands over to the next round with no click delivered;
    either way with at most one native click. *)
Lemma click_attempt_journal (k : nat) (e : WebElement) (w : World)
      (l0 : list event) :
  (fst (click_attempts (D := logged D) (S k) e (w, l0)) = true
   /\ exists att,
        snd (snd (click_attempts (D := logged D) (S k) e (w, l0)))
        = l0 ++ att
        /\ ends_with_delivery att
        /\ (List.length (filter native_click att) <= 1)%nat)
  \/ (exists att w2,
        undelivered att
        /\ (List.length (filter native_click att) <= 1)%nat
        /\ click_attempts (D := logged D) (S k) e (w, l0)
           = click_attempts (D := logged D) k e (w2, l0 ++ att)).
Proof.
  cbn [click_attempts]. unfold click_directly.
  journal_step ScrollIntoView.
  - rewrite logged_sleep.
    journal_step WaitClickable.
    + journal_step NativeClick.
      * journal_done.
      * journal_step JsClick; [journal_done|journal_retry ..].
      * journal_step FocusClick; [journal_done| |];
        (journal_step DispatchClick; [journal_done|journal_retry ..]).
    + journal_step JsClick; [journal_done|journal_retry ..].
    + journal_step FocusClick; [journal_done| |];
        (journal_step DispatchClick; [journal_done|journal_retry ..]).
  - journal_step JsClick; [journal_done|journal_retry ..].
  - journal_step FocusClick; [journal_done| |];
        (journal_step DispatchClick; [journal_done|journal_retry ..]).
Qed.

(** The journal of the whole loop. *)
Lemma click_attempts_journal (e : WebElement) (n : nat) :
  forall (w : World) (l0 : list event),
    exists l,
      snd (snd (click_attempts (D := logged D) n e (w, l0))) = l0 ++ l
      /\ (if fst (click_attempts (D := logged D) n e (w, l0))
          then ends_with_delivery l else undelivered l)
      /\ (List.length (filter native_click l) <= n)%nat.
Proof.
  induction n as [|k IH]; intros w l0.
  - exists []. cbn [click_attempts fst snd]. rewrite List.app_nil_r.
    split; [reflexivity|]. split; [reflexivity|]. cbn. lia.
  - destruct (click_attempt_journal k e w l0)
      as [(Ht & att & Hl & Hd & Hn) | (att & w2 & Hu & Hn & Heq)].
    + exists att. rewrite Ht. split; [exact Hl|]. split; [exact Hd|lia].
    + rewrite Heq. destruct (IH w2 (l0 ++ att)) as (l & Hl & Hr & Hc).
      exists (att ++ l). rewrite Hl, List.app_assoc.
      split; [reflexivity|]. split.
      * destruct (fst (click_attempts (D := logged D) k e (w2, l0 ++ att)));
          [apply ends_with_delivery_app|apply undelivered_app]; assumption.
      * rewrite filter_app, List.length_app. lia.
Qed.

End Clicks.

(** X24.  The answer of [safe_click] tells what happened on the page.
    When it returns [True], the last thing it did was a click that went
    through, and no click before it did.  When it returns [False], no click
    went through.  Either way it tried at most [max_attempts] native
    clicks. *)
Theorem safe_click_reports_delivery
        {World : Type} {D : WebDriver.Driver World}
        (element : WebDriver.WebElement) (max_attempts : Z)
        (w w' : World) (log : list WebDriver.event) (result : bool) :
  WebAutomation.safe_click (D := WebDriver.logged D)
                           element max_attempts (w, [])
  = (result, (w', log)) ->
  (if result then ends_with_delivery log else undelivered log)
  /\ (List.length (filter native_click log) <= Z.to_nat max_attempts)%nat.
Proof.
  unfold WebAutomation.safe_click. intros H.
  destruct (click_attempts_journal element (Z.to_nat max_attempts) w [])
    as (l & Hl & Hr & Hc).
  rewrite H in Hl, Hr. cbn [fst snd app] in Hl, Hr. subst l.
  split; assumption.
Qed.

Lemma safe_click_reports_delivery_witness :
  ends_with_delivery
    [WebDriver.EvPerform WebDriver.ScrollIntoView hidden_button WebDriver.Done;
     WebDriver.EvSleep 100;
     WebDriver.EvPerform WebDriver.WaitClickable hidden_button WebDriver.Done;
     WebDriver.EvPerform WebDriver.NativeClick hidden_button
                         WebDriver.ClickIntercepted;
     WebDriver.EvPerform WebDriver.JsClick hidden_button WebDriver.Done].
Proof.
  apply (safe_click_reports_delivery
           (D := overlay_page) hidden_button 3 O 1%nat _ true eq_refl).
Defined.

(** ** The clips found on the page *)

Section FoundClips.
Import Downloader.
Local Open Scope list_scope.
Context {World : Type} {P : ClipsPage World}.

Lemma filter_str_all (p : ascii -> bool) (s : string) :
  PyStr.forallb_str p (filter_str p s) = true.
Proof.
  induction s as [|c r IH]; simpl; [reflexivity|].
  destruct (p c) eqn:E; [|exact IH]. simpl. rewrite E, IH. reflexivity.
Qed.

Lemma find_title_facts (element : WebDriver.WebElement) (title0 : string)
      (selectors : list string) :
  forall w : World,
    let t := fst (find_title selectors element title0 w) in
    t = title0
    \/ (t <> EmptyString /\ (String.length t <= 50)%nat
        /\ PyStr.forallb_str title_char t = true).
Proof.
  induction selectors as [|sel rest IH]; intros w; cbn [find_title].
  - left. reflexivity.
  - destruct (find_within element sel w) as [[title_element|] w1];
      [|apply IH].
    destruct (element_text title_element w1) as [[t|] w2]; [|apply IH].
    destruct (nonempty (PyStr.strip t)); [|apply IH].
    set (clean := PyStr.strip (filter_str title_char (PyStr.strip t))).
    assert (Hc : PyStr.forallb_str title_char clean = true).
    { unfold clean, PyStr.strip, PyStr.strip_by.
      apply rstrip_by_facts, lstrip_by_facts, filter_str_all. }
    destruct clean as [|c r] eqn:E; cbn [nonempty fst].
    + left. reflexivity.
    + right. destruct (substring_prefix_facts title_char 50 (String c r))
        as [Hl Hp].
      split; [discriminate|]. split; [exact Hl|exact (Hp Hc)].
Qed.

Lemma find_download_facts (element : WebDriver.WebElement)
      (url0 : option string) (selectors : list string) :
  forall w : World,
    let r := find_download selectors element url0 w in
    (fst (fst r) = None -> snd (fst r) = url0)
    /\ (snd (fst r) = url0 \/ truthy (snd (fst r)) = true).
Proof.
  induction selectors as [|sel rest IH]; intros w; cbn [find_download].
  - split; [reflexivity|left; reflexivity].
  - destruct (find_within element sel w) as [[download_element|] w1];
      [|apply IH].
    destruct (tag_name download_element w1) as [[name|] w2]; [|apply IH].
    destruct (String.eqb name "a").
    + destruct (get_href download_element w2) as [[href|] w3]; [|apply IH].
      cbn [fst snd]. split; [discriminate|].
      destruct (truthy href) eqn:E; [right; exact E|left; reflexivity].
    + cbn [fst snd]. split; [discriminate|left; reflexivity].
Qed.

Lemma extract_clip_info_facts (element : WebDriver.WebElement) (i : Z)
      (w : World) (c : ClipInfo) :
  fst (extract_clip_info element i w) = Some c ->
  index c = i
  /\ download_button c <> None
  /\ menu_type c = None
  /\ (download_url c = None \/ truthy (download_url c) = true)
  /\ title c <> EmptyString
  /\ (title c = ("clip_" ++ format_03d i)%string
      \/ ((String.length (title c) <= 50)%nat
          /\ PyStr.forallb_str title_char (title c) = true)).
Proof.
  unfold extract_clip_info.
  pose proof (find_title_facts element ("clip_" ++ format_03d i)
                               title_selectors w) as Ht.
  destruct (find_title title_selectors element _ w) as [t w1].
  cbn [fst] in Ht.
  pose proof (find_download_facts element None download_selectors w1) as Hd.
  destruct (find_download download_selectors element None w1)
    as [[button url] w2].
  cbn [fst snd] in Hd. destruct Hd as [Hnone Hurl].
  assert (Htitle : t <> EmptyString
                   /\ (t = ("clip_" ++ format_03d i)%string
                       \/ ((String.length t <= 50)%nat
                           /\ PyStr.forallb_str title_char t = true))).
  { destruct Ht as [->|(H1 & H2 & H3)].
    - split; [discriminate|left; reflexivity].
    - split; [exact H1|right; split; assumption]. }
  destruct button as [b|].
  - cbn [fst]. intros [= <-]. cbn [index download_button menu_type
                                   download_url title].
    split; [reflexivity|]. split; [discriminate|]. split; [reflexivity|].
    split; [exact Hurl|exact Htitle].
  - rewrite (Hnone eq_refl). cbn [truthy fst]. discriminate.
Qed.

Lemma extract_all_facts (elements : list WebDriver.WebElement) :
  forall (i0 : Z) (w : World),
    let clips := fst (extract_all i0 elements w) in
    Forall (fun c => download_button c <> None /\ i0 < index c) clips
    /\ StronglySorted Z.lt (map index clips).
Proof.
  induction elements as [|e rest IH]; intros i0 w; cbn [extract_all].
  - cbn. split; constructor.
  - pose proof (extract_clip_info_facts e (i0 + 1) w) as He.
    destruct (extract_clip_info e (i0 + 1) w) as [info w1].
    cbn [fst] in He. specialize (IH (i0 + 1) w1).
    destruct (extract_all (i0 + 1) rest w1) as [clips w2].
    cbn [fst] in IH. destruct IH as [Hall Hsorted].
    assert (Hweak : Forall (fun c => download_button c <> None
                                     /\ i0 < index c) clips).
    { eapply Forall_impl; [|exact Hall]. cbn. intros c [Hb Hi].
      split; [exact Hb|lia]. }
    destruct info as [c|]; cbn [fst]; [|split; assumption].
    destruct (He c eq_refl) as (Hi & Hb & _). split.
    + constructor; [split; [exact Hb|lia]|exact Hweak].
    + cbn [map]. constructor; [exact Hsorted|].
      rewrite Forall_map. eapply Forall_impl; [|exact Hall].
      cbn. intros c' [_ Hlt]. lia.
Qed.

Lemma row_numbers_sorted (n : nat) :
  forall first : Z,
    StronglySorted Z.lt (row_numbers first n)
    /\ Forall (fun i => first <= i) (row_numbers first n).
Proof.
  induction n as [|n IH]; intros first.
  - split; constructor.
  - rewrite row_numbers_cons. destruct (IH (first + 1)) as [Hs Hf].
    split.
    + constructor; [exact Hs|]. eapply Forall_impl; [|exact Hf].
      cbn. intros; lia.
    + constructor; [lia|]. eapply Forall_impl; [|exact Hf].
      cbn. intros; lia.
Qed.

Lemma found_clips_facts (w : World) :
  let clips := fst (find_all_clip_elements w) in
  Forall (fun c => download_button c <> None /\ 1 <= index c) clips
  /\ StronglySorted Z.lt (map index clips).
Proof.
  unfold find_all_clip_elements.
  destruct (gather_buttons button_selectors [] w) as [found w1].
  destruct (unique_buttons found) as [|u us].
  - destruct (first_clip_elements clip_selectors w1) as [elements w2].
    destruct (extract_all_facts elements 0 w2) as [Hall Hs].
    split; [|exact Hs]. eapply Forall_impl; [|exact Hall].
    cbn. intros c [Hb Hi]. split; [exact Hb|lia].
  - cbn [fst]. destruct (menu_clips_facts (u :: us) 1) as (M1 & _ & M3).
    destruct (row_numbers_sorted (List.length (menu_clips 1 (u :: us))) 1)
      as [Hs Hf].
    rewrite <- M1 in Hs, Hf. split; [|exact Hs].
    apply Forall_forall. intros c Hc.
    destruct (M3 c Hc) as ((b & _ & Hb) & _). split.
    + rewrite Hb. discriminate.
    + rewrite Forall_map in Hf. rewrite Forall_forall in Hf.
      exact (Hf c Hc).
Qed.

End FoundClips.

(** X25.  A clip [extract_clip_info] returns has the index it was given
    and a download button; its URL is absent or a non-empty string; its
    title is not empty, and is either the numbered default or at most 50
    characters, all of them letters, digits, spaces, hyphens or
    underscores. *)
Theorem extracted_clip_is_well_formed
        {World : Type} {P : Downloader.ClipsPage World}
        (element : WebDriver.WebElement) (i : Z) (w : World)
        (c : Downloader.ClipInfo) :
  fst (Downloader.extract_clip_info element i w) = Some c ->
  Downloader.index c = i
  /\ Downloader.download_button c <> None
  /\ Downloader.menu_type c = None
  /\ (Downloader.download_url c = None
      \/ Downloader.truthy (Downloader.download_url c) = true)
  /\ Downloader.title c <> EmptyString
  /\ (Downloader.title c = "clip_" ++ Downloader.format_03d i
      \/ ((String.length (Downloader.title c) <= 50)%nat
          /\ PyStr.forallb_str Downloader.title_char (Downloader.title c)
             = true)).
Proof. apply extract_clip_info_facts. Qed.

Lemma extracted_clip_is_well_formed_witness :
  Downloader.title
    (Downloader.mkClipInfo 1 "My clip part 12"
       (Some "https://www.clipscutter.com/download/1")
       (Some (WebDriver.mkElement 32 true)) None)
  <> EmptyString.
Proof.
  assert (E : fst (Downloader.extract_clip_info
                     (P := articles_page) (WebDriver.mkElement 21 true) 1 tt)
              = Some (Downloader.mkClipInfo 1 "My clip part 12"
                        (Some "https://www.clipscutter.com/download/1")
                        (Some (WebDriver.mkElement 32 true)) None)).
  { vm_compute. reflexivity. }
  apply (extracted_clip_is_well_formed _ _ _ _ E).
Defined.

(** X26.  Every clip [find_all_clip_elements] returns, on either of its
    two ways, has a download button and an index of at least 1, and the
    indices increase strictly along the list.  So [download_all_clips]
    starts every clip with its button, and turns to the URL only when the
    button has failed. *)
Theorem found_clips_have_buttons
        {World : Type} {P : Downloader.ClipsPage World} (w : World) :
  let clips := fst (Downloader.find_all_clip_elements w) in
  Forall (fun c => Downloader.download_button c <> None
                   /\ 1 <= Downloader.index c) clips
  /\ StronglySorted Z.lt (map Downloader.index clips)
  /\ (forall c w0,
        In c clips ->
        Downloader.download_one c w0
        = let '(success, w1) := Downloader.download_clip_via_button c w0 in
          if success then (true, w1)
          else if Downloader.truthy (Downloader.download_url c)
               then Downloader.download_clip_via_url c w1
               else (false, w1)).
Proof.
  destruct (found_clips_facts w) as [Hall Hs].
  split; [exact Hall|]. split; [exact Hs|].
  intros c w0 Hc. rewrite Forall_forall in Hall.
  destruct (Hall c Hc) as [Hb _]. unfold Downloader.download_one.
  destruct (Downloader.download_button c); [reflexivity|contradiction].
Qed.

(** ** The exported file *)

Section ExportedFile.
Import CsvReader.
Local Open Scope list_scope.

Lemma rstrip_by_head (p : ascii -> bool) (c : ascii) (r : string) :
  p c = false -> exists r', PyStr.rstrip_by p (String c r) = String c r'.
Proof.
  intros Hc. simpl. destruct (PyStr.rstrip_by p r) as [|c' r'].
  - rewrite Hc. exists EmptyString. reflexivity.
  - exists (String c' r'). reflexivity.
Qed.

(** A string that starts like a URL is not a time. *)
Lemma url_is_no_time (url : string) :
  PyStr.startswith url "http" = true ->
  validate_time_format (PyStr.strip url) = false.
Proof.
  unfold PyStr.startswith. destruct url as [|c r]; [discriminate|].
  cbn [String.prefix]. destruct (ascii_dec "h" c) as [<-|]; [|discriminate].
  intros _. unfold PyStr.strip, PyStr.strip_by.
  cbn [PyStr.lstrip_by].
  replace (PyStr.isspace_char "h") with false by reflexivity.
  destruct (rstrip_by_head PyStr.isspace_char "h" r eq_refl) as [r' ->].
  unfold validate_time_format. cbn [PyStr.split].
  replace (Ascii.eqb "h" ":") with false by reflexivity.
  destruct (PyStr.split ":" r') as [|f0 [|f1 [|f2 [|f3 more]]]];
    reflexivity.
Qed.

Lemma read_rows_all_rejected (rows : list (list string)) :
  Forall (fun row => exists c0 c1 c2 rest,
                       row = c0 :: c1 :: c2 :: rest
                       /\ validate_time_format (PyStr.strip c0) = false)
         rows ->
  forall first : Z,
    read_rows first rows
    = ([], map (fun p => (fst p, "Invalid start time format"%string, snd p))
               (combine (row_numbers first (List.length rows)) rows)).
Proof.
  induction 1 as [|row rest (c0 & c1 & c2 & more & -> & Hv) _ IH];
    intros first; [reflexivity|].
  cbn [read_rows List.length]. rewrite (IH (first + 1)), row_numbers_cons.
  unfold check_row. rewrite Hv. reflexivity.
Qed.

Lemma clip_rows_rejected (cs : list ClipData) (rows : list (list string)) :
  Forall (fun c => validate_youtube_url (youtube_url c) = true) cs ->
  PyStr.map_opt CsvExport.clip_row cs = Some rows ->
  rows = map (fun c => [youtube_url c; start_time c; end_time c;
                        PyStr.decimal (row_number c)]) cs
  /\ Forall (fun row => exists c0 c1 c2 rest,
                          row = c0 :: c1 :: c2 :: rest
                          /\ validate_time_format (PyStr.strip c0) = false)
            rows.
Proof.
  intros Hall. revert rows.
  induction Hall as [|c r Hc _ IH]; intros rows; cbn [PyStr.map_opt].
  - intros [= <-]. split; [reflexivity|constructor].
  - unfold CsvExport.clip_row at 1. unfold PyFormat.str_int.
    destruct (PyStr.within_digit_limit _); [|discriminate].
    destruct (PyStr.map_opt CsvExport.clip_row r) as [rows'|];
      [|discriminate].
    intros [= <-]. destruct (IH rows' eq_refl) as [Hl Hr].
    split; [cbn [map]; rewrite <- Hl; reflexivity|].
    constructor; [|exact Hr].
    exists (youtube_url c), (start_time c), (end_time c),
           [PyStr.decimal (row_number c)].
    split; [reflexivity|]. apply url_is_no_time.
    unfold validate_youtube_url in Hc.
    apply andb_true_iff in Hc as [_ Hc]. exact Hc.
Qed.

Lemma export_facts (self : CSVReader) (writable : bool)
      (rows : list (list string)) :
  Forall (fun c => validate_youtube_url (youtube_url c) = true)
         (List.concat (map snd (grouped_clips self))) ->
  CsvExport.export_grouped_clips self writable = Returned rows ->
  rows
  = ["youtube_url"; "start_time"; "end_time"; "original_row"]%string
    :: map (fun c => [youtube_url c; start_time c; end_time c;
                      PyStr.decimal (row_number c)])
           (List.concat (map snd (grouped_clips self)))
  /\ forall reader : CSVReader,
       fst (read_csv reader (Rows rows))
       = (Returned [],
          map (fun p => (fst p, "Invalid start time format"%string, snd p))
              (combine (row_numbers 1 (List.length rows)) rows)).
Proof.
  intros Hall. unfold CsvExport.export_grouped_clips, CsvExport.clip_rows.
  destruct writable; [|discriminate].
  destruct (PyStr.map_opt CsvExport.clip_row
              (List.concat (map snd (grouped_clips self))))
    as [body|] eqn:E; [|discriminate].
  intros [= <-]. destruct (clip_rows_rejected _ _ Hall E) as [Hl Hr].
  split; [rewrite <- Hl; reflexivity|].
  intros reader. cbn [read_csv].
  assert (Hrows : Forall (fun row => exists c0 c1 c2 rest,
                            row = c0 :: c1 :: c2 :: rest
                            /\ validate_time_format (PyStr.strip c0) = false)
                         (CsvExport.header :: body)).
  { constructor; [|exact Hr].
    exists "youtube_url"%string, "start_time"%string, "end_time"%string,
           ["original_row"%string].
    split; reflexivity. }
  rewrite (read_rows_all_rejected _ Hrows 1). reflexivity.
Qed.

End ExportedFile.

(** X27.  The file [export_grouped_clips] writes has the header row
    [youtube_url, start_time, end_time, original_row] and then, for each
    grouped clip in the order of the groups, the row of its URL, start
    time, end time and row number: the URL is in the first column.  When the
    URLs of the clips are valid and [csv.reader] delivers these rows to
    [read_csv], it returns no clip and reports every row, the header
    included, with the reason [Invalid start time format]. *)
Theorem exported_file_is_not_read_back
        (self : CsvReader.CSVReader) (writable : bool)
        (rows : list (list string)) :
  Forall (fun c => CsvReader.validate_youtube_url (CsvReader.youtube_url c)
                   = true)
         (List.concat (map snd (CsvReader.grouped_clips self))) ->
  CsvExport.export_grouped_clips self writable = Returned rows ->
  rows
  = ["youtube_url"; "start_time"; "end_time"; "original_row"]
    :: map (fun c => [CsvReader.youtube_url c; CsvReader.start_time c;
                      CsvReader.end_time c;
                      PyStr.decimal (CsvReader.row_number c)])
           (List.concat (map snd (CsvReader.grouped_clips self)))
  /\ forall reader : CsvReader.CSVReader,
       fst (CsvReader.read_csv reader (CsvReader.Rows rows))
       = (Returned [],
          map (fun p => (fst p, "Invalid start time format", snd p))
              (combine (row_numbers 1 (List.length rows)) rows)).
Proof. apply export_facts. Qed.

Lemma exported_file_is_not_read_back_witness :
  let rows :=
    [["youtube_url"; "start_time"; "end_time"; "original_row"];
     ["https://youtu.be/a"; "00:00:10"; "00:00:20"; "1"];
     ["https://youtu.be/a"; "00:05:00"; "00:05:30"; "3"]] in
  CsvExport.export_grouped_clips grouped_reader true = Returned rows
  /\ fst (fst (CsvReader.read_csv (CsvReader.init "exported.csv")
                                  (CsvReader.Rows rows)))
     = Returned [].
Proof.
  intros rows.
  assert (E : CsvExport.export_grouped_clips grouped_reader true
              = Returned rows).
  { vm_compute. reflexivity. }
  assert (Hall : Forall
                   (fun c => CsvReader.validate_youtube_url
                               (CsvReader.youtube_url c) = true)
                   (List.concat
                      (map snd (CsvReader.grouped_clips grouped_reader)))).
  { repeat constructor. }
  destruct (exported_file_is_not_read_back grouped_reader true rows Hall E)
    as [_ Hread].
  split; [exact E|]. rewrite (Hread (CsvReader.init "exported.csv")).
  reflexivity.
Defined.
